(** * The PyTorch quickstart notebook, embedded and verified

    The repository is one notebook, [00_Quickstart.ipynb].  Its own code is
    the functions [train] and [test], the epoch loop, the save and load
    cells and the prediction cell; everything else is a call into PyTorch.

    The development has three layers:
    - [torch], [nn], [data], [optim]: a functional model of the PyTorch
      operations the notebook calls, restricted to the way the notebook
      calls them (tensors over the rationals instead of floating point);
    - [prog]: the notebook's statements as a small program monad whose
      effects are exactly the library calls that touch the interpreter state
      (the model, the optimizer, the gradient mode, the console, the file
      system), with an interpreter giving them meaning;
    - the notebook's functions, transcribed statement by statement, and the
      theorems about them. *)

From Stdlib Require Import QArith Qcanon Lia.
From stdpp Require Import gmap strings list fin_maps.

(** ** Python results *)

Inductive Exn : Type :=
| RuntimeError
| IndexError
| TypeError
| ZeroDivisionError
| FileNotFoundError.

Inductive Result (A : Type) : Type :=
| Ok (a : A)
| Raised (e : Exn).
Arguments Ok {A} a.
Arguments Raised {A} e.

Definition is_ok {A} (r : Result A) : bool :=
  match r with Ok _ => true | Raised _ => false end.

(** ** Tensors *)

Module torch.

(** A tensor is its shape and its entries in row-major order.  PyTorch
    keeps [length data = numel shape]; operations below that look at the
    entries check it. *)
Record Tensor : Type := mkTensor { shape : list nat; data : list Qc }.

Definition numel (s : list nat) : nat := foldr Nat.mul 1 s.

Definition well_shaped (t : Tensor) : bool :=
  length (data t) =? numel (shape t).

(** [same_size a b]: the test behind "size mismatch". *)
Definition same_size (a b : Tensor) : bool :=
  bool_decide (shape a = shape b) && (length (data a) =? length (data b)).

(** The [count] consecutive rows of [width] entries of a row-major list. *)
Fixpoint chunks {A} (count width : nat) (l : list A) : list (list A) :=
  match count with
  | 0 => []
  | S c => take width l :: chunks c width (drop width l)
  end.

(** [len(X)]: the size of the first dimension. *)
Definition len (t : Tensor) : Result nat :=
  match shape t with
  | [] => Raised TypeError
  | n :: _ => Ok n
  end.

(** Index of the first maximal entry, as [torch.argmax] returns it. *)
Fixpoint argmax_from (l : list Qc) (i best_i : nat) (best : Qc) : nat :=
  match l with
  | [] => best_i
  | x :: l' =>
      if bool_decide (x ≤ best)%Qc then argmax_from l' (S i) best_i best
      else argmax_from l' (S i) i x
  end.

Definition argmax (l : list Qc) : nat :=
  match l with
  | [] => 0
  | x :: l' => argmax_from l' 1 0 x
  end.

(** [t.argmax(1)] on a matrix: one index per row. *)
Definition argmax1 (t : Tensor) : Result (list nat) :=
  match shape t with
  | [n; c] =>
      if (c =? 0) || negb (well_shaped t) then Raised IndexError
      else Ok (argmax <$> chunks n c (data t))
  | _ => Raised IndexError
  end.

(** [t[0]] on a matrix: its first row. *)
Definition getitem0 (t : Tensor) : Result Tensor :=
  match shape t with
  | [n; c] =>
      if (n =? 0) || negb (well_shaped t) then Raised IndexError
      else Ok (mkTensor [c] (take c (data t)))
  | _ => Raised IndexError
  end.

(** [v.argmax(0)] on a vector. *)
Definition argmax0 (v : Tensor) : Result nat :=
  match shape v with
  | [c] =>
      if (c =? 0) || negb (well_shaped v) then Raised IndexError
      else Ok (argmax (data v))
  | _ => Raised IndexError
  end.

(** [(a == y).type(torch.float).sum().item()]: the number of positions
    where the two index vectors agree.  [a] and [y] always come from the
    same batch, so they have the same length. *)
Definition count_eq (a y : list nat) : nat :=
  length (filter (λ p, p.1 = p.2) (zip a y)).

End torch.

(** ** Layers *)

Module nn.
Import torch.

(** [nn.Flatten()]: [start_dim = 1], [end_dim = -1]. *)
Definition Flatten (x : Tensor) : Result Tensor :=
  match shape x with
  | n :: d :: rest => Ok (mkTensor [n; numel (d :: rest)] (data x))
  | _ => Raised IndexError
  end.

Definition relu (q : Qc) : Qc := if bool_decide (q ≤ 0)%Qc then 0%Qc else q.

(** [nn.ReLU()]. *)
Definition ReLU (x : Tensor) : Tensor :=
  mkTensor (shape x) (relu <$> data x).

Definition dot (w x : list Qc) : Qc := foldr Qcplus 0%Qc (zip_with Qcmult w x).

(** [F.linear(x, weight, bias)] on a batch of row vectors:
    [x @ weight.T + bias]. *)
Definition linear (weight bias x : Tensor) : Result Tensor :=
  match shape x, shape weight, shape bias with
  | [n; d], [o; i], [o'] =>
      if (d =? i) && (o' =? o)
         && well_shaped x && well_shaped weight && well_shaped bias
      then
        let rows := chunks o i (data weight) in
        Ok (mkTensor [n; o]
              (concat ((λ r, zip_with (λ w b, dot w r + b)%Qc rows (data bias))
                         <$> chunks n d (data x))))
      else Raised RuntimeError
  | _, _, _ => Raised RuntimeError
  end.

(** [nn.Linear]: the layer registered under [name] reads its weight and
    bias from the module's parameters. *)
Definition Linear (name : string) (params : gmap string Tensor)
    (x : Tensor) : Result Tensor :=
  match params !! (name +:+ ".weight"), params !! (name +:+ ".bias") with
  | Some w, Some b => linear w b x
  | _, _ => Raised RuntimeError
  end.

End nn.

(** ** Sequencing of results *)

#[global] Instance Result_ret : MRet Result := λ _ a, Ok a.
#[global] Instance Result_bind : MBind Result := λ _ _ k r,
  match r with
  | Ok a => k a
  | Raised e => Raised e
  end.

(** ** The class [NeuralNetwork] (cell 5) *)

Module NeuralNetwork.
Import torch nn.

(** The parameters [nn.Linear(in_features, out_features)] registers. *)
Definition Linear_shapes (name : string) (in_features out_features : nat)
    : list (string * list nat) :=
  [(name +:+ ".weight", [out_features; in_features]);
   (name +:+ ".bias", [out_features])].

(** [__init__]: the three linear layers of [linear_relu_stack], at positions
    0, 2 and 4 of the [nn.Sequential]; [nn.Flatten] and [nn.ReLU] have no
    parameters. *)
Definition parameter_shapes : list (string * list nat) :=
  Linear_shapes "linear_relu_stack.0" (28 * 28) 512
  ++ Linear_shapes "linear_relu_stack.2" 512 512
  ++ Linear_shapes "linear_relu_stack.4" 512 10.

(** The constructor fills every parameter with values drawn from the random
    generator; [rng] is the sequence of values still to be drawn. *)
Fixpoint init_parameters (shapes : list (string * list nat)) (rng : nat → Qc)
    : gmap string Tensor * (nat → Qc) :=
  match shapes with
  | [] => (∅, rng)
  | (k, s) :: rest =>
      let t := mkTensor s (rng <$> seq 0 (numel s)) in
      let '(m, rng') := init_parameters rest (λ i, rng (numel s + i)) in
      (<[k := t]> m, rng')
  end.

Arguments init_parameters : simpl never.

(** [forward]. *)
Definition forward (params : gmap string Tensor) (x : Tensor) : Result Tensor :=
  x ← Flatten x;
  h ← Linear "linear_relu_stack.0" params x;
  h ← Linear "linear_relu_stack.2" params (ReLU h);
  Linear "linear_relu_stack.4" params (ReLU h).

(** The parameters have the names, shapes and sizes the constructor gave
    them. *)
Definition topology_ok (params : gmap string Tensor) : bool :=
  forallb (λ ks, match params !! ks.1 with
                 | Some t => bool_decide (shape t = ks.2) && well_shaped t
                 | None => false
                 end) parameter_shapes
  && bool_decide (dom params = list_to_set parameter_shapes.*1).

End NeuralNetwork.

(** ** Data sets and data loaders (cells 3 and 4) *)

Module data.
Import torch.

(** An item of [datasets.FashionMNIST(..., transform=ToTensor())]: the
    pixels of a one-channel 28 x 28 image and its class. *)
Record Sample : Type := mkSample { image : list Qc; label : nat }.

Definition image_shape : list nat := [1; 28; 28].

(** [dataset[i][0]]. *)
Definition image_tensor (s : Sample) : Tensor := mkTensor image_shape (image s).

(** [DataLoader(dataset, batch_size=batch_size)]: every other argument has
    its default, so there is no shuffling and the last, possibly shorter,
    batch is kept ([drop_last=False]).  The constructor rejects a batch
    size of 0. *)
Record DataLoader : Type :=
  mkDataLoader { dataset : list Sample; batch_size : nat }.

(** [len(dataloader)]: the number of batches. *)
Definition len (dl : DataLoader) : nat :=
  (length (dataset dl) + batch_size dl - 1) / batch_size dl.

(** The default collate function stacks the images of a batch and gathers
    its labels. *)
Definition collate (samples : list Sample) : Tensor * list nat :=
  (mkTensor (length samples :: image_shape) (concat (image <$> samples)),
   label <$> samples).

(** The groups of samples the loader yields, in order. *)
Definition batches (dl : DataLoader) : list (list Sample) :=
  chunks (len dl) (batch_size dl) (dataset dl).

(** [iter(dataloader)]: the batches [(X, y)]. *)
Definition iter (dl : DataLoader) : list (Tensor * list nat) :=
  collate <$> batches dl.

End data.

(** ** Interpreter state *)

Import torch.

(** A module instance: its parameters by name, their [.grad] fields (absent
    when [None]) and the [training] flag. *)
Record Module_ : Type := mkModule {
  parameters : gmap string Tensor;
  grads : gmap string Tensor;
  training : bool
}.

(** A model output remembers, when gradient mode is on, the computation it
    came from: the parameters and the input. *)
Record Pred : Type := mkPred {
  value : Tensor;
  pred_graph : option (gmap string Tensor * Tensor)
}.

(** A loss remembers the same together with the labels. *)
Record Loss : Type := mkLoss {
  item : Qc;
  loss_graph : option (gmap string Tensor * Tensor * list nat)
}.

(** What the notebook prints, before formatting. *)
Inductive Line : Type :=
| TrainProgress (loss : Qc) (current size : nat)
| TestError (accuracy_percent avg_loss : Qc)
| EpochHeader (t : nat)
| Done
| Saved
| Prediction (predicted actual : string).

(** The state the cells share: the object bound to the global [model], the
    gradient mode, the random generator, the console and the files.

    The optimizer of cell 6 holds the parameter tensors of the model it was
    built on.  [optimizer_bound] says that these are the tensors of the
    current [model]; cell 11 binds [model] to a new object, and from then on
    the optimizer works on tensors that [model] does not reach. *)
Record World : Type := mkWorld {
  model : Module_;
  optimizer_bound : bool;
  grad_enabled : bool;
  rng : nat → Qc;
  stdout : list Line;
  files : gmap string (list (string * Tensor))
}.

Definition set_model (f : Module_ → Module_) (w : World) : World :=
  mkWorld (f (model w)) (optimizer_bound w) (grad_enabled w) (rng w)
    (stdout w) (files w).

Definition set_grad_enabled (b : bool) (w : World) : World :=
  mkWorld (model w) (optimizer_bound w) b (rng w) (stdout w) (files w).

Definition set_parameters (p : gmap string Tensor) (m : Module_) : Module_ :=
  mkModule p (grads m) (training m).

Definition set_grads (g : gmap string Tensor) (m : Module_) : Module_ :=
  mkModule (parameters m) g (training m).

Definition set_training (b : bool) (m : Module_) : Module_ :=
  mkModule (parameters m) (grads m) b.

(** ** The optimizer (cell 6) *)

Module optim.

(** [p - lr * g], entry by entry. *)
Definition sgd_update (lr : Qc) (p g : Tensor) : Tensor :=
  mkTensor (shape p) (zip_with (λ x d, x - lr * d)%Qc (data p) (data g)).

(** [SGD.step()] without momentum or weight decay: every parameter that has
    a gradient moves against it. *)
Definition step (lr : Qc) (params grads : gmap string Tensor)
    : gmap string Tensor :=
  map_imap (λ k p, Some (match grads !! k with
                         | Some g => sgd_update lr p g
                         | None => p
                         end)) params.

(** [lr=1e-3]. *)
Definition lr : Qc := Q2Qc (1 # 1000).

End optim.

(** ** [load_state_dict] *)

(** [module.load_state_dict(state_dict)] with [strict=True]: every parameter
    whose key is present with the right size is copied; then a missing key,
    an unexpected key or a size mismatch raises [RuntimeError]. *)
Definition missing_keys (state_dict params : gmap string Tensor) : gset string :=
  dom params ∖ dom state_dict.

Definition unexpected_keys (state_dict params : gmap string Tensor) : gset string :=
  dom state_dict ∖ dom params.

Definition size_mismatch (state_dict : gmap string Tensor)
    (kp : string * Tensor) : bool :=
  match state_dict !! kp.1 with
  | Some t => negb (same_size t kp.2)
  | None => false
  end.

Definition size_mismatches (state_dict params : gmap string Tensor) : gset string :=
  dom (filter (λ kp, size_mismatch state_dict kp = true) params).

Definition copy_parameters (state_dict params : gmap string Tensor)
    : gmap string Tensor :=
  map_imap (λ k p, Some (match state_dict !! k with
                         | Some t => if same_size t p then t else p
                         | None => p
                         end)) params.

Definition load_state_dict (state_dict params : gmap string Tensor)
    : Result unit * gmap string Tensor :=
  let params' := copy_parameters state_dict params in
  if bool_decide (missing_keys state_dict params = ∅)
     && bool_decide (unexpected_keys state_dict params = ∅)
     && bool_decide (size_mismatches state_dict params = ∅)
  then (Ok (), params')
  else (Raised RuntimeError, params').

(** ** Library calls as effects *)

(** The calls of the notebook that read or change the interpreter state,
    each with the type of what it returns. *)
Inductive torchE : Type → Type :=
| model_train : torchE unit
| model_eval : torchE unit
| model_call (X : Tensor) : torchE Pred
| loss_fn_call (pred : Pred) (y : list nat) : torchE Loss
| loss_backward (loss : Loss) : torchE unit
| optimizer_step : torchE unit
| optimizer_zero_grad : torchE unit
| print (l : Line) : torchE unit
| model_state_dict : torchE (gmap string Tensor)
| torch_save (obj : gmap string Tensor) (f : string) : torchE unit
| torch_load (f : string) : torchE (gmap string Tensor)
| NeuralNetwork_new : torchE unit
| model_load_state_dict (state_dict : gmap string Tensor) : torchE unit.

(** The kind of a call, for traces. *)
Inductive Call : Type :=
| CTrainMode | CEvalMode | CForward | CLossFn | CBackward | CStep | CZeroGrad
| CPrint | CStateDict | CSave | CLoad | CNew | CLoadStateDict
| CNoGradEnter | CNoGradExit.

Definition call_of {X} (e : torchE X) : Call :=
  match e with
  | model_train => CTrainMode
  | model_eval => CEvalMode
  | model_call _ => CForward
  | loss_fn_call _ _ => CLossFn
  | loss_backward _ => CBackward
  | optimizer_step => CStep
  | optimizer_zero_grad => CZeroGrad
  | print _ => CPrint
  | model_state_dict => CStateDict
  | torch_save _ _ => CSave
  | torch_load _ => CLoad
  | NeuralNetwork_new => CNew
  | model_load_state_dict _ => CLoadStateDict
  end.

(** Programs: a statement returns, raises, makes a library call and goes on
    with its result, or runs a block under [with torch.no_grad():]. *)
Inductive prog (A : Type) : Type :=
| Ret (a : A)
| Throw (e : Exn)
| Vis {X} (e : torchE X) (k : X → prog A)
| NoGrad {X} (body : prog X) (k : X → prog A).
Arguments Ret {A} a.
Arguments Throw {A} e.
Arguments Vis {A X} e k.
Arguments NoGrad {A X} body k.

Fixpoint bind {A B} (p : prog A) (k : A → prog B) : prog B :=
  match p with
  | Ret a => k a
  | Throw e => Throw e
  | Vis e h => Vis e (λ x, bind (h x) k)
  | NoGrad body h => NoGrad body (λ x, bind (h x) k)
  end.

Definition trigger {X} (e : torchE X) : prog X := Vis e Ret.
Coercion trigger : torchE >-> prog.

(** A pure library function that may raise. *)
Definition lift {A} (r : Result A) : prog A :=
  match r with
  | Ok a => Ret a
  | Raised e => Throw e
  end.
Coercion lift : Result >-> prog.

(** [with torch.no_grad(): body]. *)
Definition no_grad {A} (body : prog A) : prog A := NoGrad body Ret.

Declare Scope prog_scope.
Delimit Scope prog_scope with prog.
Bind Scope prog_scope with prog.
Notation "x ← y ; z" := (bind y (λ x : _, z))
  (at level 20, y at level 100, z at level 200, only parsing) : prog_scope.
Notation "' x ← y ; z" := (bind y (λ x : _, z))
  (at level 20, x pattern, y at level 100, z at level 200, only parsing)
  : prog_scope.
Notation "x ;; z" := (bind x (λ _, z))
  (at level 100, z at level 200, only parsing, right associativity)
  : prog_scope.

(** [for a in l: body a]. *)
Fixpoint for_ {A} (l : list A) (body : A → prog unit) : prog unit :=
  match l with
  | [] => Ret ()
  | a :: l' => bind (body a) (λ _, for_ l' body)
  end.

(** A loop that updates local variables [acc]. *)
Fixpoint for_acc {A S} (l : list A) (acc : S) (body : S → A → prog S)
    : prog S :=
  match l with
  | [] => Ret acc
  | a :: l' => bind (body acc a) (λ acc', for_acc l' acc' body)
  end.

(** [enumerate(l)]. *)
Definition enumerate {A} (l : list A) : list (nat * A) :=
  zip (seq 0 (length l)) l.

(** [range(n)]. *)
Definition range (n : nat) : list nat := seq 0 n.

(** Python's [a / b] on a float and an integer. *)
Definition truediv (a : Qc) (b : nat) : Result Qc :=
  if b =? 0 then Raised ZeroDivisionError
  else Ok (a / Qc_of_Z (Z.of_nat b))%Qc.

(** [l[i]] on a Python list. *)
Definition getitem {A} (l : list A) (i : nat) : Result A :=
  match l !! i with
  | Some a => Ok a
  | None => Raised IndexError
  end.

(** ** Sample inputs *)

(** A model with every parameter zero. *)
Definition zero_parameters : gmap string Tensor :=
  list_to_map ((λ ks : string * list nat,
                  (ks.1, mkTensor ks.2 (replicate (numel ks.2) 0%Qc)))
                 <$> NeuralNetwork.parameter_shapes).

(** The state of a fresh notebook with that model: gradient mode on, no
    gradient stored, nothing printed, no file. *)
Definition fresh_world : World :=
  mkWorld (mkModule zero_parameters ∅ true) true true (λ _, 0%Qc) [] ∅.

(** The same model later in a session: evaluation mode, gradient mode off,
    some output on the console. *)
Definition later_world : World :=
  mkWorld (mkModule zero_parameters ∅ false) true false (λ _, 1%Qc) [Done] ∅.

(** A black image labelled "Ankle boot". *)
Definition blank_image : data.Sample :=
  data.mkSample (replicate (28 * 28) 0%Qc) 9.

(** Data sets of the sizes of FashionMNIST: 60000 training samples and
    10000 test samples. *)
Definition reference_training_data : list data.Sample :=
  replicate (600 * 100) blank_image.

Definition reference_test_data : list data.Sample :=
  replicate (100 * 100) blank_image.

(** A loss function and a gradient for the examples. *)
Definition unit_loss (pred : Tensor) (y : list nat) : Result Qc := Ok 1%Qc.

Definition unit_gradient (params : gmap string Tensor) (X : Tensor)
    (y : list nat) (k : string) (j : nat) : Qc := 1%Qc.

(** ** The notebook *)

Section Notebook.

Import data.
Local Open Scope prog_scope.

(** The callable bound to [loss_fn] (the notebook binds
    [nn.CrossEntropyLoss()]): the loss of a batch of class scores against
    the labels. *)
Variable loss_fn : Tensor → list nat → Result Qc.

(** Automatic differentiation: [autograd params X y k j] is entry [j] of the
    gradient, with respect to parameter [k], of the loss of the model with
    parameters [params] on the batch [(X, y)]. *)
Variable autograd : gmap string Tensor → Tensor → list nat → string → nat → Qc.

(** The data sets of cell 3. *)
Variable training_data test_data : list Sample.

(** The gradient [loss.backward()] computes for each parameter; it has the
    parameter's shape. *)
Definition gradient (params : gmap string Tensor) (X : Tensor) (y : list nat)
    : gmap string Tensor :=
  map_imap (λ k p, Some (mkTensor (shape p)
                           (autograd params X y k <$> seq 0 (length (data p)))))
    params.

Definition tensor_add (a b : Tensor) : Tensor :=
  mkTensor (shape a) (zip_with Qcplus (data a) (data b)).

(** [backward] adds to the gradients already stored. *)
Definition accumulate (old new : gmap string Tensor) : gmap string Tensor :=
  union_with (λ o n, Some (tensor_add o n)) old new.

(** The meaning of each library call. *)
Definition handle {X} (e : torchE X) (w : World) : Result X * World :=
  match e in torchE X return Result X * World with
  | model_train => (Ok (), set_model (set_training true) w)
  | model_eval => (Ok (), set_model (set_training false) w)
  | model_call x =>
      match NeuralNetwork.forward (parameters (model w)) x with
      | Ok t =>
          (Ok (mkPred t (if grad_enabled w
                         then Some (parameters (model w), x) else None)), w)
      | Raised ex => (Raised ex, w)
      end
  | loss_fn_call pred y =>
      match loss_fn (value pred) y with
      | Ok l =>
          (Ok (mkLoss l (if grad_enabled w
                         then (λ g, (g.1, g.2, y)) <$> pred_graph pred
                         else None)), w)
      | Raised ex => (Raised ex, w)
      end
  | loss_backward loss =>
      match loss_graph loss with
      | Some (p, x, y) =>
          (Ok (), set_model (λ m, set_grads (accumulate (grads m) (gradient p x y)) m) w)
      | None => (Raised RuntimeError, w)
      end
  | optimizer_step =>
      if optimizer_bound w
      then (Ok (), set_model (λ m, set_parameters
                                    (optim.step optim.lr (parameters m) (grads m)) m) w)
      else (Ok (), w)
  | optimizer_zero_grad =>
      if optimizer_bound w then (Ok (), set_model (set_grads ∅) w) else (Ok (), w)
  | print l =>
      (Ok (), mkWorld (model w) (optimizer_bound w) (grad_enabled w) (rng w)
                (stdout w ++ [l]) (files w))
  | model_state_dict => (Ok (parameters (model w)), w)
  | torch_save obj f =>
      (Ok (), mkWorld (model w) (optimizer_bound w) (grad_enabled w) (rng w)
                (stdout w) (<[f := map_to_list obj]> (files w)))
  | torch_load f =>
      match files w !! f with
      | Some blob => (Ok (list_to_map blob), w)
      | None => (Raised FileNotFoundError, w)
      end
  | NeuralNetwork_new =>
      let '(p, rng') :=
        NeuralNetwork.init_parameters NeuralNetwork.parameter_shapes (rng w) in
      (Ok (), mkWorld (mkModule p ∅ true) false (grad_enabled w) rng' (stdout w)
                (files w))
  | model_load_state_dict state_dict =>
      let '(r, p) := load_state_dict state_dict (parameters (model w)) in
      (r, set_model (set_parameters p) w)
  end.

(** Running a program: the result, or the exception that ended it, and the
    state it leaves. *)
Fixpoint interp {A} (p : prog A) (w : World) : Result A * World :=
  match p with
  | Ret a => (Ok a, w)
  | Throw e => (Raised e, w)
  | Vis e k =>
      match handle e w with
      | (Ok x, w') => interp (k x) w'
      | (Raised ex, w') => (Raised ex, w')
      end
  | NoGrad body k =>
      let prev := grad_enabled w in
      match interp body (set_grad_enabled false w) with
      | (Ok x, w') => interp (k x) (set_grad_enabled prev w')
      | (Raised ex, w') => (Raised ex, set_grad_enabled prev w')
      end
  end.

(** The library calls a run makes, in order. *)
Fixpoint trace {A} (p : prog A) (w : World) : list Call :=
  match p with
  | Ret _ => []
  | Throw _ => []
  | Vis e k =>
      call_of e ::
      match handle e w with
      | (Ok x, w') => trace (k x) w'
      | (Raised _, _) => []
      end
  | NoGrad body k =>
      let prev := grad_enabled w in
      CNoGradEnter :: trace body (set_grad_enabled false w) ++
      CNoGradExit ::
      match interp body (set_grad_enabled false w) with
      | (Ok x, w') => trace (k x) (set_grad_enabled prev w')
      | (Raised _, _) => []
      end
  end.

(** *** Cell 4 *)

Definition batch_size : nat := 64.

Definition train_dataloader : DataLoader := mkDataLoader training_data batch_size.
Definition test_dataloader : DataLoader := mkDataLoader test_data batch_size.

(** *** Cell 7: [train] *)

(** The body of the loop: one batch. *)
Definition train_body (size batch : nat) (X : Tensor) (y : list nat)
    : prog unit :=
  pred ← model_call X;
  loss ← loss_fn_call pred y;
  loss_backward loss ;;
  optimizer_step ;;
  optimizer_zero_grad ;;
  if batch mod 100 =? 0 then
    n ← torch.len X;
    let current := (batch + 1) * n in
    print (TrainProgress (item loss) current size)
  else Ret ().

Definition train (dataloader : DataLoader) : prog unit :=
  let size := length (dataset dataloader) in
  model_train ;;
  for_ (enumerate (iter dataloader)) (λ '(batch, (X, y)),
    train_body size batch X y).

(** *** Cell 8: [test] *)

Definition test (dataloader : DataLoader) : prog unit :=
  let size := length (dataset dataloader) in
  let num_batches := data.len dataloader in
  model_eval ;;
  no_grad (
    '(test_loss, correct) ←
      for_acc (iter dataloader) (0%Qc, 0%Qc) (λ '(test_loss, correct) '(X, y),
        pred ← model_call X;
        loss ← loss_fn_call pred y;
        hits ← argmax1 (value pred);
        Ret ((test_loss + item loss)%Qc,
             (correct + Qc_of_Z (Z.of_nat (count_eq hits y)))%Qc));
    test_loss ← truediv test_loss num_batches;
    correct ← truediv correct size;
    print (TestError (Qc_of_Z 100 * correct)%Qc test_loss)).

(** *** Cell 9: the epochs *)

Definition epochs : nat := 5.

Definition run_epochs (epochs : nat) : prog unit :=
  for_ (range epochs) (λ t,
    print (EpochHeader (t + 1)) ;;
    train train_dataloader ;;
    test test_dataloader) ;;
  print Done.

(** *** Cells 10 and 11: saving and loading *)

Definition save : prog unit :=
  state_dict ← model_state_dict;
  torch_save state_dict "model.pth" ;;
  print Saved.

Definition load : prog unit :=
  NeuralNetwork_new ;;
  state_dict ← torch_load "model.pth";
  model_load_state_dict state_dict.

(** *** Cell 12: a prediction *)

Definition classes : list string :=
  ["T-shirt/top"; "Trouser"; "Pullover"; "Dress"; "Coat"; "Sandal"; "Shirt";
   "Sneaker"; "Bag"; "Ankle boot"].

(** The index the cell computes for the image [x]: [pred[0].argmax(0)]
    after [model.eval()], under [torch.no_grad()]. *)
Definition predict (x : Tensor) : prog nat :=
  model_eval ;;
  no_grad (
    pred ← model_call x;
    row ← getitem0 (value pred);
    argmax0 row).

Definition prediction_cell (item : nat) : prog unit :=
  model_eval ;;
  s ← getitem test_data item;
  let '(x, y) := (image_tensor s, label s) in
  no_grad (
    pred ← model_call x;
    row ← getitem0 (value pred);
    k ← argmax0 row;
    predicted ← getitem classes k;
    actual ← getitem classes y;
    print (Prediction predicted actual)).

(** *** What the loops compute

    The loops of [test] and [train], as functions of the parameters; the
    theorems below relate the runs of the two functions to them. *)

(** One turn of the loop of [test]: the loss and the number of correct
    top-1 predictions of a batch are added to the running totals. *)
Definition eval_batch (params : gmap string Tensor) (acc : Qc * Qc)
    (b : Tensor * list nat) : Result (Qc * Qc) :=
  (t ← NeuralNetwork.forward params b.1;
   l ← loss_fn t b.2;
   hits ← argmax1 t;
   Ok ((acc.1 + l)%Qc, (acc.2 + Qc_of_Z (Z.of_nat (count_eq hits b.2)))%Qc))%stdpp.

Fixpoint eval_batches (params : gmap string Tensor)
    (bs : list (Tensor * list nat)) (acc : Qc * Qc) : Result (Qc * Qc) :=
  match bs with
  | [] => Ok acc
  | b :: bs' =>
      match eval_batch params acc b with
      | Ok acc' => eval_batches params bs' acc'
      | Raised e => Raised e
      end
  end.

(** The pair (average loss, fraction correct) that [test] reports. *)
Definition metrics (params : gmap string Tensor) (dl : DataLoader)
    : Result (Qc * Qc) :=
  (totals ← eval_batches params (iter dl) (0%Qc, 0%Qc);
   test_loss ← truediv totals.1 (data.len dl);
   correct ← truediv totals.2 (length (dataset dl));
   Ok (test_loss, correct))%stdpp.

(** One batch of training as the description of [train] has it, on the
    parameters and their stored gradients: compute the predictions, compute
    the loss, compute the gradients of the loss (they add to the stored
    ones), apply one optimizer step, reset the gradients.  The loss is
    returned too. *)
Definition spec_train_batch (pg : gmap string Tensor * gmap string Tensor)
    (b : Tensor * list nat)
    : Result (gmap string Tensor * gmap string Tensor * Qc) :=
  (pred ← NeuralNetwork.forward pg.1 b.1;
   loss ← loss_fn pred b.2;
   let g := accumulate pg.2 (gradient pg.1 b.1 b.2) in
   Ok (optim.step optim.lr pg.1 g, ∅, loss))%stdpp.

(** The batches in order; the result is the final parameters and gradients
    and the loss of every batch. *)
Fixpoint spec_train_batches (pg : gmap string Tensor * gmap string Tensor)
    (bs : list (Tensor * list nat))
    : Result (gmap string Tensor * gmap string Tensor * list Qc) :=
  match bs with
  | [] => Ok (pg, [])
  | b :: bs' =>
      match spec_train_batch pg b with
      | Ok (p', g', l) =>
          match spec_train_batches (p', g') bs' with
          | Ok (pg'', ls) => Ok (pg'', l :: ls)
          | Raised e => Raised e
          end
      | Raised e => Raised e
      end
  end.

(** The lines [train] prints: one for every batch whose index is a multiple
    of 100. *)
Definition progress_line (size : nat) (ibl : nat * ((Tensor * list nat) * Qc))
    : Line :=
  TrainProgress ibl.2.2 ((ibl.1 + 1) * length ibl.2.1.2) size.

Definition progress_lines (size : nat) (bs : list (Tensor * list nat))
    (losses : list Qc) : list Line :=
  progress_line size
    <$> filter (λ ibl, ibl.1 mod 100 = 0) (enumerate (zip bs losses)).

(** The calls of one turn of the loop of [train], and of a whole call. *)
Definition train_batch_calls (batch : nat) : list Call :=
  [CForward; CLossFn; CBackward; CStep; CZeroGrad]
  ++ (if batch mod 100 =? 0 then [CPrint] else []).

Definition train_calls (num_batches : nat) : list Call :=
  CTrainMode :: concat (train_batch_calls <$> seq 0 num_batches).

(** The calls of a whole call of [test]. *)
Definition test_calls (num_batches : nat) : list Call :=
  CEvalMode :: CNoGradEnter
  :: concat (replicate num_batches [CForward; CLossFn])
  ++ [CPrint; CNoGradExit].

(** [n] epochs of training on the parameters. *)
Fixpoint spec_train_epochs (n : nat) (pg : gmap string Tensor * gmap string Tensor)
    : Result (gmap string Tensor * gmap string Tensor) :=
  match n with
  | 0 => Ok pg
  | S n' =>
      match spec_train_batches pg (iter train_dataloader) with
      | Ok (pg', _) => spec_train_epochs n' pg'
      | Raised e => Raised e
      end
  end.

(** *** Well-formed inputs *)

(** The data source yields one-channel 28 x 28 images and labels in
    [0, 9]. *)
Definition sample_ok (s : Sample) : bool :=
  (length (image s) =? 28 * 28) && (label s <? 10).

(** [loss_fn] accepts a batch of ten scores per sample with labels in
    [0, 9], as [nn.CrossEntropyLoss()] does. *)
Definition loss_fn_total : Prop :=
  ∀ (t : Tensor) (y : list nat),
    shape t = [length y; 10] → well_shaped t = true →
    forallb (λ c, c <? 10) y = true → is_ok (loss_fn t y) = true.

(** [loss_fn] returns no negative value, as [nn.CrossEntropyLoss()]
    does not. *)
Definition loss_fn_nonneg : Prop :=
  ∀ (t : Tensor) (y : list nat) (l : Qc), loss_fn t y = Ok l → (0 ≤ l)%Qc.

(** An event that leaves the parameters of the model alone. *)
Definition keeps_parameters {X} (e : torchE X) : Prop :=
  match e with
  | optimizer_step | NeuralNetwork_new | model_load_state_dict _ => False
  | _ => True
  end.



(** Every call a program can make satisfies [P]. *)
Inductive calls_only (P : ∀ X, torchE X → Prop) : ∀ A, prog A → Prop :=
| calls_only_Ret {A} (a : A) : calls_only P A (Ret a)
| calls_only_Throw {A} (e : Exn) : calls_only P A (Throw e)
| calls_only_Vis {A X} (e : torchE X) (k : X → prog A) :
    P X e → (∀ x, calls_only P A (k x)) → calls_only P A (Vis e k)
| calls_only_NoGrad {A X} (body : prog X) (k : X → prog A) :
    calls_only P X body → (∀ x, calls_only P A (k x)) →
    calls_only P A (NoGrad body k).

(** The names and sizes of a parameter mapping: what [load_state_dict]
    compares. *)
Definition topology (params : gmap string Tensor) : gmap string (list nat * nat) :=
  (λ t, (shape t, length (data t))) <$> params.

(** A batch as the loaders build it from well-formed samples: [len(y)]
    images in [X], all entries present, labels in [0, 9]. *)
Definition batch_ok (b : Tensor * list nat) : Prop :=
  shape b.1 = length b.2 :: image_shape ∧ well_shaped b.1 = true
  ∧ forallb (λ c, c <? 10) b.2 = true.

(** The state between two cells of a training session: the optimizer works
    on the model, gradient mode is on, no gradient is stored, and the
    parameters of the model have the shapes of the class. *)
Definition ready (w : World) : bool :=
  optimizer_bound w && grad_enabled w && bool_decide (grads (model w) = ∅)
  && NeuralNetwork.topology_ok (parameters (model w)).

(** The output of epoch [t] (counted from 0): the header, the progress
    lines of [train], the report of [test]. *)
Definition epoch_output (t : nat) (report : list Line * Qc * Qc) : list Line :=
  EpochHeader (t + 1) :: report.1.1 ++ [TestError report.1.2 report.2].

Definition is_progress (l : Line) : Prop :=
  match l with
  | TrainProgress _ _ _ => True
  | _ => False
  end.

(** The calls of one epoch: the header is printed, [train] runs on the
    training batches, then [test] on the test batches. *)
Definition epoch_calls : list Call :=
  CPrint :: train_calls (data.len train_dataloader)
  ++ test_calls (data.len test_dataloader).

(** The index the prediction computes, as a function of the parameters. *)
Definition predict_index (params : gmap string Tensor) (x : Tensor)
    : Result nat :=
  (t ← NeuralNetwork.forward params x;
   row ← getitem0 t;
   argmax0 row)%stdpp.

(** The names and sizes of the parameters of a [NeuralNetwork]. *)
Definition NeuralNetwork_topology : gmap string (list nat * nat) :=
  list_to_map ((λ ks : string * list nat, (ks.1, (ks.2, numel ks.2)))
                 <$> NeuralNetwork.parameter_shapes).

(** The state one turn of the loop of [train] leaves, when the optimizer
    works on the model and gradient mode is on: the gradients of the batch
    were added to the stored ones, the optimizer stepped, the gradients were
    cleared, and a line was printed if the index is a multiple of 100. *)
Definition after_batch (w : World) (size batch : nat) (X : Tensor)
    (y : list nat) (l : Qc) : World :=
  mkWorld
    (mkModule
       (optim.step optim.lr (parameters (model w))
          (accumulate (grads (model w)) (gradient (parameters (model w)) X y)))
       ∅ (training (model w)))
    true true (rng w)
    (stdout w ++ (if batch mod 100 =? 0
                  then [TrainProgress l ((batch + 1) * length y) size]
                  else []))
    (files w).

(** *** Further characterisations *)

(** Whether the class computed for the image of [s], as the prediction cell
    computes it, is the label of [s]. *)
Definition is_hit (params : gmap string Tensor) (s : Sample) : bool :=
  match predict_index params (image_tensor s) with
  | Ok k => k =? label s
  | Raised _ => false
  end.

(** The number of samples of a data set that are hits. *)
Definition hits (params : gmap string Tensor) (ds : list Sample) : nat :=
  length (filter (λ s, is_hit params s = true) ds).

(** The calls the loop of [train] makes. *)
Definition batch_call {X} (e : torchE X) : Prop :=
  match e with
  | model_call _ | loss_fn_call _ _ | loss_backward _
  | optimizer_step | optimizer_zero_grad => True
  | print l => is_progress l
  | _ => False
  end.


(** A call that leaves the files alone. *)
Definition keeps_files {X} (e : torchE X) : Prop :=
  match e with
  | torch_save _ _ => False
  | _ => True
  end.

(** ** Running programs *)

Lemma interp_bind {A B} (p : prog A) (k : A → prog B) (w : World) :
  interp (bind p k) w =
  match interp p w with
  | (Ok a, w') => interp (k a) w'
  | (Raised e, w') => (Raised e, w')
  end.
Proof.
  revert B k w.
  induction p as [A a|A e|A X e h IH|A X body IHbody h IH]; intros B k w; simpl.
  - reflexivity.
  - reflexivity.
  - destruct (handle e w) as [[x|ex] w']; [apply IH | reflexivity].
  - destruct (interp body (set_grad_enabled false w)) as [[x|ex] w'];
      [apply IH | reflexivity].
Qed.

Lemma trace_bind {A B} (p : prog A) (k : A → prog B) (w : World) :
  trace (bind p k) w =
  trace p w ++
  match interp p w with
  | (Ok a, w') => trace (k a) w'
  | (Raised _, _) => []
  end.
Proof.
  revert B k w.
  induction p as [A a|A e|A X e h IH|A X body IHbody h IH]; intros B k w; simpl.
  - reflexivity.
  - reflexivity.
  - f_equal. destruct (handle e w) as [[x|ex] w']; [apply IH | reflexivity].
  - f_equal. rewrite <- app_assoc. f_equal. simpl. f_equal.
    destruct (interp body (set_grad_enabled false w)) as [[x|ex] w'];
      [apply IH | reflexivity].
Qed.

Lemma interp_trigger {X} (e : torchE X) (w : World) :
  interp (trigger e) w = handle e w.
Proof. simpl. by destruct (handle e w) as [[x|ex] w']. Qed.

Lemma interp_lift {A} (r : Result A) (w : World) : interp (lift r) w = (r, w).
Proof. by destruct r. Qed.

Lemma trace_lift {A} (r : Result A) (w : World) : trace (lift r) w = [].
Proof. by destruct r. Qed.

(** ** Programs that leave the parameters alone *)

Lemma calls_only_bind P {A B} (p : prog A) (k : A → prog B) :
  calls_only P A p → (∀ a, calls_only P B (k a)) → calls_only P B (bind p k).
Proof.
  intros Hp. revert B k.
  induction Hp; intros B k' Hk; simpl; [apply Hk | constructor | | ];
    constructor; auto.
Qed.

Lemma calls_only_trigger (P : ∀ X, torchE X → Prop) {X} (e : torchE X) :
  P X e → calls_only P X (trigger e).
Proof. intros He. constructor; [done | intros x; constructor]. Qed.

Lemma calls_only_lift P {A} (r : Result A) : calls_only P A (lift r).
Proof. destruct r; constructor. Qed.

Lemma calls_only_for_ P {A} (l : list A) (body : A → prog unit) :
  (∀ a, calls_only P unit (body a)) → calls_only P unit (for_ l body).
Proof.
  intros Hb. induction l as [|a l IH]; simpl; [constructor|].
  apply calls_only_bind; auto.
Qed.

Lemma calls_only_for_acc P {A S} (l : list A) (acc : S) (body : S → A → prog S) :
  (∀ s a, calls_only P S (body s a)) → calls_only P S (for_acc l acc body).
Proof.
  intros Hb. revert acc. induction l as [|a l IH]; intros acc; simpl; [constructor|].
  apply calls_only_bind; auto.
Qed.

Lemma handle_keeps_parameters {X} (e : torchE X) (w : World) :
  keeps_parameters e →
  parameters (model (handle e w).2) = parameters (model w).
Proof.
  destruct e; intros He; try destruct He; cbn [handle]; try reflexivity.
  - by destruct (NeuralNetwork.forward _ _).
  - by destruct (loss_fn _ _).
  - by destruct (loss_graph loss) as [[[p x] y]|].
  - by destruct (optimizer_bound w).
  - by destruct (files w !! f).
Qed.

Lemma interp_keeps_parameters {A} (p : prog A) (w : World) :
  calls_only (@keeps_parameters) A p →
  parameters (model (interp p w).2) = parameters (model w).
Proof.
  intros Hp. revert w.
  induction Hp as [A a|A e|A X e k He Hk IH|A X body k Hbody IHbody Hk IH];
    intros w; simpl; try done.
  - pose proof (handle_keeps_parameters e w He) as Hh.
    destruct (handle e w) as [[x|ex] w']; simpl in *; [by rewrite IH | done].
  - specialize (IHbody (set_grad_enabled false w)).
    destruct (interp body (set_grad_enabled false w)) as [[x|ex] w']; simpl in *;
      [by rewrite IH | done].
Qed.

Lemma test_keeps_parameters (dataloader : DataLoader) :
  calls_only (@keeps_parameters) unit (test dataloader).
Proof.
  unfold test, no_grad.
  apply calls_only_bind; [by apply calls_only_trigger|intros _].
  constructor; [|constructor].
  apply calls_only_bind.
  - apply calls_only_for_acc. intros [test_loss correct] [X y].
    apply calls_only_bind; [by apply calls_only_trigger|intros pred].
    apply calls_only_bind; [by apply calls_only_trigger|intros loss].
    apply calls_only_bind; [apply calls_only_lift|intros hits]. constructor.
  - intros [test_loss correct].
    apply calls_only_bind; [apply calls_only_lift|intros l].
    apply calls_only_bind; [apply calls_only_lift|intros c].
    by apply calls_only_trigger.
Qed.

(** C1. For every model state and every data loader, a call of [test] (the
    spec's [evaluate]) leaves the mapping of model parameters as it was,
    whether the call returns or raises. *)
Theorem test_preserves_parameters (dataloader : DataLoader) (w : World) :
  parameters (model (interp (test dataloader) w).2) = parameters (model w).
Proof. apply interp_keeps_parameters, test_keeps_parameters. Qed.

(** ** What [test] does *)

Lemma interp_test_loop (bs : list (Tensor * list nat)) (acc : Qc * Qc) (w : World) :
  grad_enabled w = false →
  interp (for_acc bs acc (λ '(test_loss, correct) '(X, y),
            pred ← model_call X;
            loss ← loss_fn_call pred y;
            hits ← argmax1 (value pred);
            Ret ((test_loss + item loss)%Qc,
                 (correct + Qc_of_Z (Z.of_nat (count_eq hits y)))%Qc))) w
  = (eval_batches (parameters (model w)) bs acc, w).
Proof.
  intros Hg. revert acc.
  induction bs as [|[X y] bs IH]; intros [test_loss correct]; simpl; [done|].
  unfold eval_batch. simpl.
  destruct (NeuralNetwork.forward (parameters (model w)) X) as [t|e]; simpl; [|done].
  rewrite Hg. simpl.
  destruct (loss_fn t y) as [l|e]; simpl; [|done].
  destruct (argmax1 t) as [hits|e]; simpl; [|done].
  apply IH.
Qed.

Lemma interp_test (dataloader : DataLoader) (w : World) :
  interp (test dataloader) w =
  match metrics (parameters (model w)) dataloader with
  | Ok (test_loss, correct) =>
      (Ok (), mkWorld (set_training false (model w)) (optimizer_bound w)
                (grad_enabled w) (rng w)
                (stdout w ++ [TestError (Qc_of_Z 100 * correct)%Qc test_loss])
                (files w))
  | Raised e => (Raised e, set_model (set_training false) w)
  end.
Proof.
  unfold test, no_grad, metrics. simpl.
  rewrite interp_bind, interp_test_loop by done. simpl.
  destruct (eval_batches _ _ _) as [[test_loss correct]|e]; simpl;
    [|by destruct w].
  rewrite interp_bind, interp_lift.
  destruct (truediv test_loss (data.len dataloader)) as [l|e]; simpl;
    [|by destruct w].
  rewrite interp_bind, interp_lift.
  destruct (truediv correct (length (dataset dataloader))) as [c|e]; simpl;
    [|by destruct w].
  by destruct w.
Qed.

(** C10. [test] is a function of the model parameters and the batches only:
    two calls on the same data loader, from any two states of the
    interpreter that agree on the parameters, end the same way (both return
    or both raise the same exception) and print the same report of average
    loss and accuracy. *)
Theorem test_deterministic (dataloader : DataLoader) (w1 w2 : World) :
  parameters (model w1) = parameters (model w2) →
  (interp (test dataloader) w1).1 = (interp (test dataloader) w2).1 ∧
  ∃ report : list Line,
    stdout (interp (test dataloader) w1).2 = stdout w1 ++ report ∧
    stdout (interp (test dataloader) w2).2 = stdout w2 ++ report.
Proof.
  intros Hp. rewrite !interp_test, Hp.
  destruct (metrics (parameters (model w2)) dataloader) as [[l c]|e]; simpl.
  - split; [done|]. by eexists.
  - split; [done|]. exists []. by rewrite !app_nil_r.
Qed.

(** ** Tensors and layers *)

Lemma length_chunks {A} (c w : nat) (l : list A) : length (chunks c w l) = c.
Proof. revert l. induction c as [|c IH]; intros l; simpl; [done|by rewrite IH]. Qed.

Lemma chunks_rows {A} (c w : nat) (l : list A) :
  c * w ≤ length l → Forall (λ r, length r = w) (chunks c w l).
Proof.
  revert l. induction c as [|c IH]; intros l Hl; simpl; constructor.
  - rewrite length_take. lia.
  - apply IH. rewrite length_drop. lia.
Qed.

Lemma sum_chunks_le {A} (c w : nat) (l : list A) :
  sum_list (length <$> chunks c w l) ≤ length l.
Proof.
  revert l. induction c as [|c IH]; intros l; csimpl; [lia|].
  specialize (IH (drop w l)). rewrite length_drop in IH. rewrite length_take. lia.
Qed.

Lemma length_concat_rows {A} (o : nat) (ls : list (list A)) :
  Forall (λ r, length r = o) ls → length (concat ls) = length ls * o.
Proof.
  induction 1 as [|r ls Hr _ IH]; simpl; [done|].
  rewrite length_app, IH, Hr. done.
Qed.

Lemma argmax_from_lt (l : list Qc) (i best_i : nat) (best : Qc) :
  best_i < i → argmax_from l i best_i best < i + length l.
Proof.
  revert i best_i best.
  induction l as [|x l IH]; intros i best_i best Hi; simpl; [lia|].
  case_bool_decide.
  - specialize (IH (S i) best_i best). lia.
  - specialize (IH (S i) i x). lia.
Qed.

Lemma argmax_lt (l : list Qc) : l ≠ [] → argmax l < length l.
Proof.
  destruct l as [|x l]; [done|intros _]. simpl.
  pose proof (argmax_from_lt l 1 0 x). lia.
Qed.

Lemma well_shaped_spec (t : Tensor) :
  well_shaped t = true ↔ length (data t) = numel (shape t).
Proof. unfold well_shaped. apply Nat.eqb_eq. Qed.

Lemma ReLU_shape (x : Tensor) : shape (nn.ReLU x) = shape x.
Proof. done. Qed.

Lemma ReLU_well_shaped (x : Tensor) :
  well_shaped (nn.ReLU x) = well_shaped x.
Proof. unfold well_shaped. simpl. by rewrite length_fmap. Qed.

Lemma linear_ok (weight bias x : Tensor) (n d o : nat) :
  shape x = [n; d] → shape weight = [o; d] → shape bias = [o] →
  well_shaped x = true → well_shaped weight = true → well_shaped bias = true →
  ∃ t, nn.linear weight bias x = Ok t ∧ shape t = [n; o] ∧ well_shaped t = true.
Proof.
  intros Hx Hw Hb Wx Ww Wb. unfold nn.linear.
  rewrite Hx, Hw, Hb, Wx, Ww, Wb, !Nat.eqb_refl. simpl.
  eexists. split; [done|]. split; [done|].
  apply well_shaped_spec. simpl.
  apply well_shaped_spec in Wb. rewrite Hb in Wb. simpl in Wb.
  rewrite (length_concat_rows o).
  - rewrite length_fmap, length_chunks. lia.
  - apply Forall_fmap, Forall_forall. intros r _. simpl.
    rewrite length_zip_with, length_chunks. lia.
Qed.

Lemma topology_ok_lookup (params : gmap string Tensor) (k : string) (s : list nat) :
  NeuralNetwork.topology_ok params = true →
  (k, s) ∈ NeuralNetwork.parameter_shapes →
  ∃ t, params !! k = Some t ∧ shape t = s ∧ well_shaped t = true.
Proof.
  unfold NeuralNetwork.topology_ok. intros Hok Hin.
  apply andb_prop in Hok as [Hall _].
  rewrite forallb_forall in Hall.
  apply list_elem_of_In, Hall in Hin. simpl in Hin.
  destruct (params !! k) as [t|]; [|done].
  apply andb_prop in Hin as [Hs Hw]. apply bool_decide_eq_true in Hs. eauto.
Qed.

Lemma Linear_ok (name : string) (in_features out_features : nat)
    (params : gmap string Tensor) (x : Tensor) (n : nat) :
  NeuralNetwork.topology_ok params = true →
  (∀ ks, ks ∈ NeuralNetwork.Linear_shapes name in_features out_features →
         ks ∈ NeuralNetwork.parameter_shapes) →
  shape x = [n; in_features] → well_shaped x = true →
  ∃ t, nn.Linear name params x = Ok t ∧ shape t = [n; out_features]
       ∧ well_shaped t = true.
Proof.
  intros Hok Hin Hx Wx. unfold nn.Linear.
  destruct (topology_ok_lookup params (name +:+ ".weight")
              [out_features; in_features] Hok) as (w & -> & Hw & Ww).
  { apply Hin. apply list_elem_of_here. }
  destruct (topology_ok_lookup params (name +:+ ".bias") [out_features] Hok)
    as (b & -> & Hb & Wb).
  { apply Hin. apply list_elem_of_further, list_elem_of_here. }
  by apply (linear_ok w b x n in_features out_features).
Qed.

Lemma forward_ok (params : gmap string Tensor) (x : Tensor) (n d : nat)
    (rest : list nat) :
  NeuralNetwork.topology_ok params = true →
  shape x = n :: d :: rest → numel (d :: rest) = 28 * 28 →
  well_shaped x = true →
  ∃ t, NeuralNetwork.forward params x = Ok t ∧ shape t = [n; 10]
       ∧ well_shaped t = true.
Proof.
  intros Hok Hx Hd Wx. unfold NeuralNetwork.forward, nn.Flatten. rewrite Hx.
  cbn [mbind Result_bind].
  destruct (Linear_ok "linear_relu_stack.0" (28 * 28) 512 params
              (mkTensor [n; numel (d :: rest)] (data x)) n Hok)
    as (h1 & -> & Hs1 & Hw1).
  { intros ks Hks. apply elem_of_app. by left. }
  { cbn [shape]. by rewrite Hd. }
  { apply well_shaped_spec in Wx. apply well_shaped_spec. rewrite Hx in Wx.
    cbn [shape data numel foldr] in *. lia. }
  cbn [mbind Result_bind].
  destruct (Linear_ok "linear_relu_stack.2" 512 512 params (nn.ReLU h1) n Hok)
    as (h2 & -> & Hs2 & Hw2).
  { intros ks Hks. apply elem_of_app. right. apply elem_of_app. by left. }
  { by rewrite ReLU_shape. }
  { by rewrite ReLU_well_shaped. }
  cbn [mbind Result_bind].
  destruct (Linear_ok "linear_relu_stack.4" 512 10 params (nn.ReLU h2) n Hok)
    as (h3 & -> & Hs3 & Hw3).
  { intros ks Hks. apply elem_of_app. right. apply elem_of_app. by right. }
  { by rewrite ReLU_shape. }
  { by rewrite ReLU_well_shaped. }
  eauto.
Qed.

(** ** The prediction cell *)

Lemma image_tensor_well_shaped (s : Sample) :
  length (image s) = 28 * 28 → well_shaped (image_tensor s) = true.
Proof.
  intros Hs. apply well_shaped_spec. cbn [image_tensor data shape].
  rewrite Hs. reflexivity.
Qed.

Lemma first_row_argmax (t : Tensor) (n c : nat) :
  shape t = [n; c] → well_shaped t = true → 0 < n → 0 < c →
  ∃ row k, getitem0 t = Ok row ∧ argmax0 row = Ok k ∧ k < c.
Proof.
  intros Hs Hw Hn Hc. unfold getitem0. rewrite Hs, Hw.
  destruct (Nat.eqb_neq n 0) as [_ ->]; [|lia]. simpl.
  apply well_shaped_spec in Hw. rewrite Hs in Hw. simpl in Hw.
  assert (length (take c (data t)) = c) as Hrow.
  { rewrite length_take. nia. }
  eexists _, _. split; [done|]. unfold argmax0, well_shaped. simpl.
  destruct (Nat.eqb_neq c 0) as [_ ->]; [|lia].
  rewrite Hrow, Nat.mul_1_r, Nat.eqb_refl. simpl. split; [done|].
  rewrite <- Hrow at 2. apply argmax_lt. intros Hnil.
  rewrite Hnil in Hrow. simpl in Hrow. lia.
Qed.

(** C6. For every model whose parameters have the shapes the class
    [NeuralNetwork] gives them and every sample holding a 28 x 28 image, the
    prediction (evaluation mode, forward pass without gradients, argmax over
    the scores of the sample) returns a class index, and the index is below
    10, that is in the label range [0, 9]. *)
Theorem predict_in_label_range (s : Sample) (w : World) :
  NeuralNetwork.topology_ok (parameters (model w)) = true →
  length (image s) = 28 * 28 →
  ∃ k : nat, (interp (predict (image_tensor s)) w).1 = Ok k ∧ k < 10.
Proof.
  intros Hok Hs. unfold predict, no_grad. cbn [bind trigger interp handle].
  destruct (forward_ok (parameters (model w)) (image_tensor s) 1 28 [28])
    as (t & Hf & Hshape & Hw); [done..|by apply image_tensor_well_shaped|].
  cbn [set_model set_grad_enabled model grad_enabled set_training parameters].
  rewrite Hf. cbn [value].
  destruct (first_row_argmax t 1 10 Hshape Hw) as (row & k & Hrow & Hk & Hlt);
    [lia..|].
  rewrite Hrow. cbn [lift bind interp]. rewrite Hk. cbn [lift interp fst].
  eauto.
Qed.

(** ** Data loaders *)

Lemma chunks_lookup {A} (c w : nat) (l : list A) (i : nat) :
  i < c → chunks c w l !! i = Some (take w (drop (i * w) l)).
Proof.
  revert l i. induction c as [|c IH]; intros l i Hi; [lia|].
  destruct i as [|i]; simpl; [done|].
  rewrite IH by lia. by rewrite drop_drop.
Qed.

Lemma len_mul_lt (dl : DataLoader) (i : nat) :
  i < data.len dl → data.batch_size dl * i < length (dataset dl).
Proof.
  unfold data.len. intros Hi.
  destruct (data.batch_size dl) as [|b] eqn:Hb; [simpl in Hi; lia|].
  pose proof (Nat.Div0.mul_div_le (length (dataset dl) + S b - 1) (S b)). nia.
Qed.

Lemma len_full_batch (dl : DataLoader) (i : nat) :
  S i < data.len dl →
  data.batch_size dl ≤ length (dataset dl) - data.batch_size dl * i.
Proof. intros Hi. pose proof (len_mul_lt dl (S i) Hi). nia. Qed.

Lemma batches_lookup (dl : DataLoader) (i : nat) :
  i < data.len dl →
  batches dl !! i
  = Some (take (data.batch_size dl) (drop (i * data.batch_size dl) (dataset dl))).
Proof. intros Hi. by apply chunks_lookup. Qed.

Lemma iter_lookup (dl : DataLoader) (i : nat) :
  i < data.len dl →
  iter dl !! i
  = Some (collate (take (data.batch_size dl) (drop (i * data.batch_size dl) (dataset dl)))).
Proof. intros Hi. unfold iter. by rewrite list_lookup_fmap, batches_lookup. Qed.

Lemma length_iter (dl : DataLoader) : length (iter dl) = data.len dl.
Proof. unfold iter, batches. by rewrite length_fmap, length_chunks. Qed.

Lemma collate_len (samples : list Sample) :
  torch.len (collate samples).1 = Ok (length (collate samples).2).
Proof. unfold collate, torch.len. simpl. by rewrite length_fmap. Qed.

Lemma iter_len (dl : DataLoader) :
  Forall (λ b, torch.len b.1 = Ok (length b.2)) (iter dl).
Proof. apply Forall_fmap, Forall_forall. intros b _. apply collate_len. Qed.

(** C7, as the code has it.  The loaders of the notebook keep the last,
    shorter batch: batch [i] of a data set holds
    [min 64 (length ds - 64 * i)] samples.  So every batch holds between 1
    and 64 samples, every batch but the last holds exactly 64, and [len(X)]
    and the number of labels agree with that. *)
Theorem batch_lengths (ds : list Sample) (i : nat) :
  i < data.len (mkDataLoader ds batch_size) →
  ∃ (X : Tensor) (y : list nat),
    iter (mkDataLoader ds batch_size) !! i = Some (X, y) ∧
    torch.len X = Ok (length y) ∧
    length y = min batch_size (length ds - batch_size * i) ∧
    1 ≤ length y ≤ batch_size ∧
    (S i < data.len (mkDataLoader ds batch_size) → length y = batch_size).
Proof.
  intros Hi. pose proof (len_mul_lt _ _ Hi) as Hlt.
  rewrite iter_lookup by done. cbn [dataset data.batch_size] in *.
  eexists _, _. split; [done|]. split; [apply collate_len|].
  cbn [collate snd]. rewrite length_fmap, length_take, length_drop.
  rewrite (Nat.mul_comm i). split; [done|]. split; [unfold batch_size in *; lia|].
  intros Hi'. pose proof (len_full_batch _ _ Hi') as Hfull.
  cbn [dataset data.batch_size] in Hfull. lia.
Qed.

(** ** The metrics of [test] *)

Lemma Qc_of_nat_pos (n : nat) : n ≠ 0 → (0 < Qc_of_Z (Z.of_nat n))%Qc.
Proof.
  intros Hn. rewrite <- Z2Qc_inj_0.
  apply (proj1 (Z2Qc_inj_lt 0 (Z.of_nat n))). lia.
Qed.

Lemma Qc_of_nat_le (a b : nat) :
  a ≤ b → (Qc_of_Z (Z.of_nat a) ≤ Qc_of_Z (Z.of_nat b))%Qc.
Proof. intros Hab. apply (proj1 (Z2Qc_inj_le _ _)). lia. Qed.

Lemma Qc_div_nonneg (a : Qc) (n : nat) :
  n ≠ 0 → (0 ≤ a)%Qc → (0 ≤ a / Qc_of_Z (Z.of_nat n))%Qc.
Proof.
  intros Hn Ha. pose proof (Qc_of_nat_pos n Hn) as Hz.
  apply (Qcmult_lt_0_le_reg_r _ _ _ Hz).
  rewrite Qcmult_0_l, Qcmult_comm, Qcmult_div_r; [done|].
  intros Heq. rewrite Heq in Hz. by apply Qclt_not_eq in Hz.
Qed.

Lemma Qc_div_le_1 (a : Qc) (n : nat) :
  n ≠ 0 → (a ≤ Qc_of_Z (Z.of_nat n))%Qc → (a / Qc_of_Z (Z.of_nat n) ≤ 1)%Qc.
Proof.
  intros Hn Ha. pose proof (Qc_of_nat_pos n Hn) as Hz.
  apply (Qcmult_lt_0_le_reg_r _ _ _ Hz).
  rewrite Qcmult_1_l, Qcmult_comm, Qcmult_div_r; [done|].
  intros Heq. rewrite Heq in Hz. by apply Qclt_not_eq in Hz.
Qed.

Lemma count_eq_le (a y : list nat) : count_eq a y ≤ length y.
Proof.
  unfold count_eq. etrans; [apply length_filter|].
  rewrite length_zip. lia.
Qed.

(** The second total is a count of samples: the starting value plus a
    number of hits that is at most the number of labels seen. *)
Lemma eval_batches_correct (params : gmap string Tensor)
    (bs : list (Tensor * list nat)) (acc r : Qc * Qc) :
  eval_batches params bs acc = Ok r →
  ∃ k : nat, k ≤ sum_list ((λ b, length b.2) <$> bs)
             ∧ r.2 = (acc.2 + Qc_of_Z (Z.of_nat k))%Qc.
Proof.
  revert acc. induction bs as [|[X y] bs IH]; intros acc Hr; simpl in Hr.
  - injection Hr as <-. exists 0. split; [done|].
    change (Z.of_nat 0) with 0%Z. by rewrite Z2Qc_inj_0, Qcplus_0_r.
  - unfold eval_batch in Hr. simpl in Hr.
    destruct (NeuralNetwork.forward params X) as [t|]; simpl in Hr; [|done].
    destruct (loss_fn t y) as [l|]; simpl in Hr; [|done].
    destruct (argmax1 t) as [hits|]; simpl in Hr; [|done].
    apply IH in Hr as (k & Hk & ->). csimpl.
    exists (count_eq hits y + k). split.
    + pose proof (count_eq_le hits y). lia.
    + rewrite Nat2Z.inj_add, Z2Qc_inj_add. by rewrite Qcplus_assoc.
Qed.

Lemma eval_batches_loss (params : gmap string Tensor)
    (bs : list (Tensor * list nat)) (acc r : Qc * Qc) :
  loss_fn_nonneg →
  eval_batches params bs acc = Ok r → (0 ≤ acc.1)%Qc → (0 ≤ r.1)%Qc.
Proof.
  intros Hnn. revert acc.
  induction bs as [|[X y] bs IH]; intros acc Hr Hacc; simpl in Hr.
  - by injection Hr as <-.
  - unfold eval_batch in Hr. simpl in Hr.
    destruct (NeuralNetwork.forward params X) as [t|]; simpl in Hr; [|done].
    destruct (loss_fn t y) as [l|] eqn:Hl; simpl in Hr; [|done].
    destruct (argmax1 t) as [hits|]; simpl in Hr; [|done].
    apply IH in Hr; [done|]. simpl.
    apply Qcplus_nonneg_nonneg; [done|]. by apply (Hnn t y).
Qed.

Lemma sum_iter_le (dl : DataLoader) :
  sum_list ((λ b : Tensor * list nat, length b.2) <$> iter dl)
  ≤ length (dataset dl).
Proof.
  unfold iter, batches. rewrite <- list_fmap_compose.
  etrans; [|apply (sum_chunks_le (data.len dl) (data.batch_size dl))].
  apply Nat.eq_le_incl. f_equal. apply list_fmap_ext. intros _ b _. simpl.
  by rewrite length_fmap.
Qed.

Lemma truediv_Ok (a : Qc) (n : nat) (q : Qc) :
  truediv a n = Ok q → n ≠ 0 ∧ q = (a / Qc_of_Z (Z.of_nat n))%Qc.
Proof.
  unfold truediv. destruct (Nat.eqb_spec n 0); [done|].
  intros [= <-]. done.
Qed.

(** What [metrics] returns: the fraction of correct predictions is a count
    of at most [size] hits divided by [size], the loss is not negative when
    no batch loss is. *)
Lemma metrics_range (params : gmap string Tensor) (dl : DataLoader)
    (test_loss correct : Qc) :
  metrics params dl = Ok (test_loss, correct) →
  (∃ k : nat, k ≤ length (dataset dl) ∧ length (dataset dl) ≠ 0 ∧
     correct = (Qc_of_Z (Z.of_nat k) / Qc_of_Z (Z.of_nat (length (dataset dl))))%Qc)
  ∧ (0 ≤ correct ≤ 1)%Qc
  ∧ (loss_fn_nonneg → (0 ≤ test_loss)%Qc).
Proof.
  unfold metrics. intros Hm.
  destruct (eval_batches params (iter dl) (0%Qc, 0%Qc)) as [[tl c]|] eqn:He;
    simpl in Hm; [|done].
  destruct (truediv tl (data.len dl)) as [l|] eqn:Hl; simpl in Hm; [|done].
  destruct (truediv c (length (dataset dl))) as [a|] eqn:Ha; simpl in Hm; [|done].
  injection Hm as <- <-.
  apply truediv_Ok in Hl as [Hn ->]. apply truediv_Ok in Ha as [Hsize ->].
  destruct (eval_batches_correct _ _ _ _ He) as (k & Hk & Hc).
  simpl in Hc. rewrite Qcplus_0_l in Hc. subst c.
  pose proof (sum_iter_le dl) as Hsum.
  split; [exists k; split; [lia|done]|]. split; [split|].
  - apply Qc_div_nonneg; [done|]. rewrite <- Z2Qc_inj_0.
    apply (Qc_of_nat_le 0 k). lia.
  - apply Qc_div_le_1; [done|]. apply Qc_of_nat_le. lia.
  - intros Hnn. apply Qc_div_nonneg; [done|].
    by apply (eval_batches_loss _ _ _ _ Hnn He).
Qed.

(** ** [test] returns on well-formed data *)

Lemma chunks_Forall {A} (P : A → Prop) (c w : nat) (l : list A) :
  Forall P l → Forall (Forall P) (chunks c w l).
Proof.
  revert l. induction c as [|c IH]; intros l Hl; simpl; constructor.
  - by apply Forall_take.
  - by apply IH, Forall_drop.
Qed.

Lemma sample_ok_spec (s : Sample) :
  sample_ok s = true ↔ length (image s) = 28 * 28 ∧ label s < 10.
Proof.
  unfold sample_ok. rewrite andb_true_iff, Nat.eqb_eq, Nat.ltb_lt. done.
Qed.

Lemma collate_ok (samples : list Sample) :
  Forall (λ s, sample_ok s = true) samples → batch_ok (collate samples).
Proof.
  intros Hs. unfold batch_ok, collate. cbn [fst snd shape].
  rewrite length_fmap. split; [done|]. split.
  - apply well_shaped_spec. cbn [data shape].
    rewrite (length_concat_rows (28 * 28)).
    + rewrite length_fmap. reflexivity.
    + apply Forall_fmap. eapply Forall_impl; [exact Hs|].
      intros s Hok. by apply sample_ok_spec in Hok as [? _].
  - apply forallb_forall. intros c Hc.
    apply list_elem_of_In, list_elem_of_fmap in Hc as (s & -> & Hin).
    rewrite Forall_forall in Hs. apply Hs, sample_ok_spec in Hin as [_ Hl].
    by apply Nat.ltb_lt.
Qed.

Lemma iter_ok (dl : DataLoader) :
  forallb sample_ok (dataset dl) = true → Forall batch_ok (iter dl).
Proof.
  intros Hds. unfold iter, batches. apply Forall_fmap.
  eapply Forall_impl; [apply (chunks_Forall (λ s, sample_ok s = true))|].
  - apply Forall_forall. intros s Hs.
    rewrite forallb_forall in Hds. by apply Hds, list_elem_of_In.
  - intros samples Hs. by apply collate_ok.
Qed.

Lemma argmax1_ok (t : Tensor) (n c : nat) :
  shape t = [n; S c] → well_shaped t = true →
  ∃ hits, argmax1 t = Ok hits ∧ length hits = n.
Proof.
  intros Hs Hw. unfold argmax1. rewrite Hs, Hw. simpl.
  eexists. split; [done|]. by rewrite length_fmap, length_chunks.
Qed.

Lemma eval_batch_ok (params : gmap string Tensor) (acc : Qc * Qc)
    (b : Tensor * list nat) :
  loss_fn_total → NeuralNetwork.topology_ok params = true → batch_ok b →
  ∃ r, eval_batch params acc b = Ok r.
Proof.
  intros Htot Hok (Hshape & Hw & Hy). unfold eval_batch.
  destruct (forward_ok params b.1 (length b.2) 1 [28; 28] Hok Hshape)
    as (t & -> & Hts & Htw); [done..|].
  cbn [mbind Result_bind].
  specialize (Htot t b.2 Hts Htw Hy).
  destruct (loss_fn t b.2) as [l|]; [|done]. cbn [mbind Result_bind].
  destruct (argmax1_ok t (length b.2) 9 Hts Htw) as (hits & -> & _).
  cbn [mbind Result_bind]. eauto.
Qed.

Lemma eval_batches_ok (params : gmap string Tensor)
    (bs : list (Tensor * list nat)) (acc : Qc * Qc) :
  loss_fn_total → NeuralNetwork.topology_ok params = true →
  Forall batch_ok bs → ∃ r, eval_batches params bs acc = Ok r.
Proof.
  intros Htot Hok Hbs. revert acc.
  induction Hbs as [|b bs Hb _ IH]; intros acc; simpl; [eauto|].
  destruct (eval_batch_ok params acc b Htot Hok Hb) as [r ->]. apply IH.
Qed.

Lemma len_nonzero (dl : DataLoader) :
  dataset dl ≠ [] → 0 < data.batch_size dl → data.len dl ≠ 0.
Proof.
  intros Hds Hb. unfold data.len.
  destruct (dataset dl) as [|s ds]; [done|]. simpl length.
  assert (0 < (S (length ds) + data.batch_size dl - 1) / data.batch_size dl);
    [|lia].
  apply Nat.div_str_pos. lia.
Qed.

Lemma metrics_ok (params : gmap string Tensor) (dl : DataLoader) :
  loss_fn_total → NeuralNetwork.topology_ok params = true →
  forallb sample_ok (dataset dl) = true →
  dataset dl ≠ [] → 0 < data.batch_size dl →
  ∃ test_loss correct, metrics params dl = Ok (test_loss, correct).
Proof.
  intros Htot Hok Hds Hne Hb. unfold metrics.
  destruct (eval_batches_ok params (iter dl) (0%Qc, 0%Qc) Htot Hok (iter_ok dl Hds))
    as [[tl c] ->].
  cbn [mbind Result_bind fst snd]. unfold truediv.
  destruct (Nat.eqb_spec (data.len dl) 0) as [H0|_];
    [by apply len_nonzero in H0|].
  cbn [mbind Result_bind].
  destruct (Nat.eqb_spec (length (dataset dl)) 0) as [H0|_].
  { by destruct (dataset dl). }
  cbn [mbind Result_bind]. eauto.
Qed.

(** On an empty data set [test] divides by zero. *)
Lemma test_empty_raises (b : nat) (w : World) :
  (interp (test (mkDataLoader [] b)) w).1 = Raised ZeroDivisionError.
Proof.
  rewrite interp_test. unfold metrics, iter, batches, data.len. simpl.
  replace ((b - 1) / b) with 0; [done|].
  destruct b as [|b]; [done|]. symmetry. apply Nat.div_small. lia.
Qed.

(** C9. Whenever [test] reports, the accuracy it reports is the number of
    correct top-1 predictions, at most the size of the data set, divided by
    that size, so it lies in [0, 1]; and the average loss it reports is not
    negative, for a loss function that returns no negative value (as the
    cross entropy of the notebook).  It does report on every non-empty data
    set of well-formed samples. *)
Theorem test_metrics_in_range (dataloader : DataLoader) (w : World) :
  loss_fn_nonneg →
  (∀ w' : World, interp (test dataloader) w = (Ok (), w') →
     ∃ (test_loss correct : Qc) (hits : nat),
       stdout w' = stdout w ++ [TestError (Qc_of_Z 100 * correct)%Qc test_loss] ∧
       hits ≤ length (dataset dataloader) ∧
       correct = (Qc_of_Z (Z.of_nat hits)
                  / Qc_of_Z (Z.of_nat (length (dataset dataloader))))%Qc ∧
       (0 ≤ correct ≤ 1)%Qc ∧ (0 ≤ test_loss)%Qc)
  ∧ (loss_fn_total →
     NeuralNetwork.topology_ok (parameters (model w)) = true →
     forallb sample_ok (dataset dataloader) = true →
     dataset dataloader ≠ [] → 0 < data.batch_size dataloader →
     (interp (test dataloader) w).1 = Ok ()).
Proof.
  intros Hnn. rewrite interp_test. split.
  - intros w' Hrun.
    destruct (metrics (parameters (model w)) dataloader) as [[l c]|] eqn:Hm;
      [|done].
    injection Hrun as <-. cbn [stdout].
    destruct (metrics_range _ _ _ _ Hm) as ((k & Hk & _ & Hc) & Hrange & Hloss).
    exists l, c, k. repeat split; try done; [apply Hrange..|by apply Hloss].
  - intros Htot Hok Hds Hne Hb.
    by destruct (metrics_ok _ dataloader Htot Hok Hds Hne Hb) as (l & c & ->).
Qed.

(** ** What [train] does *)

Lemma interp_train_body (size batch : nat) (X : Tensor) (y : list nat) (w : World) :
  optimizer_bound w = true → grad_enabled w = true →
  torch.len X = Ok (length y) →
  interp (train_body size batch X y) w =
  match NeuralNetwork.forward (parameters (model w)) X with
  | Ok t =>
      match loss_fn t y with
      | Ok l => (Ok (), after_batch w size batch X y l)
      | Raised e => (Raised e, w)
      end
  | Raised e => (Raised e, w)
  end.
Proof.
  intros Hob Hg Hlen. destruct w as [m ob ge r out fs].
  cbn [optimizer_bound grad_enabled] in Hob, Hg. subst ob ge.
  unfold train_body, after_batch. cbn [bind trigger interp handle].
  cbn [model optimizer_bound grad_enabled rng stdout files].
  destruct (NeuralNetwork.forward (parameters m) X) as [t|e]; [|done].
  cbn [value pred_graph].
  destruct (loss_fn t y) as [l|e]; [|done].
  cbn [loss_graph item fmap option_fmap option_map fst snd].
  unfold set_model, set_grads, set_parameters.
  cbn [model optimizer_bound grads parameters training grad_enabled rng stdout
       files].
  destruct (batch mod 100 =? 0).
  - rewrite Hlen. reflexivity.
  - cbn [interp]. by rewrite app_nil_r.
Qed.

Lemma trace_train_body (size batch : nat) (X : Tensor) (y : list nat) (w : World)
    (t : Tensor) (l : Qc) :
  optimizer_bound w = true → grad_enabled w = true →
  torch.len X = Ok (length y) →
  NeuralNetwork.forward (parameters (model w)) X = Ok t → loss_fn t y = Ok l →
  trace (train_body size batch X y) w = train_batch_calls batch.
Proof.
  intros Hob Hg Hlen Ht Hl. destruct w as [m ob ge r out fs].
  cbn [optimizer_bound grad_enabled model] in Hob, Hg, Ht. subst ob ge.
  unfold train_body.
  cbn [bind trigger trace handle call_of]. unfold train_batch_calls.
  cbn [model optimizer_bound grad_enabled rng stdout files].
  rewrite Ht. cbn [value pred_graph]. rewrite Hl.
  cbn [loss_graph item fmap option_fmap option_map fst snd].
  unfold set_model, set_grads, set_parameters.
  cbn [model optimizer_bound grads parameters training grad_enabled rng stdout
       files].
  destruct (batch mod 100 =? 0); [|done].
  rewrite Hlen. done.
Qed.

Lemma train_loop (size : nat) (bs : list (Tensor * list nat)) (i : nat) (w : World) :
  optimizer_bound w = true → grad_enabled w = true →
  Forall (λ b, torch.len b.1 = Ok (length b.2)) bs →
  match spec_train_batches (parameters (model w), grads (model w)) bs with
  | Ok (pg', ls) =>
      interp (for_ (zip (seq i (length bs)) bs)
                (λ '(batch, (X, y)), train_body size batch X y)) w
      = (Ok (),
         mkWorld (mkModule pg'.1 pg'.2 (training (model w))) true true (rng w)
           (stdout w ++
            (progress_line size
               <$> filter (λ ibl, ibl.1 mod 100 = 0)
                     (zip (seq i (length bs)) (zip bs ls))))
           (files w))
      ∧ trace (for_ (zip (seq i (length bs)) bs)
                (λ '(batch, (X, y)), train_body size batch X y)) w
        = concat (train_batch_calls <$> seq i (length bs))
      ∧ length ls = length bs
  | Raised e =>
      (interp (for_ (zip (seq i (length bs)) bs)
                (λ '(batch, (X, y)), train_body size batch X y)) w).1
      = Raised e
  end.
Proof.
  intros Hob Hg Hlen. revert i w Hob Hg.
  induction Hlen as [|[X y] bs Hb _ IH]; intros i w Hob Hg.
  - cbn [spec_train_batches length seq zip zip_with for_ interp trace fmap list_fmap
         concat filter list_filter fst snd].
    split; [|done]. destruct w as [[p g tr] ob ge r o f]. cbn in Hob, Hg.
    subst ob ge. cbn. by rewrite app_nil_r.
  - cbn [fst snd] in Hb.
    cbn [spec_train_batches length seq zip zip_with for_].
    rewrite interp_bind, trace_bind, (interp_train_body size i X y w Hob Hg Hb).
    unfold spec_train_batch. cbn [fst snd].
    destruct (NeuralNetwork.forward (parameters (model w)) X) as [t|e] eqn:Ht;
      [|done].
    cbn [mbind Result_bind].
    destruct (loss_fn t y) as [l|e] eqn:Hl; [|done].
    cbn [mbind Result_bind].
    rewrite (trace_train_body size i X y w t l Hob Hg Hb Ht Hl).
    specialize (IH (S i) (after_batch w size i X y l) eq_refl eq_refl).
    unfold after_batch in IH |- *.
    cbn [model parameters grads training rng stdout files] in IH.
    destruct (spec_train_batches _ bs) as [[pg'' ls]|e]; [|done].
    destruct IH as (-> & -> & Hls). split; [|split].
    + f_equal. f_equal. rewrite <- app_assoc. f_equal.
      cbn [zip zip_with]. rewrite filter_cons. cbn [fst].
      destruct (Nat.eqb_spec (i mod 100) 0) as [Hi|Hi].
      * rewrite decide_True by done. done.
      * rewrite decide_False by done. done.
    + done.
    + cbn [length]. by rewrite Hls.
Qed.

Lemma enumerate_length {A} (l : list A) : length (enumerate l) = length l.
Proof. unfold enumerate. rewrite length_zip, length_seq. lia. Qed.

(** What a call of [train] does, when the optimizer works on the model and
    gradient mode is on: the batches go through [spec_train_batches] in
    order. *)
Lemma interp_train (dataloader : DataLoader) (w : World) :
  optimizer_bound w = true → grad_enabled w = true →
  match spec_train_batches (parameters (model w), grads (model w)) (iter dataloader) with
  | Ok (pg', ls) =>
      interp (train dataloader) w
      = (Ok (),
         mkWorld (mkModule pg'.1 pg'.2 true) true true (rng w)
           (stdout w
            ++ progress_lines (length (dataset dataloader)) (iter dataloader) ls)
           (files w))
      ∧ trace (train dataloader) w = train_calls (length (iter dataloader))
      ∧ length ls = length (iter dataloader)
  | Raised e => (interp (train dataloader) w).1 = Raised e
  end.
Proof.
  intros Hob Hg. unfold train.
  pose proof (train_loop (length (dataset dataloader)) (iter dataloader) 0
                (set_model (set_training true) w) Hob Hg (iter_len dataloader))
    as Hloop.
  cbn [set_model set_training model parameters grads training rng stdout files]
    in Hloop.
  rewrite interp_bind, trace_bind, interp_trigger.
  cbn [handle trigger trace call_of app]. unfold enumerate.
  destruct (spec_train_batches _ (iter dataloader)) as [[pg' ls]|e]; [|done].
  destruct Hloop as (-> & -> & Hls). split; [|done].
  unfold progress_lines, enumerate. rewrite length_zip, Hls, Nat.min_id. done.
Qed.

Lemma spec_train_batches_grads (pg pg' : gmap string Tensor * gmap string Tensor)
    (bs : list (Tensor * list nat)) (ls : list Qc) :
  spec_train_batches pg bs = Ok (pg', ls) → bs ≠ [] → pg'.2 = ∅.
Proof.
  revert pg ls. induction bs as [|b bs IH]; intros pg ls Hr Hne; [done|].
  cbn [spec_train_batches] in Hr.
  destruct (spec_train_batch pg b) as [[[p1 g1] l]|] eqn:Hb; [|done].
  destruct (spec_train_batches (p1, g1) bs) as [[pg2 ls2]|] eqn:Hbs; [|done].
  injection Hr as <- <-.
  destruct bs as [|b' bs]; [|by eapply IH].
  cbn in Hbs. injection Hbs as <- _. unfold spec_train_batch in Hb.
  destruct (NeuralNetwork.forward pg.1 b.1); cbn in Hb; [|done].
  destruct (loss_fn _ b.2); cbn in Hb; [|done]. by injection Hb as _ <- _.
Qed.

(** C3. With the optimizer working on the model (as cell 6 builds it) and
    gradient mode on, a call of [train] is, batch after batch in the order
    of the loader, the step of the description: predictions [model(X)], loss
    [loss_fn(pred, y)], gradients of that loss, one optimizer step on the
    parameters, gradients cleared before the next batch.  The parameters and gradients it leaves are those of
    [spec_train_batches], the library calls it makes are, for every batch
    in turn, forward, loss, backward, step, zero_grad (and a print on every
    hundredth batch), and it raises exactly when a forward pass or the loss
    function does. *)
Theorem train_follows_description (dataloader : DataLoader) (w : World) :
  optimizer_bound w = true → grad_enabled w = true →
  match spec_train_batches (parameters (model w), grads (model w))
          (iter dataloader) with
  | Ok (pg', losses) =>
      (interp (train dataloader) w).1 = Ok () ∧
      parameters (model (interp (train dataloader) w).2) = pg'.1 ∧
      grads (model (interp (train dataloader) w).2) = pg'.2 ∧
      (iter dataloader ≠ [] → pg'.2 = ∅) ∧
      trace (train dataloader) w = train_calls (length (iter dataloader))
  | Raised e => (interp (train dataloader) w).1 = Raised e
  end.
Proof.
  intros Hob Hg. pose proof (interp_train dataloader w Hob Hg) as Hrun.
  destruct (spec_train_batches _ (iter dataloader)) as [[pg' ls]|e] eqn:Hs;
    [|done].
  destruct Hrun as (-> & -> & _). cbn [fst snd model parameters grads].
  repeat split; try done. intros Hne. by eapply spec_train_batches_grads.
Qed.

(** ** The progress lines of [train] *)

Lemma count_multiples (i n : nat) :
  length (filter (λ k, k mod 100 = 0) (seq i n)) + (i + 99) / 100
  = (i + n + 99) / 100.
Proof.
  revert i. induction n as [|n IH]; intros i.
  - cbn [seq]. rewrite filter_nil. cbn [length]. by rewrite Nat.add_0_r.
  - cbn [seq]. rewrite filter_cons. specialize (IH (S i)).
    assert ((S i + 99) / 100 = (i + 99) / 100 + (if decide (i mod 100 = 0) then 1 else 0))
      as Hstep.
    { pose proof (Nat.div_mod_eq i 100) as Hi.
      assert (i mod 100 < 100) as Hr by (by apply Nat.mod_upper_bound).
      case_decide as Hm.
      - rewrite Hm, Nat.add_0_r in Hi.
        replace (S i + 99) with (S (i / 100) * 100) by lia.
        replace (i + 99) with (i / 100 * 100 + 99) by lia.
        rewrite Nat.div_mul by done. rewrite Nat.div_add_l by done.
        rewrite (Nat.div_small 99 100) by lia. lia.
      - replace (S i + 99) with (S (i / 100) * 100 + (i mod 100)) by lia.
        replace (i + 99) with (S (i / 100) * 100 + (i mod 100 - 1)) by lia.
        rewrite !Nat.div_add_l by done.
        rewrite (Nat.div_small (i mod 100)), (Nat.div_small (i mod 100 - 1))
          by lia.
        lia. }
    replace (i + S n + 99) with (S i + n + 99) by lia.
    case_decide; cbn [length]; lia.
Qed.

Lemma length_filter_index {A} (ks : list nat) (l : list A) :
  length ks = length l →
  length (filter (λ kx : nat * A, kx.1 mod 100 = 0) (zip ks l))
  = length (filter (λ k, k mod 100 = 0) ks).
Proof.
  revert l. induction ks as [|k ks IH]; intros [|x l] Hl; try done.
  cbn [zip zip_with]. rewrite !filter_cons. cbn [fst].
  injection Hl as Hl. case_decide; cbn [length]; by rewrite IH.
Qed.

(** C8, as the code has it.  With the optimizer working on the model and
    gradient mode on, a call of [train] that returns prints exactly one line
    for every batch whose index is a multiple of 100 and nothing else: the
    line of batch [i] carries the loss of that batch, the number of samples
    seen so far [(i + 1) * len(X)] and the size of the data set.  For [n]
    batches that is [(n + 99) / 100] lines. *)
Theorem train_prints_every_100_batches (dataloader : DataLoader) (w : World) :
  optimizer_bound w = true → grad_enabled w = true →
  match spec_train_batches (parameters (model w), grads (model w))
          (iter dataloader) with
  | Ok (_, losses) =>
      (interp (train dataloader) w).1 = Ok () ∧
      stdout (interp (train dataloader) w).2
      = stdout w
        ++ (progress_line (length (dataset dataloader))
              <$> filter (λ ibl, ibl.1 mod 100 = 0)
                    (enumerate (zip (iter dataloader) losses))) ∧
      length losses = length (iter dataloader) ∧
      length (filter (λ ibl : nat * ((Tensor * list nat) * Qc), ibl.1 mod 100 = 0)
                (enumerate (zip (iter dataloader) losses)))
      = (length (iter dataloader) + 99) / 100
  | Raised e => (interp (train dataloader) w).1 = Raised e
  end.
Proof.
  intros Hob Hg. pose proof (interp_train dataloader w Hob Hg) as Hrun.
  destruct (spec_train_batches _ (iter dataloader)) as [[pg' losses]|e];
    [|done].
  destruct Hrun as (-> & _ & Hls).
  cbn [fst snd stdout]. repeat split; try done.
  unfold enumerate.
  pose proof (count_multiples 0 (length (zip (iter dataloader) losses))) as Hc.
  rewrite length_filter_index by (by rewrite length_seq).
  rewrite length_zip, Hls, Nat.min_id in *.
  change ((0 + 99) / 100) with 0 in Hc. cbn [Nat.add] in Hc. lia.
Qed.

(** ** Training keeps the shapes of the parameters *)

Lemma forallb_eq {A} (f g : A → bool) (l : list A) :
  (∀ x, f x = g x) → forallb f l = forallb g l.
Proof. intros Hfg. induction l as [|x l IH]; simpl; [done|]. by rewrite Hfg, IH. Qed.

Lemma topology_lookup (params : gmap string Tensor) (k : string) :
  topology params !! k = (λ t, (shape t, length (data t))) <$> params !! k.
Proof. unfold topology. apply lookup_fmap. Qed.

Lemma topology_dom (p q : gmap string Tensor) :
  topology p = topology q → dom p = dom q.
Proof.
  intros Hpq. rewrite <- (dom_fmap_L (λ t, (shape t, length (data t))) p).
  rewrite <- (dom_fmap_L (λ t, (shape t, length (data t))) q).
  unfold topology in Hpq. by rewrite Hpq.
Qed.

Lemma topology_ok_topology (p q : gmap string Tensor) :
  topology p = topology q →
  NeuralNetwork.topology_ok p = NeuralNetwork.topology_ok q.
Proof.
  intros Hpq. unfold NeuralNetwork.topology_ok.
  rewrite (topology_dom p q Hpq). f_equal. apply forallb_eq. intros [k s].
  cbn [fst snd].
  assert (topology p !! k = topology q !! k) as Hk by (by rewrite Hpq).
  rewrite !topology_lookup in Hk.
  destruct (p !! k) as [t|], (q !! k) as [t'|]; try done.
  cbn in Hk. injection Hk as Hs Hl. unfold well_shaped. by rewrite Hs, Hl.
Qed.

Lemma step_topology (lr : Qc) (p g : gmap string Tensor) :
  (∀ k t gk, p !! k = Some t → g !! k = Some gk →
             length (data gk) = length (data t)) →
  topology (optim.step lr p g) = topology p.
Proof.
  intros Hg. apply map_eq. intros k. rewrite !topology_lookup.
  unfold optim.step. rewrite map_lookup_imap.
  destruct (p !! k) as [t|] eqn:Hp; [|done]. cbn.
  destruct (g !! k) as [gk|] eqn:Hgk; [|done].
  cbn. rewrite length_zip_with. rewrite (Hg k t gk Hp Hgk). by rewrite Nat.min_id.
Qed.

Lemma gradient_lookup (p : gmap string Tensor) (X : Tensor) (y : list nat)
    (k : string) (gk : Tensor) :
  gradient p X y !! k = Some gk →
  ∃ t, p !! k = Some t ∧ shape gk = shape t ∧ length (data gk) = length (data t).
Proof.
  unfold gradient. rewrite map_lookup_imap.
  destruct (p !! k) as [t|]; [|done]. cbn. intros [= <-].
  exists t. cbn. by rewrite length_fmap, length_seq.
Qed.

Lemma accumulate_empty (g : gmap string Tensor) : accumulate ∅ g = g.
Proof. unfold accumulate. apply (left_id ∅ _). Qed.

Lemma spec_train_batch_ok (p : gmap string Tensor) (b : Tensor * list nat) :
  loss_fn_total → NeuralNetwork.topology_ok p = true → batch_ok b →
  ∃ p' l, spec_train_batch (p, ∅) b = Ok (p', ∅, l) ∧ topology p' = topology p.
Proof.
  intros Htot Hok (Hshape & Hw & Hy). unfold spec_train_batch. cbn [fst snd].
  destruct (forward_ok p b.1 (length b.2) 1 [28; 28] Hok Hshape)
    as (t & -> & Hts & Htw); [done..|].
  cbn [mbind Result_bind].
  specialize (Htot t b.2 Hts Htw Hy).
  destruct (loss_fn t b.2) as [l|]; [|done]. cbn [mbind Result_bind].
  eexists _, _. split; [done|].
  rewrite accumulate_empty. apply step_topology.
  intros k t' gk Hp Hgk. apply gradient_lookup in Hgk as (t'' & Hp' & _ & Hl).
  by simplify_eq.
Qed.

Lemma spec_train_batches_ok (p : gmap string Tensor)
    (bs : list (Tensor * list nat)) :
  loss_fn_total → NeuralNetwork.topology_ok p = true → Forall batch_ok bs →
  ∃ p' ls, spec_train_batches (p, ∅) bs = Ok ((p', ∅), ls)
           ∧ topology p' = topology p.
Proof.
  intros Htot Hok Hbs. revert p Hok.
  induction Hbs as [|b bs Hb _ IH]; intros p Hok; cbn [spec_train_batches].
  - by eexists _, _.
  - destruct (spec_train_batch_ok p b Htot Hok Hb) as (p1 & l & -> & Ht1).
    destruct (IH p1) as (p' & ls & -> & Ht').
    { by rewrite (topology_ok_topology p1 p). }
    eexists _, _. split; [done|]. by rewrite Ht'.
Qed.

(** ** The epochs *)

Lemma trace_test_loop (bs : list (Tensor * list nat)) (acc : Qc * Qc) (w : World) :
  grad_enabled w = false →
  is_ok (eval_batches (parameters (model w)) bs acc) = true →
  trace (for_acc bs acc (λ '(test_loss, correct) '(X, y),
           pred ← model_call X;
           loss ← loss_fn_call pred y;
           hits ← argmax1 (value pred);
           Ret ((test_loss + item loss)%Qc,
                (correct + Qc_of_Z (Z.of_nat (count_eq hits y)))%Qc))) w
  = concat (replicate (length bs) [CForward; CLossFn]).
Proof.
  intros Hg. revert acc.
  induction bs as [|[X y] bs IH]; intros [test_loss correct] Hok; [done|].
  cbn [eval_batches] in Hok. unfold eval_batch in Hok. cbn [fst snd] in Hok.
  cbn [for_acc bind trigger trace handle call_of length replicate concat app].
  destruct (NeuralNetwork.forward (parameters (model w)) X) as [t|e];
    [|done].
  cbn [mbind Result_bind value] in Hok |- *. rewrite Hg.
  destruct (loss_fn t y) as [l|e]; [|done].
  cbn [mbind Result_bind] in Hok.
  destruct (argmax1 t) as [hits|e]; [|done].
  cbn [mbind Result_bind] in Hok.
  cbn [lift bind trace]. f_equal. f_equal. by apply IH.
Qed.

Lemma trace_trigger {X} (e : torchE X) (w : World) :
  trace (trigger e) w = [call_of e].
Proof. cbn [trigger trace]. by destruct (handle e w) as [[x|ex] w']. Qed.

Lemma trace_no_grad {A} (body : prog A) (w : World) :
  trace (no_grad body) w
  = CNoGradEnter :: trace body (set_grad_enabled false w) ++ [CNoGradExit].
Proof.
  unfold no_grad. cbn [trace].
  by destruct (interp body (set_grad_enabled false w)) as [[x|ex] w'].
Qed.

Lemma trace_test (dataloader : DataLoader) (w : World) :
  is_ok (metrics (parameters (model w)) dataloader) = true →
  trace (test dataloader) w = test_calls (length (iter dataloader)).
Proof.
  unfold test, metrics, test_calls. intros Hok.
  rewrite trace_bind, trace_trigger, interp_trigger. cbn [handle call_of app].
  f_equal. rewrite trace_no_grad. f_equal.
  change [CPrint; CNoGradExit] with ([CPrint] ++ [CNoGradExit]).
  rewrite app_assoc. f_equal.
  set (w1 := set_grad_enabled false (set_model (set_training false) w)).
  assert (parameters (model w1) = parameters (model w)) as Hp by done.
  rewrite trace_bind, interp_test_loop by done. rewrite Hp.
  rewrite trace_test_loop; [|done|rewrite Hp; by destruct (eval_batches _ _ _)].
  f_equal.
  destruct (eval_batches _ _ _) as [[tl c]|]; [|done].
  cbn [mbind Result_bind fst snd] in Hok. rewrite trace_bind, trace_lift, interp_lift.
  destruct (truediv tl (data.len dataloader)) as [l|]; [|done].
  cbn [mbind Result_bind fst snd] in Hok. rewrite trace_bind, trace_lift, interp_lift.
  destruct (truediv c (length (dataset dataloader))) as [a|]; [|done].
  cbn [app]. by rewrite trace_trigger.
Qed.

Lemma ready_spec (w : World) :
  ready w = true ↔
  optimizer_bound w = true ∧ grad_enabled w = true ∧ grads (model w) = ∅
  ∧ NeuralNetwork.topology_ok (parameters (model w)) = true.
Proof.
  unfold ready. rewrite !andb_true_iff, bool_decide_eq_true. tauto.
Qed.

Lemma progress_lines_progress (size : nat) (bs : list (Tensor * list nat))
    (ls : list Qc) :
  Forall is_progress (progress_lines size bs ls).
Proof. apply Forall_fmap, Forall_forall. by intros ibl _. Qed.

(** One epoch from a ready state. *)
Lemma interp_epoch (t : nat) (w : World) :
  loss_fn_total → ready w = true →
  forallb sample_ok training_data = true →
  forallb sample_ok test_data = true → test_data ≠ [] →
  ∃ (p' : gmap string Tensor) (ls : list Qc) (report : list Line * Qc * Qc),
    spec_train_batches (parameters (model w), ∅) (iter train_dataloader)
    = Ok ((p', ∅), ls) ∧
    interp (print (EpochHeader (t + 1)) ;;
            train train_dataloader ;;
            test test_dataloader) w
    = (Ok (), mkWorld (mkModule p' ∅ false) true true (rng w)
                (stdout w ++ epoch_output t report) (files w)) ∧
    Forall is_progress report.1.1 ∧
    NeuralNetwork.topology_ok p' = true ∧
    trace (print (EpochHeader (t + 1)) ;;
           train train_dataloader ;;
           test test_dataloader) w = epoch_calls.
Proof.
  intros Htot Hready Htrain Htest Hne.
  apply ready_spec in Hready as (Hob & Hg & Hgrads & Hok).
  destruct (spec_train_batches_ok (parameters (model w)) (iter train_dataloader)
              Htot Hok (iter_ok train_dataloader Htrain))
    as (p' & ls & Hspec & Htop).
  assert (NeuralNetwork.topology_ok p' = true) as Hok'.
  { by rewrite (topology_ok_topology p' (parameters (model w))). }
  destruct (metrics_ok p' test_dataloader Htot Hok' Htest Hne)
    as (tl & c & Hm);
    [cbn [test_dataloader data.batch_size]; unfold batch_size; lia|].
  exists p', ls,
    (progress_lines (length training_data) (iter train_dataloader) ls,
     (Qc_of_Z 100 * c)%Qc, tl).
  split; [done|].
  set (w1 := mkWorld (model w) (optimizer_bound w) (grad_enabled w) (rng w)
               (stdout w ++ [EpochHeader (t + 1)]) (files w)).
  pose proof (interp_train train_dataloader w1 Hob Hg) as Htr.
  cbn [w1 model] in Htr. rewrite Hgrads, Hspec in Htr.
  destruct Htr as (Hi & Htrace & _). cbn [fst snd] in Hi.
  rewrite interp_bind, trace_bind, interp_trigger, trace_trigger.
  cbn [handle call_of]. fold w1.
  rewrite interp_bind, trace_bind, Hi, Htrace, interp_test, trace_test;
    cbn [model parameters]; rewrite Hm; [|done].
  cbn [fst snd stdout files rng grad_enabled set_training parameters grads
       training dataset train_dataloader].
  split; [|split; [apply progress_lines_progress|split; [done|]]].
  - unfold epoch_output. cbn [fst snd w1 stdout].
    by rewrite <- !app_assoc.
  - unfold epoch_calls. by rewrite !length_iter.
Qed.

Lemma interp_epochs_loop (n i : nat) (w : World) :
  loss_fn_total → ready w = true →
  forallb sample_ok training_data = true →
  forallb sample_ok test_data = true → test_data ≠ [] →
  ∃ (p' : gmap string Tensor) (reports : list (list Line * Qc * Qc)) (w' : World),
    spec_train_epochs n (parameters (model w), ∅) = Ok (p', ∅) ∧
    interp (for_ (seq i n) (λ t,
              print (EpochHeader (t + 1)) ;;
              train train_dataloader ;;
              test test_dataloader)) w = (Ok (), w') ∧
    ready w' = true ∧ parameters (model w') = p' ∧
    length reports = n ∧
    stdout w' = stdout w ++ concat (imap (λ t r, epoch_output (i + t) r) reports) ∧
    Forall (λ r : list Line * Qc * Qc, Forall is_progress r.1.1) reports ∧
    trace (for_ (seq i n) (λ t,
             print (EpochHeader (t + 1)) ;;
             train train_dataloader ;;
             test test_dataloader)) w = concat (replicate n epoch_calls).
Proof.
  intros Htot Hready Htrain Htest Hne. revert i w Hready.
  induction n as [|n IH]; intros i w Hready.
  - exists (parameters (model w)), [], w. cbn [seq for_ interp trace].
    pose proof Hready as (_ & _ & Hg & _)%ready_spec.
    repeat split; try done. by rewrite app_nil_r.
  - destruct (interp_epoch i w Htot Hready Htrain Htest Hne)
      as (p1 & ls & r & Hspec & Hi & Hprog & Hok1 & Htr).
    set (w1 := mkWorld (mkModule p1 ∅ false) true true (rng w)
                 (stdout w ++ epoch_output i r) (files w)) in *.
    assert (ready w1 = true) as Hready1.
    { apply ready_spec. by cbn. }
    destruct (IH (S i) w1 Hready1)
      as (p' & reports & w' & Hspec' & Hi' & Hready' & Hp' & Hlen & Hout & Hprogs & Htr').
    exists p', (r :: reports), w'.
    cbn [seq for_ spec_train_epochs]. rewrite Hspec.
    rewrite interp_bind, trace_bind, Hi, Htr, Hi', Htr'.
    repeat split; try done.
    + cbn [length]. by rewrite Hlen.
    + rewrite Hout. cbn [w1 stdout imap concat]. rewrite <- app_assoc.
      rewrite Nat.add_0_r. do 3 f_equal. apply imap_ext. intros k x _.
      cbn. by rewrite Nat.add_succ_r.
    + by constructor.
Qed.

(** C4. From a state between cells, on well-formed data with a non-empty
    test set, [run_epochs n] returns after exactly [n] epochs: the calls it
    makes are [n] times (header, one [train] on the training batches, one
    [test] on the test batches) and then the final print; its output is,
    for each epoch in turn, the header, the progress lines of training and
    the report of [test], and then [Done]; and the parameters it leaves are
    those of [n] passes of training, nothing updating them afterwards.  The
    notebook runs it with [epochs = 5]. *)
Theorem run_epochs_n_iterations (n : nat) (w : World) :
  loss_fn_total → ready w = true →
  forallb sample_ok training_data = true →
  forallb sample_ok test_data = true → test_data ≠ [] →
  epochs = 5 ∧
  ∃ (p' : gmap string Tensor) (reports : list (list Line * Qc * Qc)),
    (interp (run_epochs n) w).1 = Ok () ∧
    trace (run_epochs n) w = concat (replicate n epoch_calls) ++ [CPrint] ∧
    length reports = n ∧
    Forall (λ r : list Line * Qc * Qc, Forall is_progress r.1.1) reports ∧
    stdout (interp (run_epochs n) w).2
    = stdout w ++ concat (imap epoch_output reports) ++ [Done] ∧
    spec_train_epochs n (parameters (model w), ∅) = Ok (p', ∅) ∧
    parameters (model (interp (run_epochs n) w).2) = p'.
Proof.
  intros Htot Hready Htrain Htest Hne. split; [done|].
  destruct (interp_epochs_loop n 0 w Htot Hready Htrain Htest Hne)
    as (p' & reports & w' & Hspec & Hi & Hready' & Hp' & Hlen & Hout & Hprogs & Htr).
  exists p', reports. unfold run_epochs, range.
  rewrite interp_bind, trace_bind, Hi, Htr, interp_trigger, trace_trigger.
  cbn [handle call_of fst snd stdout model]. rewrite Hout, <- app_assoc.
  repeat split; done.
Qed.

(** ** Loading a state dictionary *)

Lemma same_size_spec (t p : Tensor) :
  same_size t p = true
  ↔ (shape t, length (data t)) = (shape p, length (data p)).
Proof.
  unfold same_size. rewrite andb_true_iff, bool_decide_eq_true, Nat.eqb_eq.
  split; [by intros [-> ->]|by intros [= -> ->]].
Qed.

Lemma size_mismatches_empty (state_dict params : gmap string Tensor) :
  size_mismatches state_dict params = ∅ ↔
  ∀ k t p, state_dict !! k = Some t → params !! k = Some p →
           same_size t p = true.
Proof.
  unfold size_mismatches. rewrite dom_empty_iff_L, map_empty. split.
  - intros Hnone k t p Hsd Hp. specialize (Hnone k).
    destruct (same_size t p) eqn:Hsize; [done|].
    assert (filter (λ kp, size_mismatch state_dict kp = true) params !! k = Some p)
      as Hin; [|by rewrite Hnone in Hin].
    apply map_lookup_filter_Some. split; [done|].
    unfold size_mismatch. cbn [fst snd]. by rewrite Hsd, Hsize.
  - intros Hall k.
    destruct (filter _ params !! k) as [p|] eqn:Hf; [|done].
    apply map_lookup_filter_Some in Hf as [Hp Hmis].
    unfold size_mismatch in Hmis. cbn [fst snd] in Hmis.
    destruct (state_dict !! k) as [t|] eqn:Hsd; [|done].
    by rewrite (Hall k t p Hsd Hp) in Hmis.
Qed.

Lemma keys_match (state_dict params : gmap string Tensor) :
  missing_keys state_dict params = ∅ ∧ unexpected_keys state_dict params = ∅
  ↔ dom state_dict = dom params.
Proof.
  unfold missing_keys, unexpected_keys. split.
  - intros [Hmiss Hunexp]. apply set_eq. intros k. split; intros Hk.
    + destruct (decide (k ∈ dom params)) as [|Hn]; [done|].
      assert (k ∈ dom state_dict ∖ dom params) as Hin
        by (by apply elem_of_difference).
      rewrite Hunexp in Hin. by apply elem_of_empty in Hin.
    + destruct (decide (k ∈ dom state_dict)) as [|Hn]; [done|].
      assert (k ∈ dom params ∖ dom state_dict) as Hin
        by (by apply elem_of_difference).
      rewrite Hmiss in Hin. by apply elem_of_empty in Hin.
  - intros ->. by rewrite difference_diag_L.
Qed.

Lemma load_state_dict_result (state_dict params : gmap string Tensor) :
  (load_state_dict state_dict params).1 = Ok () ∨
  (load_state_dict state_dict params).1 = Raised RuntimeError.
Proof. unfold load_state_dict. destruct (_ && _); auto. Qed.

Lemma load_state_dict_Ok (state_dict params : gmap string Tensor) :
  (load_state_dict state_dict params).1 = Ok () ↔
  topology state_dict = topology params.
Proof.
  assert ((load_state_dict state_dict params).1 = Ok () ↔
          (missing_keys state_dict params = ∅
           ∧ unexpected_keys state_dict params = ∅)
          ∧ size_mismatches state_dict params = ∅) as ->.
  { unfold load_state_dict.
    destruct (_ && _) eqn:Hb; cbn [fst].
    - rewrite !andb_true_iff, !bool_decide_eq_true in Hb. tauto.
    - split; [done|]. intros Hall.
      rewrite <- not_true_iff_false in Hb. destruct Hb.
      by rewrite !andb_true_iff, !bool_decide_eq_true. }
  rewrite keys_match, size_mismatches_empty. split.
  - intros [Hdom Hsize]. apply map_eq. intros k. rewrite !topology_lookup.
    destruct (state_dict !! k) as [t|] eqn:Hsd, (params !! k) as [p|] eqn:Hp;
      cbn; try done.
    + f_equal. by apply same_size_spec, (Hsize k).
    + apply elem_of_dom_2 in Hsd. rewrite Hdom in Hsd.
      by apply elem_of_dom in Hsd as [? ?]; simplify_eq.
    + apply elem_of_dom_2 in Hp. rewrite <- Hdom in Hp.
      by apply elem_of_dom in Hp as [? ?]; simplify_eq.
  - intros Htop. split; [by apply topology_dom|].
    intros k t p Hsd Hp. apply same_size_spec.
    assert (topology state_dict !! k = topology params !! k) as Hk
      by (by rewrite Htop).
    rewrite !topology_lookup, Hsd, Hp in Hk. cbn in Hk. by injection Hk as -> ->.
Qed.

Lemma copy_parameters_all (state_dict params : gmap string Tensor) :
  topology state_dict = topology params →
  copy_parameters state_dict params = state_dict.
Proof.
  intros Htop. apply map_eq. intros k. unfold copy_parameters.
  rewrite map_lookup_imap.
  assert (topology state_dict !! k = topology params !! k) as Hk
    by (by rewrite Htop).
  rewrite !topology_lookup in Hk.
  destruct (state_dict !! k) as [t|], (params !! k) as [p|]; try done.
  cbn in *. injection Hk as Hs Hl.
  destruct (same_size t p) eqn:Hsize; [done|].
  assert (same_size t p = true) as Htrue; [|by rewrite Htrue in Hsize].
  apply same_size_spec. by rewrite Hs, Hl.
Qed.

(** C5. [load_state_dict] into a model, whatever its parameters are, either
    returns or raises [RuntimeError]; it returns exactly when the state
    dictionary has the names and sizes of the parameters of the model, and
    then the parameters are those of the dictionary.  In particular a
    dictionary whose keys are not the keys of the model is an error, and a
    load that returns had every key matching. *)
Theorem load_state_dict_strict (state_dict : gmap string Tensor) (w : World) :
  ((interp (model_load_state_dict state_dict) w).1 = Ok () ∨
   (interp (model_load_state_dict state_dict) w).1 = Raised RuntimeError) ∧
  ((interp (model_load_state_dict state_dict) w).1 = Ok ()
   ↔ topology state_dict = topology (parameters (model w))) ∧
  (dom state_dict ≠ dom (parameters (model w)) →
   (interp (model_load_state_dict state_dict) w).1 = Raised RuntimeError) ∧
  ((interp (model_load_state_dict state_dict) w).1 = Ok () →
   dom state_dict = dom (parameters (model w)) ∧
   parameters (model (interp (model_load_state_dict state_dict) w).2)
   = state_dict).
Proof.
  rewrite interp_trigger. cbn [handle].
  pose proof (load_state_dict_result state_dict (parameters (model w))) as Hres.
  pose proof (load_state_dict_Ok state_dict (parameters (model w))) as Hok.
  assert ((load_state_dict state_dict (parameters (model w))).2
          = copy_parameters state_dict (parameters (model w))) as Hcopy.
  { unfold load_state_dict. by destruct (_ && _). }
  destruct (load_state_dict state_dict (parameters (model w))) as [r p].
  cbn [fst snd] in *. subst p. repeat split.
  - done.
  - apply Hok.
  - apply Hok.
  - intros Hdom. destruct Hres as [Hr|Hr]; [|done].
    destruct Hdom. by apply topology_dom, Hok.
  - by apply topology_dom, Hok.
  - cbn. by apply copy_parameters_all, Hok.
Qed.

(** ** The parameters of a [NeuralNetwork] *)

Lemma parameter_names_NoDup : NoDup NeuralNetwork.parameter_shapes.*1.
Proof. apply (bool_decide_unpack _). by vm_compute. Qed.

Lemma NeuralNetwork_topology_lookup (k : string) (s : list nat) :
  (k, s) ∈ NeuralNetwork.parameter_shapes →
  NeuralNetwork_topology !! k = Some (s, numel s).
Proof.
  intros Hin. unfold NeuralNetwork_topology. apply elem_of_list_to_map.
  - rewrite <- list_fmap_compose. apply parameter_names_NoDup.
  - apply list_elem_of_fmap. by exists (k, s).
Qed.

Lemma NeuralNetwork_topology_dom :
  dom NeuralNetwork_topology
  = list_to_set (C:=gset string) NeuralNetwork.parameter_shapes.*1.
Proof.
  unfold NeuralNetwork_topology. rewrite dom_list_to_map_L.
  by rewrite <- list_fmap_compose.
Qed.

Lemma topology_ok_iff (params : gmap string Tensor) :
  NeuralNetwork.topology_ok params = true
  ↔ topology params = NeuralNetwork_topology.
Proof.
  split.
  - intros Hok. apply map_eq. intros k.
    destruct (decide (k ∈ NeuralNetwork.parameter_shapes.*1)) as [Hin|Hout].
    + apply list_elem_of_fmap in Hin as ([k' s] & -> & Hin). cbn [fst].
      rewrite (NeuralNetwork_topology_lookup k' s Hin), topology_lookup.
      destruct (topology_ok_lookup params k' s Hok Hin) as (t & -> & <- & Hw).
      cbn. apply well_shaped_spec in Hw. by rewrite Hw.
    + unfold NeuralNetwork.topology_ok in Hok.
      apply andb_prop in Hok as [_ Hdom]. apply bool_decide_eq_true in Hdom.
      assert (k ∉ dom params) as Hk
        by (by rewrite Hdom, elem_of_list_to_set).
      assert (k ∉ dom NeuralNetwork_topology) as Hk'
        by (by rewrite NeuralNetwork_topology_dom, elem_of_list_to_set).
      apply not_elem_of_dom in Hk, Hk'. by rewrite topology_lookup, Hk, Hk'.
  - intros Htop. unfold NeuralNetwork.topology_ok. apply andb_true_intro. split.
    + apply forallb_forall. intros [k s] Hin%list_elem_of_In. cbn [fst snd].
      pose proof (NeuralNetwork_topology_lookup k s Hin) as Hk.
      rewrite <- Htop, topology_lookup in Hk.
      destruct (params !! k) as [t|]; [|done]. cbn in Hk.
      injection Hk as Hs Hl. apply andb_true_intro. split.
      * by apply bool_decide_eq_true.
      * apply well_shaped_spec. by rewrite Hs.
    + apply bool_decide_eq_true.
      rewrite <- NeuralNetwork_topology_dom, <- Htop. unfold topology.
      by rewrite dom_fmap_L.
Qed.

Lemma init_parameters_cons (k : string) (s : list nat)
    (shapes : list (string * list nat)) (rng : nat → Qc) :
  NeuralNetwork.init_parameters ((k, s) :: shapes) rng
  = let '(m, rng') :=
      NeuralNetwork.init_parameters shapes (λ i, rng (numel s + i)) in
    (<[k := mkTensor s (rng <$> seq 0 (numel s))]> m, rng').
Proof. reflexivity. Qed.

(** The constructor builds parameters of the shapes of the class, whatever
    values the random generator gives. *)
Lemma init_parameters_topology (shapes : list (string * list nat)) (rng : nat → Qc) :
  topology (NeuralNetwork.init_parameters shapes rng).1
  = list_to_map ((λ ks : string * list nat, (ks.1, (ks.2, numel ks.2))) <$> shapes).
Proof.
  revert rng. induction shapes as [|[k s] shapes IH]; intros rng.
  - apply fmap_empty.
  - rewrite init_parameters_cons.
    cbn [fmap list_fmap list_to_map foldr fst snd].
    specialize (IH (λ i, rng (numel s + i))).
    destruct (NeuralNetwork.init_parameters shapes _) as [m rng'].
    cbn [fst] in *. unfold topology in *. rewrite fmap_insert. cbn [shape data].
    rewrite length_fmap, length_seq. by rewrite IH.
Qed.

Lemma NeuralNetwork_new_topology_ok (rng : nat → Qc) :
  NeuralNetwork.topology_ok
    (NeuralNetwork.init_parameters NeuralNetwork.parameter_shapes rng).1 = true.
Proof. apply topology_ok_iff, init_parameters_topology. Qed.

Lemma interp_predict (x : Tensor) (w : World) :
  (interp (predict x) w).1 = predict_index (parameters (model w)) x.
Proof.
  unfold predict, no_grad, predict_index. cbn [bind trigger interp handle].
  cbn [set_model set_grad_enabled model grad_enabled set_training parameters].
  destruct (NeuralNetwork.forward (parameters (model w)) x) as [t|e]; [|done].
  cbn [value mbind Result_bind].
  destruct (getitem0 t) as [row|e]; [|done]. cbn [lift bind interp mbind Result_bind].
  by destruct (argmax0 row).
Qed.

(** ** Saving and loading *)

(** C2. For every model whose parameters have the shapes of the class,
    saving its state dictionary and then loading the file into a freshly
    constructed [NeuralNetwork] (with whatever random initial values)
    returns, and the new model has exactly the parameters of the old one;
    so the two models give the same scores and the same predicted class on
    every input, hence on every held-out sample set. *)
Theorem save_load_round_trip (w : World) :
  NeuralNetwork.topology_ok (parameters (model w)) = true →
  (interp (save ;; load) w).1 = Ok () ∧
  parameters (model (interp (save ;; load) w).2) = parameters (model w) ∧
  (∀ x : Tensor,
     NeuralNetwork.forward (parameters (model (interp (save ;; load) w).2)) x
     = NeuralNetwork.forward (parameters (model w)) x) ∧
  (∀ x : Tensor,
     (interp (predict x) (interp (save ;; load) w).2).1
     = (interp (predict x) w).1).
Proof.
  intros Hok.
  assert ((interp (save ;; load) w).1 = Ok () ∧
          parameters (model (interp (save ;; load) w).2) = parameters (model w))
    as [Hrun Hp].
  { unfold save, load.
    cbn [bind trigger interp handle model grad_enabled rng stdout files].
    pose proof (NeuralNetwork_new_topology_ok (rng w)) as Hnew.
    destruct (NeuralNetwork.init_parameters NeuralNetwork.parameter_shapes (rng w))
      as [p0 rng'].
    cbn [fst model parameters files] in *.
    rewrite lookup_insert_eq, list_to_map_to_list.
    cbn [fst model parameters files] in *.
    assert (topology (parameters (model w)) = topology p0) as Htop.
    { apply topology_ok_iff in Hok, Hnew. by rewrite Hok, Hnew. }
    pose proof (proj2 (load_state_dict_Ok _ _) Htop) as Hload.
    pose proof (copy_parameters_all _ _ Htop) as Hcopy.
    assert ((load_state_dict (parameters (model w)) p0).2
            = copy_parameters (parameters (model w)) p0) as Hsnd.
    { unfold load_state_dict. by destruct (_ && _). }
    destruct (load_state_dict (parameters (model w)) p0) as [r p].
    cbn [fst snd] in *. subst r p. cbn. by rewrite Hcopy. }
  split; [done|]. split; [done|]. split; intros x.
  - by rewrite Hp.
  - by rewrite !interp_predict, Hp.
Qed.

(** The prediction cell prints the class names of the predicted index and of
    the label. *)
Lemma interp_prediction_cell (item : nat) (s : Sample) (w : World) :
  test_data !! item = Some s → sample_ok s = true →
  NeuralNetwork.topology_ok (parameters (model w)) = true →
  ∃ (k : nat) (predicted actual : string),
    predict_index (parameters (model w)) (image_tensor s) = Ok k ∧
    classes !! k = Some predicted ∧ classes !! label s = Some actual ∧
    (interp (prediction_cell item) w).1 = Ok () ∧
    stdout (interp (prediction_cell item) w).2
    = stdout w ++ [Prediction predicted actual].
Proof.
  intros Hitem [Hlen Hlabel]%sample_ok_spec Hok.
  destruct (forward_ok (parameters (model w)) (image_tensor s) 1 28 [28])
    as (t & Hf & Hshape & Hw); [done..|by apply image_tensor_well_shaped|].
  destruct (first_row_argmax t 1 10 Hshape Hw) as (row & k & Hrow & Hk & Hlt);
    [lia..|].
  destruct (lookup_lt_is_Some_2 classes k) as [predicted Hp]; [done|].
  destruct (lookup_lt_is_Some_2 classes (label s)) as [actual Ha]; [done|].
  exists k, predicted, actual.
  split; [by unfold predict_index; rewrite Hf; cbn; rewrite Hrow; cbn|].
  split; [done|]. split; [done|].
  unfold prediction_cell, no_grad, getitem. rewrite Hitem.
  cbn [bind trigger lift interp handle].
  cbn [set_model set_grad_enabled model grad_enabled set_training parameters].
  rewrite Hf. cbn [value]. rewrite Hrow. cbn [lift bind interp]. rewrite Hk.
  cbn [lift bind interp]. rewrite Hp. cbn [lift bind interp]. rewrite Ha.
  cbn [lift bind interp handle trigger fst snd stdout]. done.
Qed.


(** ** The optimizer after the load cell *)





(** ** Further properties of [test] *)


(** X2. On an empty data set, whatever the batch size, [test] raises
    [ZeroDivisionError] at [test_loss /= num_batches]: nothing is printed,
    the model is left in evaluation mode and the gradient mode is
    restored. *)
Theorem test_on_empty_data_set (b : nat) (w : World) :
  interp (test (mkDataLoader [] b)) w
  = (Raised ZeroDivisionError, set_model (set_training false) w).
Proof.
  rewrite interp_test. unfold metrics, iter, batches, data.len. simpl.
  replace ((b - 1) / b) with 0; [done|].
  destruct b as [|b]; [done|]. symmetry. apply Nat.div_small. lia.
Qed.

(** ** Further properties of [train] *)

Lemma iter_empty (b : nat) : iter (mkDataLoader [] b) = [].
Proof.
  unfold iter, batches, data.len. cbn [dataset data.batch_size length].
  replace ((0 + b - 1) / b) with 0; [done|].
  destruct b as [|b]; [done|]. symmetry. apply Nat.div_small. lia.
Qed.

(** X4. On an empty data set, whatever the batch size, [train] returns
    after its one call [model.train()]: no forward pass, no optimizer step,
    no output. *)
Theorem train_on_empty_data_set (b : nat) (w : World) :
  interp (train (mkDataLoader [] b)) w = (Ok (), set_model (set_training true) w) ∧
  trace (train (mkDataLoader [] b)) w = [CTrainMode].
Proof. unfold train. rewrite iter_empty. done. Qed.





Lemma train_body_calls (size batch : nat) (X : Tensor) (y : list nat) :
  calls_only (@batch_call) unit (train_body size batch X y).
Proof.
  unfold train_body.
  apply calls_only_bind; [by apply calls_only_trigger|intros pred].
  apply calls_only_bind; [by apply calls_only_trigger|intros loss].
  apply calls_only_bind; [by apply calls_only_trigger|intros _].
  apply calls_only_bind; [by apply calls_only_trigger|intros _].
  apply calls_only_bind; [by apply calls_only_trigger|intros _].
  destruct (batch mod 100 =? 0); [|constructor].
  apply calls_only_bind; [apply calls_only_lift|intros n].
  by apply calls_only_trigger.
Qed.


Lemma iter_cons (dl : DataLoader) :
  forallb sample_ok (dataset dl) = true → dataset dl ≠ [] →
  0 < data.batch_size dl →
  ∃ b bs, iter dl = b :: bs ∧ batch_ok b.
Proof.
  intros Hds Hne Hb. pose proof (iter_ok dl Hds) as Hok.
  pose proof (length_iter dl) as Hlen. pose proof (len_nonzero dl Hne Hb) as Hn.
  destruct (iter dl) as [|b bs]; [done|].
  exists b, bs. split; [done|]. by apply Forall_cons_1 in Hok as [? _].
Qed.

(** X6. [train] needs gradient mode: with gradients disabled (as inside
    [with torch.no_grad()]) and a non-empty data set of well-formed samples,
    the first [loss.backward()] raises [RuntimeError], before any optimizer
    step; the call only switched the model to training mode. *)
Theorem train_needs_gradient_mode (dataloader : DataLoader) (w : World) :
  grad_enabled w = false → loss_fn_total →
  NeuralNetwork.topology_ok (parameters (model w)) = true →
  forallb sample_ok (dataset dataloader) = true →
  dataset dataloader ≠ [] → 0 < data.batch_size dataloader →
  interp (train dataloader) w
  = (Raised RuntimeError, set_model (set_training true) w) ∧
  trace (train dataloader) w = [CTrainMode; CForward; CLossFn; CBackward].
Proof.
  intros Hg Htot Hok Hds Hne Hb.
  destruct (iter_cons dataloader Hds Hne Hb) as ([X y] & bs & Hiter & Hshape & Hw & Hy).
  cbn [fst snd] in *.
  destruct (forward_ok (parameters (model w)) X (length y) 1 [28; 28] Hok Hshape)
    as (t & Hf & Hts & Htw); [done..|].
  specialize (Htot t y Hts Htw Hy).
  unfold train, enumerate. rewrite Hiter.
  cbn [length seq zip zip_with for_].
  rewrite interp_bind, trace_bind, interp_trigger, trace_trigger. cbn [handle call_of].
  rewrite interp_bind, trace_bind. unfold train_body.
  destruct w as [m ob ge r out fs]. cbn [grad_enabled model] in Hg, Hf. subst ge.
  cbn [bind trigger interp trace handle call_of].
  cbn [set_model set_training model parameters grad_enabled].
  rewrite Hf. cbn [value pred_graph].
  destruct (loss_fn t y) as [l|]; [|done].
  cbn [loss_graph fmap option_fmap option_map]. done.
Qed.

(** ** Further properties of the load cell *)

(** X13. Without a file [model.pth] the load cell raises
    [FileNotFoundError], but only after [model = NeuralNetwork()] ran: the
    global [model] is then a freshly initialised network (parameters drawn
    from the random generator, with the shapes of the class, no gradient),
    which the optimizer does not work on; console and files are as
    before. *)
Theorem load_without_file (w : World) :
  files w !! "model.pth" = None →
  (interp load w).1 = Raised FileNotFoundError ∧
  parameters (model (interp load w).2)
  = (NeuralNetwork.init_parameters NeuralNetwork.parameter_shapes (rng w)).1 ∧
  NeuralNetwork.topology_ok (parameters (model (interp load w).2)) = true ∧
  grads (model (interp load w).2) = ∅ ∧
  optimizer_bound (interp load w).2 = false ∧
  stdout (interp load w).2 = stdout w ∧ files (interp load w).2 = files w.
Proof.
  intros Hfile. unfold load. cbn [bind trigger interp handle].
  pose proof (NeuralNetwork_new_topology_ok (rng w)) as Hnew.
  destruct (NeuralNetwork.init_parameters NeuralNetwork.parameter_shapes (rng w))
    as [p0 rng'].
  cbn [files]. rewrite Hfile. done.
Qed.


(** ** Further properties of the prediction cell *)

Lemma classes_NoDup : NoDup classes.
Proof. apply (bool_decide_unpack _). by vm_compute. Qed.

(** X15. With parameters of the shapes of the class and a 28 x 28 image at
    position [item], the prediction cell returns exactly when [item] is a
    position of the test data and the label there is below 10; otherwise
    it raises [IndexError] (from [test_data[item]] or from [classes[y]]),
    prints nothing, and leaves the model in evaluation mode with the
    gradient mode restored. *)
Theorem prediction_cell_returns_iff (item : nat) (w : World) :
  NeuralNetwork.topology_ok (parameters (model w)) = true →
  (∀ s, test_data !! item = Some s → length (image s) = 28 * 28) →
  ((interp (prediction_cell item) w).1 = Ok ()
   ↔ ∃ s, test_data !! item = Some s ∧ label s < 10) ∧
  ((interp (prediction_cell item) w).1 = Ok () ∨
   interp (prediction_cell item) w
   = (Raised IndexError, set_model (set_training false) w)).
Proof.
  intros Hok Himg. unfold prediction_cell, no_grad, getitem.
  destruct (test_data !! item) as [s|] eqn:Hitem.
  - specialize (Himg s eq_refl).
    destruct (forward_ok (parameters (model w)) (image_tensor s) 1 28 [28])
      as (t & Hf & Hshape & Hw); [done..|by apply image_tensor_well_shaped|].
    destruct (first_row_argmax t 1 10 Hshape Hw) as (row & k & Hrow & Hk & Hlt);
      [lia..|].
    destruct (lookup_lt_is_Some_2 classes k) as [predicted Hp]; [done|].
    cbn [bind trigger lift interp handle].
    cbn [set_model set_grad_enabled model grad_enabled set_training parameters].
    rewrite Hf. cbn [value]. rewrite Hrow. cbn [lift bind interp]. rewrite Hk.
    cbn [lift bind interp]. rewrite Hp. cbn [lift bind interp].
    destruct (classes !! label s) as [actual|] eqn:Ha.
    + cbn [lift bind interp handle trigger fst snd]. split; [|by left].
      split; [intros _|done]. exists s. split; [done|].
      by apply lookup_lt_Some in Ha.
    + apply lookup_ge_None in Ha. cbn [length classes] in Ha.
      cbn [lift bind interp handle trigger fst snd]. split.
      * split; [done|]. intros (s' & Hs' & Hl). simplify_eq. lia.
      * right. by destruct w.
  - cbn [bind trigger lift interp handle fst]. split.
    + split; [done|]. by intros (s & Hs & _).
    + right. done.
Qed.

(** X16. On a well-formed sample and parameters of the shapes of the class
    the prediction cell returns and prints exactly one line: the class name
    of the index [predict] computes and the class name of the label.  The
    two names are equal exactly when index and label are.  Nothing else
    changes but the mode of the model. *)
Theorem prediction_cell_prints_one_line (item : nat) (s : Sample) (w : World) :
  test_data !! item = Some s → sample_ok s = true →
  NeuralNetwork.topology_ok (parameters (model w)) = true →
  ∃ (k : nat) (predicted actual : string),
    (interp (predict (image_tensor s)) w).1 = Ok k ∧
    classes !! k = Some predicted ∧ classes !! label s = Some actual ∧
    interp (prediction_cell item) w
    = (Ok (), mkWorld (set_training false (model w)) (optimizer_bound w)
                (grad_enabled w) (rng w)
                (stdout w ++ [Prediction predicted actual]) (files w)) ∧
    (predicted = actual ↔ k = label s).
Proof.
  intros Hitem [Hlen Hlabel]%sample_ok_spec Hok.
  destruct (forward_ok (parameters (model w)) (image_tensor s) 1 28 [28])
    as (t & Hf & Hshape & Hw); [done..|by apply image_tensor_well_shaped|].
  destruct (first_row_argmax t 1 10 Hshape Hw) as (row & k & Hrow & Hk & Hlt);
    [lia..|].
  destruct (lookup_lt_is_Some_2 classes k) as [predicted Hp]; [done|].
  destruct (lookup_lt_is_Some_2 classes (label s)) as [actual Ha]; [done|].
  exists k, predicted, actual.
  split.
  { rewrite interp_predict. unfold predict_index. rewrite Hf.
    cbn [mbind Result_bind]. rewrite Hrow. done. }
  split; [done|]. split; [done|]. split.
  - unfold prediction_cell, no_grad, getitem. rewrite Hitem.
    cbn [bind trigger lift interp handle].
    cbn [set_model set_grad_enabled model grad_enabled set_training parameters].
    rewrite Hf. cbn [value]. rewrite Hrow. cbn [lift bind interp]. rewrite Hk.
    cbn [lift bind interp]. rewrite Hp. cbn [lift bind interp]. rewrite Ha.
    cbn [lift bind interp handle trigger fst snd stdout]. by destruct w.
  - split.
    + intros ->. by apply (NoDup_lookup classes k (label s) actual classes_NoDup).
    + intros ->. by simplify_eq.
Qed.


(** ** Further properties of the data loaders *)

Lemma concat_chunks {A} (c w : nat) (l : list A) :
  length l ≤ c * w → concat (chunks c w l) = l.
Proof.
  revert l. induction c as [|c IH]; intros l Hl; cbn [chunks concat].
  - destruct l; [done|cbn in Hl; lia].
  - rewrite IH; [apply take_drop|]. rewrite length_drop. lia.
Qed.

Lemma len_covers (dl : DataLoader) :
  0 < data.batch_size dl →
  length (dataset dl) ≤ data.len dl * data.batch_size dl.
Proof.
  unfold data.len. intros Hb.
  pose proof (Nat.div_mod_eq (length (dataset dl) + data.batch_size dl - 1)
                (data.batch_size dl)) as Hdm.
  pose proof (Nat.mod_upper_bound (length (dataset dl) + data.batch_size dl - 1)
                (data.batch_size dl)) as Hub.
  nia.
Qed.

Lemma concat_batches (dl : DataLoader) :
  0 < data.batch_size dl → concat (batches dl) = dataset dl.
Proof. intros Hb. apply concat_chunks. by apply len_covers. Qed.

Lemma concat_fmap_rows {A B} (f : A → B) (ls : list (list A)) :
  concat ((λ l : list A, f <$> l) <$> ls) = f <$> concat ls.
Proof.
  induction ls as [|l ls IH]; [done|]. cbn [fmap list_fmap concat].
  by rewrite fmap_app, <- IH.
Qed.

(** X11. The batches of a data loader partition its data set: whatever the
    batch size (above 0), the batches put end to end are the data set, in
    its order, so a pass of [train] or [test] over the loader meets every
    sample exactly once, none dropped and none repeated; the same holds of
    the labels and of the pixels the batches carry. *)
Theorem batches_partition_data_set (dl : DataLoader) :
  0 < data.batch_size dl →
  concat (batches dl) = dataset dl ∧
  concat ((λ b : Tensor * list nat, b.2) <$> iter dl) = label <$> dataset dl ∧
  concat ((λ b : Tensor * list nat, data b.1) <$> iter dl)
  = concat (image <$> dataset dl).
Proof.
  intros Hb. pose proof (concat_batches dl Hb) as Hc.
  split; [done|]. unfold iter. rewrite <- !list_fmap_compose. split.
  - rewrite <- Hc. rewrite <- concat_fmap_rows. done.
  - rewrite <- Hc. generalize (batches dl). intros bss.
    induction bss as [|b bss IH]; [done|]. cbn [fmap list_fmap concat].
    rewrite fmap_app, concat_app. f_equal. exact IH.
Qed.

(** ** Further properties of the model *)

(** X9. What [forward] accepts, for parameters of the shapes of the class
    and an input with all its entries: an input of at least two dimensions
    whose dimensions after the first multiply to 784 gives one row of 10
    scores per index of the first dimension; with any other product the
    first linear layer raises [RuntimeError]; an input of fewer than two
    dimensions makes [nn.Flatten] raise [IndexError]. *)
Theorem forward_accepts (params : gmap string Tensor) (x : Tensor) :
  NeuralNetwork.topology_ok params = true → well_shaped x = true →
  (∀ n d rest, shape x = n :: d :: rest → numel (d :: rest) = 28 * 28 →
     ∃ t, NeuralNetwork.forward params x = Ok t ∧ shape t = [n; 10]
          ∧ well_shaped t = true) ∧
  (∀ n d rest, shape x = n :: d :: rest → numel (d :: rest) ≠ 28 * 28 →
     NeuralNetwork.forward params x = Raised RuntimeError) ∧
  (length (shape x) < 2 → NeuralNetwork.forward params x = Raised IndexError).
Proof.
  intros Hok Wx. split; [|split].
  - intros n d rest Hx Hd. by apply (forward_ok params x n d rest).
  - intros n d rest Hx Hd. unfold NeuralNetwork.forward, nn.Flatten. rewrite Hx.
    cbn [mbind Result_bind]. unfold nn.Linear.
    destruct (topology_ok_lookup params ("linear_relu_stack.0" +:+ ".weight")
                [512; 28 * 28] Hok) as (wt & -> & Hw & _).
    { apply list_elem_of_here. }
    destruct (topology_ok_lookup params ("linear_relu_stack.0" +:+ ".bias")
                [512] Hok) as (b & -> & Hb & _).
    { apply list_elem_of_further, list_elem_of_here. }
    unfold nn.linear. cbn [shape]. rewrite Hw, Hb.
    destruct (Nat.eqb_spec (numel (d :: rest)) (28 * 28)) as [Heq|_]; [done|].
    done.
  - intros Hlen. unfold NeuralNetwork.forward, nn.Flatten.
    destruct (shape x) as [|n [|d rest]]; [done..|]. cbn in Hlen. lia.
Qed.

Lemma argmax_from_max (l p : list Qc) (best_i : nat) (best : Qc) :
  p !! best_i = Some best →
  (∀ j q, p !! j = Some q → (q ≤ best)%Qc ∧ (j < best_i → (q < best)%Qc)) →
  ∃ m, (p ++ l) !! argmax_from l (length p) best_i best = Some m ∧
       ∀ j q, (p ++ l) !! j = Some q →
              (q ≤ m)%Qc ∧ (j < argmax_from l (length p) best_i best → (q < m)%Qc).
Proof.
  revert p best_i best.
  induction l as [|x l IH]; intros p best_i best Hbest Hinv; cbn [argmax_from].
  - rewrite app_nil_r. eauto.
  - pose proof (lookup_lt_Some _ _ _ Hbest) as Hlt.
    replace (p ++ x :: l) with ((p ++ [x]) ++ l) by (by rewrite <- app_assoc).
    replace (S (length p)) with (length (p ++ [x]))
      by (rewrite length_app; cbn; lia).
    case_bool_decide as Hx.
    + apply IH.
      * by rewrite lookup_app_l.
      * intros j q Hj. destruct (decide (j < length p)) as [Hjp|Hjp].
        -- rewrite lookup_app_l in Hj by done. by apply Hinv.
        -- rewrite lookup_app_r in Hj by lia.
           destruct (j - length p) as [|?] eqn:Hd; [|done].
           cbn in Hj. injection Hj as <-. split; [done|]. lia.
    + apply Qcnot_le_lt in Hx. apply IH.
      * rewrite lookup_app_r by lia. by rewrite Nat.sub_diag.
      * intros j q Hj. destruct (decide (j < length p)) as [Hjp|Hjp].
        -- rewrite lookup_app_l in Hj by done.
           destruct (Hinv j q Hj) as [Hle _].
           pose proof (Qcle_lt_trans _ _ _ Hle Hx) as Hqx.
           split; [by apply Qclt_le_weak|done].
        -- rewrite lookup_app_r in Hj by lia.
           destruct (j - length p) as [|?] eqn:Hd; [|done].
           cbn in Hj. injection Hj as <-. split; [apply Qcle_refl|]. lia.
Qed.

Lemma argmax_max (l : list Qc) :
  l ≠ [] →
  ∃ m, l !! argmax l = Some m ∧
       ∀ j q, l !! j = Some q → (q ≤ m)%Qc ∧ (j < argmax l → (q < m)%Qc).
Proof.
  destruct l as [|x l]; [done|intros _]. cbn [argmax].
  apply (argmax_from_max l [x] 0 x); [done|].
  intros [|j] q Hj; [|done]. cbn in Hj. injection Hj as <-.
  split; [apply Qcle_refl|lia].
Qed.

(** X17. The class the prediction computes has the top score: for
    parameters of the shapes of the class and a 28 x 28 image, the index
    [predict] returns points at a score that no other of the ten scores of
    the forward pass exceeds, and that every score before it is strictly
    below (of equal top scores the first is taken). *)
Theorem prediction_has_top_score (s : Sample) (w : World) :
  NeuralNetwork.topology_ok (parameters (model w)) = true →
  length (image s) = 28 * 28 →
  ∃ (k : nat) (t : Tensor) (top : Qc),
    (interp (predict (image_tensor s)) w).1 = Ok k ∧
    NeuralNetwork.forward (parameters (model w)) (image_tensor s) = Ok t ∧
    shape t = [1; 10] ∧ length (data t) = 10 ∧
    data t !! k = Some top ∧
    ∀ j q, data t !! j = Some q → (q ≤ top)%Qc ∧ (j < k → (q < top)%Qc).
Proof.
  intros Hok Hs.
  destruct (forward_ok (parameters (model w)) (image_tensor s) 1 28 [28])
    as (t & Hf & Hshape & Hw); [done..|by apply image_tensor_well_shaped|].
  pose proof Hw as Hlen. apply well_shaped_spec in Hlen. rewrite Hshape in Hlen.
  cbn in Hlen.
  destruct (argmax_max (data t)) as (m & Hm & Hmax).
  { intros Hnil. by rewrite Hnil in Hlen. }
  exists (argmax (data t)), t, m.
  split; [|done].
  rewrite interp_predict. unfold predict_index. rewrite Hf.
  cbn [mbind Result_bind]. unfold getitem0. rewrite Hshape, Hw.
  cbn [Nat.eqb orb negb mbind Result_bind]. unfold argmax0, well_shaped.
  cbn [shape data]. rewrite take_ge by lia. rewrite Hlen. done.
Qed.

(** ** The average loss of [test] *)

Lemma eval_batches_losses (params : gmap string Tensor)
    (bs : list (Tensor * list nat)) (acc r : Qc * Qc) :
  eval_batches params bs acc = Ok r →
  ∃ losses : list Qc,
    Forall2 (λ b l, ∃ t, NeuralNetwork.forward params b.1 = Ok t
                       ∧ loss_fn t b.2 = Ok l) bs losses ∧
    r.1 = (acc.1 + foldr Qcplus 0 losses)%Qc.
Proof.
  revert acc. induction bs as [|[X y] bs IH]; intros acc Hr; cbn in Hr.
  - injection Hr as <-. exists []. split; [constructor|]. cbn.
    by rewrite Qcplus_0_r.
  - unfold eval_batch in Hr. cbn [fst snd] in Hr.
    destruct (NeuralNetwork.forward params X) as [t|] eqn:Hf; cbn in Hr; [|done].
    destruct (loss_fn t y) as [l|] eqn:Hl; cbn in Hr; [|done].
    destruct (argmax1 t) as [hs|]; cbn in Hr; [|done].
    apply IH in Hr as (losses & Hall & ->). exists (l :: losses). split.
    + constructor; [|done]. exists t. done.
    + cbn. by rewrite Qcplus_assoc.
Qed.

(** X18. The average loss [test] reports is the mean over the batches, not
    over the samples: the sum of [loss_fn(model(X), y)] over the batches of
    the loader divided by the number of batches, so a shorter last batch
    weighs as much as a full one. *)
Theorem test_loss_is_mean_over_batches (dataloader : DataLoader) (w : World) :
  match interp (test dataloader) w with
  | (Ok _, w') =>
      ∃ (losses : list Qc) (accuracy : Qc),
        Forall2 (λ b l, ∃ t, NeuralNetwork.forward (parameters (model w)) b.1 = Ok t
                           ∧ loss_fn t b.2 = Ok l) (iter dataloader) losses ∧
        data.len dataloader ≠ 0 ∧
        stdout w'
        = stdout w ++ [TestError accuracy
                         (foldr Qcplus 0 losses
                          / Qc_of_Z (Z.of_nat (data.len dataloader)))%Qc]
  | (Raised _, w') => stdout w' = stdout w
  end.
Proof.
  rewrite interp_test. unfold metrics.
  destruct (eval_batches _ _ _) as [[tl c]|e] eqn:He; cbn [mbind Result_bind];
    [|done].
  cbn [fst snd].
  destruct (truediv tl (data.len dataloader)) as [l|e] eqn:Hl;
    cbn [mbind Result_bind]; [|done].
  destruct (truediv c (length (dataset dataloader))) as [a|e] eqn:Ha;
    cbn [mbind Result_bind]; [|done].
  apply eval_batches_losses in He as (losses & Hall & Hsum).
  cbn [fst] in Hsum. rewrite Qcplus_0_l in Hsum. subst tl.
  apply truediv_Ok in Hl as [Hn ->].
  exists losses, (Qc_of_Z 100 * a)%Qc. done.
Qed.


(** ** The model treats the samples of a batch one by one *)

Lemma chunks_concat {A} (w : nat) (rows : list (list A)) :
  Forall (λ r, length r = w) rows →
  chunks (length rows) w (concat rows) = rows.
Proof.
  induction 1 as [|r rows Hr _ IH]; [done|]. cbn [length chunks concat].
  rewrite take_app_length', drop_app_length' by done. by rewrite IH.
Qed.

Lemma ReLU_rows (s : list nat) (rows : list (list Qc)) :
  nn.ReLU (mkTensor s (concat rows))
  = mkTensor s (concat ((λ r : list Qc, nn.relu <$> r) <$> rows)).
Proof. unfold nn.ReLU. cbn [shape data]. by rewrite concat_fmap_rows. Qed.

Lemma linear_rows (weight bias : Tensor) (i o n : nat) (rows : list (list Qc)) :
  shape weight = [o; i] → shape bias = [o] →
  well_shaped weight = true → well_shaped bias = true →
  Forall (λ r, length r = i) rows → n = length rows →
  nn.linear weight bias (mkTensor [n; i] (concat rows))
  = Ok (mkTensor [n; o]
          (concat ((λ r, zip_with (λ w b, nn.dot w r + b)%Qc
                           (chunks o i (data weight)) (data bias))
                     <$> rows))).
Proof.
  intros Hw Hb Ww Wb Hrows ->. unfold nn.linear. cbn [shape data].
  rewrite Hw, Hb, Ww, Wb, !Nat.eqb_refl.
  assert (well_shaped (mkTensor [length rows; i] (concat rows)) = true) as ->.
  { apply well_shaped_spec. cbn [shape data numel foldr].
    rewrite (length_concat_rows i) by done. lia. }
  cbn [andb]. by rewrite (chunks_concat i).
Qed.

Lemma Linear_rows (name : string) (in_features out_features : nat)
    (params : gmap string Tensor) :
  NeuralNetwork.topology_ok params = true →
  (∀ ks, ks ∈ NeuralNetwork.Linear_shapes name in_features out_features →
         ks ∈ NeuralNetwork.parameter_shapes) →
  ∃ f : list Qc → list Qc,
    (∀ r, length (f r) = out_features) ∧
    ∀ (n : nat) (rows : list (list Qc)),
      Forall (λ r, length r = in_features) rows → n = length rows →
      nn.Linear name params (mkTensor [n; in_features] (concat rows))
      = Ok (mkTensor [n; out_features] (concat (f <$> rows))).
Proof.
  intros Hok Hin. unfold nn.Linear.
  destruct (topology_ok_lookup params (name +:+ ".weight")
              [out_features; in_features] Hok) as (w & -> & Hw & Ww).
  { apply Hin. apply list_elem_of_here. }
  destruct (topology_ok_lookup params (name +:+ ".bias") [out_features] Hok)
    as (b & -> & Hb & Wb).
  { apply Hin. apply list_elem_of_further, list_elem_of_here. }
  exists (λ r, zip_with (λ w b, nn.dot w r + b)%Qc
                 (chunks out_features in_features (data w)) (data b)).
  split.
  - intros r. rewrite length_zip_with, length_chunks.
    apply well_shaped_spec in Wb. rewrite Hb in Wb. cbn in Wb. lia.
  - intros n rows Hrows Hn. by apply linear_rows.
Qed.

(** The scores of a stack of rows are the scores of each row. *)
Lemma forward_rows (params : gmap string Tensor) :
  NeuralNetwork.topology_ok params = true →
  ∃ g : list Qc → list Qc,
    (∀ r, length (g r) = 10) ∧
    ∀ (x : Tensor) (rows : list (list Qc)) (d : nat) (rest : list nat),
      shape x = length rows :: d :: rest → numel (d :: rest) = 28 * 28 →
      data x = concat rows → Forall (λ r, length r = 28 * 28) rows →
      NeuralNetwork.forward params x
      = Ok (mkTensor [length rows; 10] (concat (g <$> rows))).
Proof.
  intros Hok.
  destruct (Linear_rows "linear_relu_stack.0" (28 * 28) 512 params Hok)
    as (f0 & Hlen0 & Hf0).
  { intros ks Hks. apply elem_of_app. by left. }
  destruct (Linear_rows "linear_relu_stack.2" 512 512 params Hok)
    as (f2 & Hlen2 & Hf2).
  { intros ks Hks. apply elem_of_app. right. apply elem_of_app. by left. }
  destruct (Linear_rows "linear_relu_stack.4" 512 10 params Hok)
    as (f4 & Hlen4 & Hf4).
  { intros ks Hks. apply elem_of_app. right. apply elem_of_app. by right. }
  exists (λ r, f4 (nn.relu <$> f2 (nn.relu <$> f0 r))).
  split; [intros r; apply Hlen4|].
  intros x rows d rest Hx Hd Hdata Hrows.
  unfold NeuralNetwork.forward, nn.Flatten. rewrite Hx, Hd, Hdata.
  cbn [mbind Result_bind].
  rewrite (Hf0 (length rows) rows Hrows eq_refl). cbn [mbind Result_bind].
  rewrite ReLU_rows.
  rewrite (Hf2 (length rows)); cycle 1.
  { apply Forall_fmap, Forall_fmap, Forall_forall. intros r _. cbn.
    by rewrite length_fmap. }
  { by rewrite !length_fmap. }
  cbn [mbind Result_bind].
  rewrite ReLU_rows.
  rewrite (Hf4 (length rows)); cycle 1.
  { apply Forall_fmap, Forall_fmap, Forall_fmap, Forall_fmap, Forall_forall.
    intros r _. cbn. by rewrite length_fmap. }
  { by rewrite !length_fmap. }
  by rewrite <- !list_fmap_compose.
Qed.

Lemma forward_collate_rows (params : gmap string Tensor)
    (samples : list Sample) :
  NeuralNetwork.topology_ok params = true →
  Forall (λ s, length (image s) = 28 * 28) samples →
  ∃ rows : list (list Qc),
    Forall2 (λ s r, NeuralNetwork.forward params (image_tensor s)
                    = Ok (mkTensor [1; 10] r) ∧ length r = 10) samples rows ∧
    NeuralNetwork.forward params (collate samples).1
    = Ok (mkTensor [length samples; 10] (concat rows)).
Proof.
  intros Hok Hs. destruct (forward_rows params Hok) as (g & Hlen & Hg).
  exists (g <$> (image <$> samples)). split.
  - apply Forall2_fmap_r, Forall2_fmap_r, Forall_Forall2_diag.
    eapply Forall_impl; [exact Hs|]. intros s Hl. cbv beta. split; [|apply Hlen].
    rewrite (Hg (image_tensor s) [image s] 28 [28]).
    + cbn. by rewrite app_nil_r.
    + done.
    + done.
    + cbn. by rewrite app_nil_r.
    + by constructor.
  - rewrite (Hg (collate samples).1 (image <$> samples) 1 [28; 28]).
    + by rewrite length_fmap.
    + cbn. by rewrite length_fmap.
    + done.
    + done.
    + by apply Forall_fmap.
Qed.

(** X10. The model treats the samples of a batch one by one: for parameters
    of the shapes of the class and 28 x 28 images, the scores of the batch
    the loader collates from a group of samples are, row by row and in
    order, the scores the model gives each image alone (as the prediction
    cell passes it). *)
Theorem forward_on_batch_is_rowwise (params : gmap string Tensor)
    (samples : list Sample) :
  NeuralNetwork.topology_ok params = true →
  Forall (λ s, length (image s) = 28 * 28) samples →
  ∃ rows : list (list Qc),
    Forall2 (λ s r, NeuralNetwork.forward params (image_tensor s)
                    = Ok (mkTensor [1; 10] r) ∧ length r = 10) samples rows ∧
    NeuralNetwork.forward params (collate samples).1
    = Ok (mkTensor [length samples; 10] (concat rows)).
Proof. apply forward_collate_rows. Qed.

(** ** The accuracy of [test] *)

Lemma predict_index_row (params : gmap string Tensor) (x : Tensor) (r : list Qc) :
  NeuralNetwork.forward params x = Ok (mkTensor [1; 10] r) → length r = 10 →
  predict_index params x = Ok (argmax r).
Proof.
  intros Hf Hr. unfold predict_index. rewrite Hf. cbn [mbind Result_bind].
  unfold getitem0, well_shaped. cbn [shape data numel foldr]. rewrite Hr.
  cbn [Nat.mul Nat.add Nat.eqb orb negb mbind Result_bind].
  unfold argmax0, well_shaped. cbn [shape data numel foldr].
  rewrite take_ge by lia. rewrite Hr. done.
Qed.

Lemma hits_app (params : gmap string Tensor) (a b : list Sample) :
  hits params (a ++ b) = hits params a + hits params b.
Proof. unfold hits. by rewrite filter_app, length_app. Qed.

Lemma count_eq_cons (a : nat) (al : list nat) (y : nat) (yl : list nat) :
  count_eq (a :: al) (y :: yl)
  = (if decide (a = y) then 1 else 0) + count_eq al yl.
Proof.
  unfold count_eq. cbn [zip zip_with]. rewrite filter_cons. cbn [fst snd].
  by case_decide.
Qed.

Lemma hits_cons (params : gmap string Tensor) (s : Sample) (ss : list Sample) :
  hits params (s :: ss) = (if is_hit params s then 1 else 0) + hits params ss.
Proof.
  unfold hits. rewrite filter_cons.
  destruct (is_hit params s); [by rewrite decide_True|by rewrite decide_False].
Qed.

(** The hits [test] counts in a batch are the samples of the batch that the
    prediction gets right. *)
Lemma batch_hits (params : gmap string Tensor) (samples : list Sample)
    (rows : list (list Qc)) :
  Forall2 (λ s r, NeuralNetwork.forward params (image_tensor s)
                  = Ok (mkTensor [1; 10] r) ∧ length r = 10) samples rows →
  argmax1 (mkTensor [length samples; 10] (concat rows)) = Ok (argmax <$> rows) ∧
  count_eq (argmax <$> rows) (label <$> samples) = hits params samples.
Proof.
  intros Hrows.
  assert (Forall (λ r : list Qc, length r = 10) rows) as Hlen.
  { apply Forall2_Forall_r with (1 := Hrows). apply Forall_true. by intros s r [_ ?]. }
  pose proof (Forall2_length _ _ _ Hrows) as Hn. split.
  - unfold argmax1, well_shaped. cbn [shape data numel foldr].
    rewrite (length_concat_rows 10) by done. rewrite Hn.
    destruct (Nat.eqb_spec (length rows * 10) (length rows * (10 * 1))) as [_|Hne];
      [|lia].
    cbn [Nat.eqb orb negb]. by rewrite (chunks_concat 10).
  - clear Hlen Hn. induction Hrows as [|s r samples rows [Hf Hr] _ IH]; [done|].
    cbn [fmap list_fmap]. rewrite count_eq_cons, hits_cons, IH. f_equal.
    unfold is_hit. rewrite (predict_index_row params _ r Hf Hr).
    case_decide as Heq; [by apply Nat.eqb_eq in Heq as ->|].
    by apply Nat.eqb_neq in Heq as ->.
Qed.

Lemma eval_batches_hits (params : gmap string Tensor)
    (bss : list (list Sample)) (acc r : Qc * Qc) :
  NeuralNetwork.topology_ok params = true →
  Forall (Forall (λ s, length (image s) = 28 * 28)) bss →
  eval_batches params (collate <$> bss) acc = Ok r →
  r.2 = (acc.2 + Qc_of_Z (Z.of_nat (hits params (concat bss))))%Qc.
Proof.
  intros Hok Hbss. revert acc.
  induction Hbss as [|b bss Hb _ IH]; intros acc Hr;
    cbn [fmap list_fmap eval_batches] in Hr.
  - injection Hr as <-. cbn. change (Z.of_nat 0) with 0%Z.
    by rewrite Z2Qc_inj_0, Qcplus_0_r.
  - unfold eval_batch in Hr.
    destruct (forward_collate_rows params b Hok Hb) as (rows & Hrows & Hf).
    rewrite Hf in Hr. cbn [mbind Result_bind] in Hr.
    destruct (loss_fn _ _) as [l|]; cbn [mbind Result_bind] in Hr; [|done].
    destruct (batch_hits params b rows Hrows) as [Ha Hc].
    rewrite Ha in Hr. cbn [mbind Result_bind collate snd] in Hr. rewrite Hc in Hr.
    apply IH in Hr as ->. cbn [fst snd concat]. rewrite hits_app.
    rewrite Nat2Z.inj_add, Z2Qc_inj_add. by rewrite Qcplus_assoc.
Qed.

(** X3. The accuracy [test] reports is the accuracy of the prediction taken
    sample by sample: whenever [test] returns, on parameters of the shapes
    of the class and 28 x 28 images, the percentage it prints is 100 times
    the number of samples of the data set whose predicted class (computed
    on the sample alone, as the prediction cell does) is their label,
    divided by the size of the data set.  It does not depend on how the
    loader groups the samples into batches. *)
Theorem test_accuracy_counts_samples (dataloader : DataLoader) (w : World) :
  NeuralNetwork.topology_ok (parameters (model w)) = true →
  Forall (λ s, length (image s) = 28 * 28) (dataset dataloader) →
  (interp (test dataloader) w).1 = Ok () →
  ∃ test_loss : Qc,
    stdout (interp (test dataloader) w).2
    = stdout w
      ++ [TestError
            (Qc_of_Z 100
             * (Qc_of_Z (Z.of_nat (hits (parameters (model w)) (dataset dataloader)))
                / Qc_of_Z (Z.of_nat (length (dataset dataloader)))))%Qc
            test_loss].
Proof.
  intros Hok Hds. rewrite interp_test. unfold metrics.
  destruct (eval_batches _ _ _) as [[tl c]|e] eqn:He; cbn [mbind Result_bind];
    [|done].
  cbn [fst snd].
  destruct (truediv tl (data.len dataloader)) as [l|e] eqn:Hl;
    cbn [mbind Result_bind]; [|done].
  destruct (truediv c (length (dataset dataloader))) as [a|e] eqn:Ha;
    cbn [mbind Result_bind]; [|done].
  intros _. exists l. cbn [snd stdout]. do 3 f_equal.
  apply truediv_Ok in Hl as [Hn _]. apply truediv_Ok in Ha as [_ ->].
  assert (0 < data.batch_size dataloader) as Hb.
  { unfold data.len in Hn. destruct (data.batch_size dataloader); [done|lia]. }
  unfold iter in He.
  apply eval_batches_hits in He; [|done|by apply chunks_Forall].
  cbn [fst snd] in He. rewrite Qcplus_0_l in He.
  by rewrite He, (concat_batches dataloader Hb).
Qed.


(** ** The position in the progress lines *)

Lemma elem_of_enumerate {A} (l : list A) (i : nat) (x : A) :
  (i, x) ∈ enumerate l → l !! i = Some x.
Proof.
  unfold enumerate. intros [k Hk]%list_elem_of_lookup.
  apply lookup_zip_Some in Hk as [Hi Hx].
  apply lookup_seq in Hi as [-> _]. done.
Qed.

(** X8. The position a progress line shows, [(batch + 1) * len(X)], never
    overstates the progress: for batch [i] holding [m] samples it is at most
    the number [batch_size * i + m] of samples met so far, which is at most
    the size of the data set; it is exactly that number for every batch but
    the last, and strictly less for a shorter batch of index above 0. *)
Theorem progress_position_bounds (dataloader : DataLoader) (w : World) :
  optimizer_bound w = true → grad_enabled w = true →
  (interp (train dataloader) w).1 = Ok () →
  ∃ lines : list Line,
    stdout (interp (train dataloader) w).2 = stdout w ++ lines ∧
    Forall (λ line,
              ∃ (loss : Qc) (i m : nat),
                line = TrainProgress loss ((i + 1) * m) (length (dataset dataloader)) ∧
                i mod 100 = 0 ∧ i < data.len dataloader ∧
                m = min (data.batch_size dataloader)
                      (length (dataset dataloader) - data.batch_size dataloader * i) ∧
                (i + 1) * m ≤ data.batch_size dataloader * i + m ∧
                data.batch_size dataloader * i + m ≤ length (dataset dataloader) ∧
                (S i < data.len dataloader →
                 (i + 1) * m = data.batch_size dataloader * i + m) ∧
                (0 < i → m < data.batch_size dataloader →
                 (i + 1) * m < data.batch_size dataloader * i + m))
      lines.
Proof.
  intros Hob Hg. pose proof (interp_train dataloader w Hob Hg) as Hrun.
  destruct (spec_train_batches _ (iter dataloader)) as [[pg' ls]|e];
    [|by rewrite Hrun].
  destruct Hrun as (-> & _ & Hls). intros _. cbn [fst snd stdout].
  eexists. split; [reflexivity|].
  unfold progress_lines. apply Forall_fmap, Forall_forall.
  intros [i [[X y] l]] [Hi Hin]%list_elem_of_filter. cbn [fst] in Hi.
  apply elem_of_enumerate, lookup_zip_Some in Hin as [Hb _].
  pose proof (lookup_lt_Some _ _ _ Hb) as Hlt. rewrite length_iter in Hlt.
  rewrite (iter_lookup dataloader i Hlt) in Hb. injection Hb as _ <-.
  pose proof (len_mul_lt dataloader i Hlt) as Hmul.
  exists l, i, (length (label <$> take (data.batch_size dataloader)
                         (drop (i * data.batch_size dataloader) (dataset dataloader)))).
  split; [done|]. split; [done|]. split; [done|].
  rewrite length_fmap, length_take, length_drop, (Nat.mul_comm i).
  split; [done|]. split; [nia|]. split; [lia|]. split; [|nia].
  intros Hfull. pose proof (len_full_batch dataloader i Hfull). nia.
Qed.

(** ** One batch of training is one step of gradient descent *)



(** ** The epochs without test data *)

Lemma metrics_empty (params : gmap string Tensor) (b : nat) :
  metrics params (mkDataLoader [] b) = Raised ZeroDivisionError.
Proof.
  unfold metrics. rewrite iter_empty. cbn [eval_batches mbind Result_bind fst].
  unfold data.len. cbn [dataset data.batch_size length].
  replace ((0 + b - 1) / b) with 0; [done|].
  destruct b as [|b]; [done|]. symmetry. apply Nat.div_small. lia.
Qed.

(** X12. With an empty test data set the epochs stop in the first one: from
    a state between cells and well-formed training data, [run_epochs n]
    with [n > 0] prints the header of epoch 1, runs one full pass of
    [train], and then raises [ZeroDivisionError] in [test]; [Done] is never
    printed, and the parameters are those after one pass of training. *)
Theorem run_epochs_without_test_data (n : nat) (w : World) :
  loss_fn_total → ready w = true →
  forallb sample_ok training_data = true → test_data = [] → 0 < n →
  ∃ (p' : gmap string Tensor) (ls : list Qc),
    spec_train_batches (parameters (model w), ∅) (iter train_dataloader)
    = Ok ((p', ∅), ls) ∧
    interp (run_epochs n) w
    = (Raised ZeroDivisionError,
       mkWorld (mkModule p' ∅ false) true true (rng w)
         (stdout w ++ EpochHeader 1
            :: progress_lines (length training_data) (iter train_dataloader) ls)
         (files w)).
Proof.
  intros Htot (Hob & Hg & Hgrads & Hok)%ready_spec Htrain Hempty Hn.
  destruct (spec_train_batches_ok (parameters (model w)) (iter train_dataloader)
              Htot Hok (iter_ok train_dataloader Htrain))
    as (p' & ls & Hspec & _).
  exists p', ls. split; [done|].
  destruct n as [|n]; [lia|]. unfold run_epochs, range.
  cbn [seq for_]. rewrite !interp_bind, interp_trigger. cbn [handle].
  set (w1 := mkWorld (model w) (optimizer_bound w) (grad_enabled w) (rng w)
               (stdout w ++ [EpochHeader (0 + 1)]) (files w)).
  pose proof (interp_train train_dataloader w1 Hob Hg) as Htr.
  cbn [w1 model] in Htr. rewrite Hgrads, Hspec in Htr.
  destruct Htr as (Hi & _ & _). rewrite interp_bind, Hi.
  rewrite interp_test. unfold test_dataloader. rewrite Hempty.
  cbn [model parameters]. rewrite metrics_empty.
  cbn [fst snd w1 stdout rng files train_dataloader dataset].
  unfold set_model, set_training. cbn. by rewrite <- app_assoc.
Qed.


(** ** A saved state dictionary is a snapshot *)

Lemma calls_only_mono (P Q : ∀ X, torchE X → Prop) {A} (p : prog A) :
  (∀ X e, P X e → Q X e) → calls_only P A p → calls_only Q A p.
Proof. intros HPQ Hp. induction Hp; constructor; auto. Qed.

Lemma test_calls_only (P : ∀ X, torchE X → Prop) (dataloader : DataLoader) :
  P _ model_eval → (∀ X, P _ (model_call X)) →
  (∀ pred y, P _ (loss_fn_call pred y)) → (∀ l, P _ (print l)) →
  calls_only P unit (test dataloader).
Proof.
  intros Heval Hcall Hloss Hprint. unfold test, no_grad.
  apply calls_only_bind; [by apply calls_only_trigger|intros _].
  constructor; [|constructor].
  apply calls_only_bind.
  - apply calls_only_for_acc. intros [test_loss correct] [X y].
    apply calls_only_bind; [by apply calls_only_trigger|intros pred].
    apply calls_only_bind; [by apply calls_only_trigger|intros loss].
    apply calls_only_bind; [apply calls_only_lift|intros hs]. constructor.
  - intros [test_loss correct].
    apply calls_only_bind; [apply calls_only_lift|intros l].
    apply calls_only_bind; [apply calls_only_lift|intros c].
    by apply calls_only_trigger.
Qed.

Lemma train_calls_only (P : ∀ X, torchE X → Prop) (dataloader : DataLoader) :
  P _ model_train → (∀ X e, batch_call e → P X e) →
  calls_only P unit (train dataloader).
Proof.
  intros Htrain Hbatch. unfold train.
  apply calls_only_bind; [by apply calls_only_trigger|intros _].
  apply calls_only_for_. intros [batch [X y]].
  apply (calls_only_mono (@batch_call)); [exact Hbatch|apply train_body_calls].
Qed.

Lemma run_epochs_keeps_files (n : nat) :
  calls_only (@keeps_files) unit (run_epochs n).
Proof.
  unfold run_epochs.
  apply calls_only_bind; [|intros _; by apply calls_only_trigger].
  apply calls_only_for_. intros t.
  apply calls_only_bind; [by apply calls_only_trigger|intros _].
  apply calls_only_bind; [|intros _; by apply test_calls_only].
  apply train_calls_only; [done|]. by intros X [].
Qed.

Lemma handle_keeps_files {X} (e : torchE X) (w : World) :
  keeps_files e → files (handle e w).2 = files w.
Proof.
  destruct e; intros He; try destruct He; cbn [handle]; try reflexivity.
  - by destruct (NeuralNetwork.forward _ _).
  - by destruct (loss_fn _ _).
  - by destruct (loss_graph loss) as [[[p x] y]|].
  - by destruct (optimizer_bound w).
  - by destruct (optimizer_bound w).
  - by destruct (files w !! f).
  - by destruct (load_state_dict _ _).
Qed.

Lemma interp_keeps_files {A} (p : prog A) (w : World) :
  calls_only (@keeps_files) A p → files (interp p w).2 = files w.
Proof.
  intros Hp. revert w.
  induction Hp as [A a|A e|A X e k He Hk IH|A X body k Hbody IHbody Hk IH];
    intros w; cbn [interp]; try done.
  - pose proof (handle_keeps_files e w He) as Hh.
    destruct (handle e w) as [[x|ex] w']; cbn [snd] in *; [by rewrite IH|done].
  - specialize (IHbody (set_grad_enabled false w)).
    destruct (interp body (set_grad_enabled false w)) as [[x|ex] w'];
      cbn [snd] in *; [by rewrite IH|done].
Qed.

(** The load cell on a file that holds a state dictionary of the shapes of
    the class. *)
Lemma interp_load (p0 : gmap string Tensor) (w : World) :
  files w !! "model.pth" = Some (map_to_list p0) →
  NeuralNetwork.topology_ok p0 = true →
  (interp load w).1 = Ok () ∧ parameters (model (interp load w).2) = p0.
Proof.
  intros Hfile Hok. unfold load. cbn [bind trigger interp handle].
  pose proof (NeuralNetwork_new_topology_ok (rng w)) as Hnew.
  destruct (NeuralNetwork.init_parameters NeuralNetwork.parameter_shapes (rng w))
    as [q rng'].
  cbn [fst files model parameters] in *. rewrite Hfile, list_to_map_to_list.
  cbn [model parameters].
  assert (topology p0 = topology q) as Htop.
  { apply topology_ok_iff in Hok, Hnew. by rewrite Hok, Hnew. }
  pose proof (proj2 (load_state_dict_Ok _ _) Htop) as Hload.
  pose proof (copy_parameters_all _ _ Htop) as Hcopy.
  assert ((load_state_dict p0 q).2 = copy_parameters p0 q) as Hsnd.
  { unfold load_state_dict. by destruct (_ && _). }
  destruct (load_state_dict p0 q) as [r p]. cbn [fst snd] in *. subst r p.
  cbn. by rewrite Hcopy.
Qed.

(** X21. The saved file is a snapshot: when the save cell has run on a
    model with parameters of the shapes of the class, then however many
    epochs of training and testing follow, and whether they return or
    raise, the load cell returns and gives the model exactly the parameters
    it had when it was saved. *)
Theorem checkpoint_survives_training (n : nat) (w : World) :
  NeuralNetwork.topology_ok (parameters (model w)) = true →
  let saved := (interp save w).2 in
  let trained := (interp (run_epochs n) saved).2 in
  (interp save w).1 = Ok () ∧
  (interp load trained).1 = Ok () ∧
  parameters (model (interp load trained).2) = parameters (model w).
Proof.
  intros Hok saved trained. split; [done|].
  apply interp_load; [|done]. unfold trained.
  rewrite interp_keeps_files by apply run_epochs_keeps_files.
  unfold saved, save. cbn [bind trigger interp handle snd files model].
  apply lookup_insert_eq.
Qed.

(** ** Running the epochs again *)

Lemma spec_train_epochs_add (n m : nat) (pg : gmap string Tensor * gmap string Tensor) :
  spec_train_epochs (n + m) pg
  = match spec_train_epochs n pg with
    | Ok pg' => spec_train_epochs m pg'
    | Raised e => Raised e
    end.
Proof.
  revert pg. induction n as [|n IH]; intros pg; cbn [Nat.add spec_train_epochs];
    [done|].
  destruct (spec_train_batches pg (iter train_dataloader)) as [[pg' ls]|e];
    [apply IH|done].
Qed.

Lemma interp_run_epochs (n : nat) (w : World) :
  loss_fn_total → ready w = true →
  forallb sample_ok training_data = true →
  forallb sample_ok test_data = true → test_data ≠ [] →
  ∃ (p' : gmap string Tensor) (w' : World),
    spec_train_epochs n (parameters (model w), ∅) = Ok (p', ∅) ∧
    interp (run_epochs n) w = (Ok (), w') ∧
    ready w' = true ∧ parameters (model w') = p'.
Proof.
  intros Htot Hready Htrain Htest Hne.
  destruct (interp_epochs_loop n 0 w Htot Hready Htrain Htest Hne)
    as (p' & reports & w' & Hspec & Hi & Hready' & Hp' & _).
  eexists p', _. split; [done|]. unfold run_epochs, range.
  rewrite interp_bind, Hi, interp_trigger. cbn [handle].
  split; [reflexivity|]. split; [|done].
  apply ready_spec in Hready' as (? & ? & ? & ?). by apply ready_spec.
Qed.

(** X19. Running the epochs cell again continues the training: from a state
    between cells, on well-formed data with a non-empty test set,
    [run_epochs n] followed by [run_epochs m] returns and leaves the
    parameters that one run of [run_epochs (n + m)] leaves (the loaders do
    not shuffle and the optimizer keeps no state between steps). *)
Theorem run_epochs_again_continues (n m : nat) (w : World) :
  loss_fn_total → ready w = true →
  forallb sample_ok training_data = true →
  forallb sample_ok test_data = true → test_data ≠ [] →
  (interp (run_epochs n ;; run_epochs m) w).1 = Ok () ∧
  (interp (run_epochs (n + m)) w).1 = Ok () ∧
  parameters (model (interp (run_epochs n ;; run_epochs m) w).2)
  = parameters (model (interp (run_epochs (n + m)) w).2).
Proof.
  intros Htot Hready Htrain Htest Hne.
  destruct (interp_run_epochs n w Htot Hready Htrain Htest Hne)
    as (p1 & w1 & Hs1 & Hi1 & Hready1 & Hp1).
  destruct (interp_run_epochs m w1 Htot Hready1 Htrain Htest Hne)
    as (p2 & w2 & Hs2 & Hi2 & _ & Hp2).
  destruct (interp_run_epochs (n + m) w Htot Hready Htrain Htest Hne)
    as (p3 & w3 & Hs3 & Hi3 & _ & Hp3).
  rewrite interp_bind, Hi1, Hi2, Hi3. cbn [fst snd].
  split; [done|]. split; [done|].
  rewrite spec_train_epochs_add, Hs1, Hp1, Hs2 in *. congruence.
Qed.

(** ** An exception during training *)

Lemma train_loop_prefix (size : nat) (bs : list (Tensor * list nat)) (i : nat)
    (w : World) :
  optimizer_bound w = true → grad_enabled w = true →
  Forall (λ b, torch.len b.1 = Ok (length b.2)) bs →
  ∃ (k : nat) (pg' : gmap string Tensor * gmap string Tensor) (ls : list Qc),
    k ≤ length bs ∧
    spec_train_batches (parameters (model w), grads (model w)) (take k bs)
    = Ok (pg', ls) ∧
    parameters (model (interp (for_ (zip (seq i (length bs)) bs)
                                 (λ '(batch, (X, y)), train_body size batch X y))
                         w).2) = pg'.1 ∧
    grads (model (interp (for_ (zip (seq i (length bs)) bs)
                            (λ '(batch, (X, y)), train_body size batch X y))
                    w).2) = pg'.2 ∧
    match (interp (for_ (zip (seq i (length bs)) bs)
                     (λ '(batch, (X, y)), train_body size batch X y)) w).1 with
    | Ok _ => k = length bs
    | Raised e => ∃ b, bs !! k = Some b ∧ spec_train_batch pg' b = Raised e
    end.
Proof.
  intros Hob Hg Hlen. revert i w Hob Hg.
  induction Hlen as [|[X y] bs Hb _ IH]; intros i w Hob Hg.
  - exists 0, (parameters (model w), grads (model w)), []. done.
  - cbn [fst snd] in Hb. cbn [length seq zip zip_with for_].
    rewrite interp_bind, (interp_train_body size i X y w Hob Hg Hb).
    destruct (NeuralNetwork.forward (parameters (model w)) X) as [t|e] eqn:Ht.
    + destruct (loss_fn t y) as [l|e] eqn:Hl.
      * destruct (IH (S i) (after_batch w size i X y l) eq_refl eq_refl)
          as (k & pg' & ls & Hk & Hspec & Hp & Hgr & Hres).
        exists (S k), pg', (l :: ls). split; [cbn [length]; lia|].
        split; [|split; [done|split; [done|]]].
        -- cbn [take spec_train_batches]. unfold spec_train_batch.
           cbn [fst snd]. rewrite Ht. cbn [mbind Result_bind]. rewrite Hl.
           cbn [mbind Result_bind].
           unfold after_batch in Hspec. cbn [model parameters grads] in Hspec.
           by rewrite Hspec.
        -- destruct (interp _ (after_batch w size i X y l)).1; [by rewrite Hres|].
           done.
      * exists 0, (parameters (model w), grads (model w)), [].
        split; [cbn [length]; lia|]. split; [done|]. split; [done|].
        split; [done|]. cbn [fst]. exists (X, y). split; [done|].
        unfold spec_train_batch. cbn [fst snd]. rewrite Ht.
        cbn [mbind Result_bind]. by rewrite Hl.
    + exists 0, (parameters (model w), grads (model w)), [].
      split; [cbn [length]; lia|]. split; [done|]. split; [done|].
      split; [done|]. cbn [fst]. exists (X, y). split; [done|].
      unfold spec_train_batch. cbn [fst snd]. by rewrite Ht.
Qed.

(** X20. [train] stops between batches: with the optimizer working on the
    model and gradient mode on, the parameters and gradients a call leaves,
    whether it returns or raises, are those after a whole number [k] of
    steps on the first [k] batches.  When it returns [k] is the number of
    batches; when it raises [e], batch [k] is the first one on which the
    forward pass or the loss function raises, it raises [e], and nothing of
    that batch has reached the parameters while the steps of the batches
    before it stay. *)
Theorem train_stops_between_batches (dataloader : DataLoader) (w : World) :
  optimizer_bound w = true → grad_enabled w = true →
  ∃ (k : nat) (pg' : gmap string Tensor * gmap string Tensor) (ls : list Qc),
    k ≤ length (iter dataloader) ∧
    spec_train_batches (parameters (model w), grads (model w))
      (take k (iter dataloader)) = Ok (pg', ls) ∧
    parameters (model (interp (train dataloader) w).2) = pg'.1 ∧
    grads (model (interp (train dataloader) w).2) = pg'.2 ∧
    match (interp (train dataloader) w).1 with
    | Ok _ => k = length (iter dataloader)
    | Raised e =>
        ∃ b, iter dataloader !! k = Some b ∧ spec_train_batch pg' b = Raised e
    end.
Proof.
  intros Hob Hg. unfold train, enumerate.
  rewrite interp_bind, interp_trigger. cbn [handle].
  apply (train_loop_prefix (length (dataset dataloader)) (iter dataloader) 0
           (set_model (set_training true) w) Hob Hg (iter_len dataloader)).
Qed.

End Notebook.

(** ** The theorems at sample inputs *)

Lemma zero_parameters_ok : NeuralNetwork.topology_ok zero_parameters = true.
Proof. vm_compute. reflexivity. Qed.

Lemma fresh_world_ready : ready fresh_world = true.
Proof.
  apply ready_spec. split; [reflexivity|]. split; [reflexivity|].
  split; [reflexivity|]. exact zero_parameters_ok.
Qed.

Lemma reference_training_data_ok :
  forallb sample_ok reference_training_data = true.
Proof. vm_compute. reflexivity. Qed.

Lemma reference_test_data_ok : forallb sample_ok reference_test_data = true.
Proof. vm_compute. reflexivity. Qed.

Lemma reference_test_data_nonempty : reference_test_data ≠ [].
Proof.
  intros Hnil. apply (f_equal length) in Hnil.
  unfold reference_test_data in Hnil. rewrite length_replicate in Hnil.
  discriminate Hnil.
Qed.

Lemma reference_training_batches :
  data.len (train_dataloader reference_training_data) = 938.
Proof. vm_compute. reflexivity. Qed.

Lemma reference_test_batches :
  data.len (test_dataloader reference_test_data) = 157.
Proof. vm_compute. reflexivity. Qed.

Lemma unit_loss_total : loss_fn_total unit_loss.
Proof. intros t y _ _ _. reflexivity. Qed.

Lemma unit_loss_nonneg : loss_fn_nonneg unit_loss.
Proof. intros t y l [= <-]. by vm_compute. Qed.

(** Training on the reference data from the fresh state goes through. *)
Lemma reference_training_runs :
  ∃ p' ls,
    spec_train_batches unit_loss unit_gradient
      (parameters (model fresh_world), grads (model fresh_world))
      (data.iter (train_dataloader reference_training_data))
    = Ok ((p', ∅), ls).
Proof.
  destruct (spec_train_batches_ok unit_loss unit_gradient
              (parameters (model fresh_world))
              (data.iter (train_dataloader reference_training_data)))
    as (p' & ls & Hs & _).
  - exact unit_loss_total.
  - exact zero_parameters_ok.
  - apply iter_ok. exact reference_training_data_ok.
  - by exists p', ls.
Qed.

Lemma save_load_round_trip_witness :
  NeuralNetwork.topology_ok (parameters (model later_world)) = true ∧
  (interp unit_loss unit_gradient (bind save (λ _, load)) later_world).1 = Ok () ∧
  parameters (model (interp unit_loss unit_gradient
                       (bind save (λ _, load)) later_world).2)
  = zero_parameters ∧
  (∀ x : Tensor,
     (interp unit_loss unit_gradient (predict x)
        (interp unit_loss unit_gradient (bind save (λ _, load)) later_world).2).1
     = (interp unit_loss unit_gradient (predict x) later_world).1).
Proof.
  assert (NeuralNetwork.topology_ok (parameters (model later_world)) = true)
    as Hok by exact zero_parameters_ok.
  destruct (save_load_round_trip unit_loss unit_gradient later_world Hok)
    as (Hrun & Hp & _ & Hpred).
  split; [exact Hok|]. split; [exact Hrun|]. split; [exact Hp|exact Hpred].
Defined.

Lemma train_follows_description_witness :
  optimizer_bound fresh_world = true ∧ grad_enabled fresh_world = true ∧
  (interp unit_loss unit_gradient
     (train (train_dataloader reference_training_data)) fresh_world).1 = Ok () ∧
  grads (model (interp unit_loss unit_gradient
                  (train (train_dataloader reference_training_data))
                  fresh_world).2) = ∅ ∧
  trace unit_loss unit_gradient
    (train (train_dataloader reference_training_data)) fresh_world
  = train_calls (length (data.iter (train_dataloader reference_training_data))).
Proof.
  assert (optimizer_bound fresh_world = true) as Hob by reflexivity.
  assert (grad_enabled fresh_world = true) as Hg by reflexivity.
  split; [exact Hob|]. split; [exact Hg|].
  pose proof (train_follows_description unit_loss unit_gradient
                (train_dataloader reference_training_data) fresh_world Hob Hg)
    as H.
  destruct reference_training_runs as (p' & ls & Hs).
  rewrite Hs in H. destruct H as (Hrun & _ & Hgrads & _ & Htrace).
  split; [exact Hrun|]. split; [exact Hgrads|exact Htrace].
Defined.

Lemma run_epochs_n_iterations_witness :
  loss_fn_total unit_loss ∧ ready fresh_world = true ∧
  forallb sample_ok reference_training_data = true ∧
  forallb sample_ok reference_test_data = true ∧
  reference_test_data ≠ [] ∧
  epochs = 5 ∧
  ∃ (p' : gmap string Tensor) (reports : list (list Line * Qc * Qc)),
    (interp unit_loss unit_gradient
       (run_epochs reference_training_data reference_test_data epochs)
       fresh_world).1 = Ok () ∧
    trace unit_loss unit_gradient
      (run_epochs reference_training_data reference_test_data epochs)
      fresh_world
    = concat (replicate epochs
                (epoch_calls reference_training_data reference_test_data))
      ++ [CPrint] ∧
    length reports = epochs ∧
    Forall (λ r : list Line * Qc * Qc, Forall is_progress r.1.1) reports ∧
    stdout (interp unit_loss unit_gradient
              (run_epochs reference_training_data reference_test_data epochs)
              fresh_world).2
    = stdout fresh_world ++ concat (imap epoch_output reports) ++ [Done] ∧
    spec_train_epochs unit_loss unit_gradient reference_training_data epochs
      (parameters (model fresh_world), ∅) = Ok (p', ∅) ∧
    parameters (model (interp unit_loss unit_gradient
                         (run_epochs reference_training_data
                            reference_test_data epochs) fresh_world).2) = p'.
Proof.
  assert (ready fresh_world = true) as Hready by exact fresh_world_ready.
  assert (forallb sample_ok reference_training_data = true) as Htrain
    by exact reference_training_data_ok.
  assert (forallb sample_ok reference_test_data = true) as Htest
    by exact reference_test_data_ok.
  split; [exact unit_loss_total|]. split; [exact Hready|].
  split; [exact Htrain|]. split; [exact Htest|].
  split; [exact reference_test_data_nonempty|].
  exact (run_epochs_n_iterations unit_loss unit_gradient
           reference_training_data reference_test_data epochs fresh_world
           unit_loss_total Hready Htrain Htest reference_test_data_nonempty).
Defined.

Lemma predict_in_label_range_witness :
  NeuralNetwork.topology_ok (parameters (model fresh_world)) = true ∧
  length (data.image blank_image) = 28 * 28 ∧
  ∃ k : nat,
    (interp unit_loss unit_gradient
       (predict (data.image_tensor blank_image)) fresh_world).1 = Ok k
    ∧ k < 10.
Proof.
  assert (NeuralNetwork.topology_ok (parameters (model fresh_world)) = true)
    as Hok by exact zero_parameters_ok.
  assert (length (data.image blank_image) = 28 * 28) as Hlen
    by (vm_compute; reflexivity).
  split; [exact Hok|]. split; [exact Hlen|].
  exact (predict_in_label_range unit_loss unit_gradient blank_image fresh_world
           Hok Hlen).
Defined.

(** C7 as stated fails on the data sets of the notebook: 60000 is not a
    multiple of 64, so the last of the 938 training batches holds 32
    samples, and the last of the 157 test batches holds 16. *)
Lemma last_batches_are_short :
  (∃ (X : Tensor) (y : list nat),
     data.iter (train_dataloader reference_training_data) !! 937 = Some (X, y) ∧
     torch.len X = Ok 32 ∧ length y = 32) ∧
  (∃ (X : Tensor) (y : list nat),
     data.iter (test_dataloader reference_test_data) !! 156 = Some (X, y) ∧
     torch.len X = Ok 16 ∧ length y = 16) ∧
  32 ≠ batch_size ∧ 16 ≠ batch_size.
Proof.
  split; [|split; [|split; discriminate]].
  - rewrite iter_lookup by (rewrite reference_training_batches; lia).
    eexists _, _. split; [reflexivity|].
    assert (length (data.collate
                      (take batch_size
                         (drop (937 * batch_size) reference_training_data))).2
            = 32) as Hlen.
    { cbn [data.collate snd]. unfold reference_training_data.
      rewrite length_fmap, length_take, length_drop, length_replicate.
      vm_compute. reflexivity. }
    split; [|exact Hlen]. rewrite <- Hlen. apply collate_len.
  - rewrite iter_lookup by (rewrite reference_test_batches; lia).
    eexists _, _. split; [reflexivity|].
    assert (length (data.collate
                      (take batch_size
                         (drop (156 * batch_size) reference_test_data))).2
            = 16) as Hlen.
    { cbn [data.collate snd]. unfold reference_test_data.
      rewrite length_fmap, length_take, length_drop, length_replicate.
      vm_compute. reflexivity. }
    split; [|exact Hlen]. rewrite <- Hlen. apply collate_len.
Qed.

Lemma batch_lengths_witness :
  937 < data.len (data.mkDataLoader reference_training_data batch_size) ∧
  ∃ (X : Tensor) (y : list nat),
    data.iter (data.mkDataLoader reference_training_data batch_size) !! 937
    = Some (X, y) ∧
    torch.len X = Ok (length y) ∧
    length y = min batch_size (length reference_training_data - batch_size * 937) ∧
    1 ≤ length y ≤ batch_size ∧
    (938 < data.len (data.mkDataLoader reference_training_data batch_size) →
     length y = batch_size).
Proof.
  assert (937 < data.len (data.mkDataLoader reference_training_data batch_size))
    as Hi by (vm_compute; lia).
  split; [exact Hi|].
  exact (batch_lengths reference_training_data 937 Hi).
Defined.

Lemma train_prints_every_100_batches_witness :
  optimizer_bound fresh_world = true ∧ grad_enabled fresh_world = true ∧
  (interp unit_loss unit_gradient
     (train (train_dataloader reference_training_data)) fresh_world).1 = Ok () ∧
  length (stdout (interp unit_loss unit_gradient
                    (train (train_dataloader reference_training_data))
                    fresh_world).2) = 10.
Proof.
  assert (optimizer_bound fresh_world = true) as Hob by reflexivity.
  assert (grad_enabled fresh_world = true) as Hg by reflexivity.
  split; [exact Hob|]. split; [exact Hg|].
  pose proof (train_prints_every_100_batches unit_loss unit_gradient
                (train_dataloader reference_training_data) fresh_world Hob Hg)
    as H.
  destruct reference_training_runs as (p' & ls & Hs).
  rewrite Hs in H. destruct H as (Hrun & Hout & _ & Hcount).
  split; [exact Hrun|]. rewrite Hout.
  change (stdout fresh_world) with (@nil Line).
  rewrite app_nil_l, length_fmap, Hcount, length_iter.
  rewrite reference_training_batches. reflexivity.
Defined.

Lemma test_metrics_in_range_witness :
  loss_fn_nonneg unit_loss ∧
  (interp unit_loss unit_gradient
     (test (test_dataloader reference_test_data)) later_world).1 = Ok () ∧
  ∃ test_loss correct : Qc,
    stdout (interp unit_loss unit_gradient
              (test (test_dataloader reference_test_data)) later_world).2
    = [Done; TestError (Qc_of_Z 100 * correct)%Qc test_loss] ∧
    (0 ≤ correct ≤ 1)%Qc ∧ (0 ≤ test_loss)%Qc.
Proof.
  assert (loss_fn_nonneg unit_loss) as Hnn.
  { intros t y l Hl. injection Hl as <-. vm_compute. discriminate. }
  split; [exact Hnn|].
  destruct (test_metrics_in_range unit_loss unit_gradient
              (test_dataloader reference_test_data) later_world Hnn)
    as [Hrange Hruns].
  assert ((interp unit_loss unit_gradient
             (test (test_dataloader reference_test_data)) later_world).1 = Ok ())
    as Hrun.
  { apply Hruns.
    - exact unit_loss_total.
    - exact zero_parameters_ok.
    - exact reference_test_data_ok.
    - exact reference_test_data_nonempty.
    - cbn [test_dataloader data.batch_size]. unfold batch_size. lia. }
  split; [exact Hrun|].
  destruct (interp unit_loss unit_gradient
              (test (test_dataloader reference_test_data)) later_world)
    as [r w'].
  cbn [fst snd] in *. subst r.
  destruct (Hrange w' eq_refl) as (l & c & hits & Hout & _ & _ & Hc & Hl).
  exists l, c. split; [exact Hout|]. split; [exact Hc|exact Hl].
Defined.

Lemma test_deterministic_witness :
  parameters (model fresh_world) = parameters (model later_world) ∧
  (interp unit_loss unit_gradient
     (test (test_dataloader reference_test_data)) fresh_world).1
  = (interp unit_loss unit_gradient
       (test (test_dataloader reference_test_data)) later_world).1 ∧
  ∃ report : list Line,
    stdout (interp unit_loss unit_gradient
              (test (test_dataloader reference_test_data)) fresh_world).2
    = stdout fresh_world ++ report ∧
    stdout (interp unit_loss unit_gradient
              (test (test_dataloader reference_test_data)) later_world).2
    = stdout later_world ++ report.
Proof.
  assert (parameters (model fresh_world) = parameters (model later_world))
    as Hp by reflexivity.
  split; [exact Hp|].
  exact (test_deterministic unit_loss unit_gradient
           (test_dataloader reference_test_data) fresh_world later_world Hp).
Defined.

(** C8 as stated fails on what the line carries.  On a data set of one full
    batch the only line is printed for the batch of index 0, and the
    position it carries is [(0 + 1) * 64 = 64], as in the first line of every
    epoch in the notebook, not the index. *)
Lemma first_progress_line_carries_position :
  ∃ l : Qc,
    stdout (interp unit_loss unit_gradient
              (train (train_dataloader (replicate 64 blank_image)))
              fresh_world).2
    = [TrainProgress l 64 64] ∧ 64 ≠ 0.
Proof.
  pose proof (interp_train unit_loss unit_gradient
                (train_dataloader (replicate 64 blank_image)) fresh_world
                eq_refl eq_refl) as H.
  assert (data.iter (train_dataloader (replicate 64 blank_image))
          = [data.collate (replicate 64 blank_image)]) as Hiter by reflexivity.
  destruct (spec_train_batches_ok unit_loss unit_gradient
              (parameters (model fresh_world))
              (data.iter (train_dataloader (replicate 64 blank_image))))
    as (p' & ls & Hs & _).
  - exact unit_loss_total.
  - exact zero_parameters_ok.
  - apply iter_ok. vm_compute. reflexivity.
  - change (grads (model fresh_world)) with (∅ : gmap string Tensor) in H.
    rewrite Hs in H. destruct H as (Hrun & _ & Hls).
    rewrite Hiter in Hls, Hrun. destruct ls as [|l [|l' ls]]; try discriminate Hls.
    exists l. split; [|discriminate]. rewrite Hrun. reflexivity.
Qed.

(** ** The further properties at sample inputs *)

Lemma reference_training_data_nonempty : reference_training_data ≠ [].
Proof.
  intros Hnil. apply (f_equal length) in Hnil.
  unfold reference_training_data in Hnil. rewrite length_replicate in Hnil.
  discriminate Hnil.
Qed.

Lemma blank_image_length : length (data.image blank_image) = 28 * 28.
Proof. vm_compute. reflexivity. Qed.

Lemma blank_image_ok : sample_ok blank_image = true.
Proof. vm_compute. reflexivity. Qed.


(** Testing on the reference data goes through. *)
Lemma reference_test_runs :
  (interp unit_loss unit_gradient
     (test (test_dataloader reference_test_data)) later_world).1 = Ok ().
Proof.
  rewrite interp_test.
  destruct (metrics_ok unit_loss (parameters (model later_world))
              (test_dataloader reference_test_data)) as (l & c & ->).
  - exact unit_loss_total.
  - exact zero_parameters_ok.
  - exact reference_test_data_ok.
  - exact reference_test_data_nonempty.
  - cbn [test_dataloader data.batch_size]. unfold batch_size. lia.
  - reflexivity.
Qed.

Lemma reference_train_returns :
  (interp unit_loss unit_gradient
     (train (train_dataloader reference_training_data)) fresh_world).1 = Ok ().
Proof.
  pose proof (interp_train unit_loss unit_gradient
                (train_dataloader reference_training_data) fresh_world
                eq_refl eq_refl) as H.
  destruct reference_training_runs as (p' & ls & Hs).
  rewrite Hs in H. destruct H as (-> & _). reflexivity.
Qed.

Lemma test_accuracy_counts_samples_witness :
  NeuralNetwork.topology_ok (parameters (model later_world)) = true ∧
  Forall (λ s, length (data.image s) = 28 * 28) reference_test_data ∧
  (interp unit_loss unit_gradient
     (test (test_dataloader reference_test_data)) later_world).1 = Ok () ∧
  ∃ test_loss : Qc,
    stdout (interp unit_loss unit_gradient
              (test (test_dataloader reference_test_data)) later_world).2
    = stdout later_world
      ++ [TestError
            (Qc_of_Z 100
             * (Qc_of_Z (Z.of_nat (hits zero_parameters reference_test_data))
                / Qc_of_Z (Z.of_nat (length reference_test_data))))%Qc
            test_loss].
Proof.
  assert (NeuralNetwork.topology_ok (parameters (model later_world)) = true)
    as Hok by exact zero_parameters_ok.
  assert (Forall (λ s, length (data.image s) = 28 * 28) reference_test_data)
    as Hds by (apply Forall_replicate; exact blank_image_length).
  split; [exact Hok|]. split; [exact Hds|]. split; [exact reference_test_runs|].
  exact (test_accuracy_counts_samples unit_loss unit_gradient
           (test_dataloader reference_test_data) later_world Hok Hds
           reference_test_runs).
Defined.

Lemma train_needs_gradient_mode_witness :
  grad_enabled later_world = false ∧ loss_fn_total unit_loss ∧
  NeuralNetwork.topology_ok (parameters (model later_world)) = true ∧
  forallb sample_ok reference_training_data = true ∧
  reference_training_data ≠ [] ∧ 0 < batch_size ∧
  interp unit_loss unit_gradient
    (train (train_dataloader reference_training_data)) later_world
  = (Raised RuntimeError, set_model (set_training true) later_world) ∧
  trace unit_loss unit_gradient
    (train (train_dataloader reference_training_data)) later_world
  = [CTrainMode; CForward; CLossFn; CBackward].
Proof.
  assert (grad_enabled later_world = false) as Hg by reflexivity.
  assert (NeuralNetwork.topology_ok (parameters (model later_world)) = true)
    as Hok by exact zero_parameters_ok.
  assert (0 < batch_size) as Hb by (unfold batch_size; lia).
  split; [exact Hg|]. split; [exact unit_loss_total|]. split; [exact Hok|].
  split; [exact reference_training_data_ok|].
  split; [exact reference_training_data_nonempty|]. split; [exact Hb|].
  exact (train_needs_gradient_mode unit_loss unit_gradient
           (train_dataloader reference_training_data) later_world Hg
           unit_loss_total Hok reference_training_data_ok
           reference_training_data_nonempty Hb).
Defined.


Lemma progress_position_bounds_witness :
  optimizer_bound fresh_world = true ∧ grad_enabled fresh_world = true ∧
  (interp unit_loss unit_gradient
     (train (train_dataloader reference_training_data)) fresh_world).1 = Ok () ∧
  ∃ lines : list Line,
    stdout (interp unit_loss unit_gradient
              (train (train_dataloader reference_training_data)) fresh_world).2
    = stdout fresh_world ++ lines ∧
    Forall (λ line,
              ∃ (loss : Qc) (i m : nat),
                line = TrainProgress loss ((i + 1) * m)
                         (length reference_training_data) ∧
                (i + 1) * m ≤ length reference_training_data) lines.
Proof.
  assert (optimizer_bound fresh_world = true) as Hob by reflexivity.
  assert (grad_enabled fresh_world = true) as Hg by reflexivity.
  split; [exact Hob|]. split; [exact Hg|]. split; [exact reference_train_returns|].
  destruct (progress_position_bounds unit_loss unit_gradient
              (train_dataloader reference_training_data) fresh_world Hob Hg
              reference_train_returns) as (lines & Hout & Hlines).
  exists lines. split; [exact Hout|].
  eapply Forall_impl; [exact Hlines|].
  intros line (loss & i & m & Hline & _ & _ & _ & Hle1 & Hle2 & _).
  exists loss, i, m. split; [exact Hline|].
  exact (Nat.le_trans _ _ _ Hle1 Hle2).
Defined.

Lemma forward_accepts_witness :
  NeuralNetwork.topology_ok zero_parameters = true ∧
  well_shaped (data.image_tensor blank_image) = true ∧
  ∃ t, NeuralNetwork.forward zero_parameters (data.image_tensor blank_image) = Ok t
       ∧ shape t = [1; 10] ∧ well_shaped t = true.
Proof.
  assert (well_shaped (data.image_tensor blank_image) = true) as Hw
    by (vm_compute; reflexivity).
  split; [exact zero_parameters_ok|]. split; [exact Hw|].
  destruct (forward_accepts zero_parameters (data.image_tensor blank_image)
              zero_parameters_ok Hw) as (Hacc & _ & _).
  exact (Hacc 1 28 [28] eq_refl eq_refl).
Defined.

Lemma forward_on_batch_is_rowwise_witness :
  NeuralNetwork.topology_ok zero_parameters = true ∧
  Forall (λ s, length (data.image s) = 28 * 28) (replicate 64 blank_image) ∧
  ∃ rows : list (list Qc),
    Forall2 (λ s r, NeuralNetwork.forward zero_parameters (data.image_tensor s)
                    = Ok (mkTensor [1; 10] r) ∧ length r = 10)
      (replicate 64 blank_image) rows ∧
    NeuralNetwork.forward zero_parameters
      (data.collate (replicate 64 blank_image)).1
    = Ok (mkTensor [length (replicate 64 blank_image); 10] (concat rows)).
Proof.
  assert (Forall (λ s, length (data.image s) = 28 * 28) (replicate 64 blank_image))
    as Hs by (apply Forall_replicate; exact blank_image_length).
  split; [exact zero_parameters_ok|]. split; [exact Hs|].
  exact (forward_on_batch_is_rowwise zero_parameters (replicate 64 blank_image)
           zero_parameters_ok Hs).
Defined.

Lemma batches_partition_data_set_witness :
  0 < data.batch_size (train_dataloader reference_training_data) ∧
  concat (data.batches (train_dataloader reference_training_data))
  = reference_training_data ∧
  concat ((λ b : Tensor * list nat, b.2)
            <$> data.iter (train_dataloader reference_training_data))
  = data.label <$> reference_training_data.
Proof.
  assert (0 < data.batch_size (train_dataloader reference_training_data)) as Hb
    by (cbn [train_dataloader data.batch_size]; unfold batch_size; lia).
  split; [exact Hb|].
  destruct (batches_partition_data_set (train_dataloader reference_training_data)
              Hb) as (Hc & Hl & _).
  split; [exact Hc|exact Hl].
Defined.

Lemma run_epochs_without_test_data_witness :
  loss_fn_total unit_loss ∧ ready fresh_world = true ∧
  forallb sample_ok reference_training_data = true ∧
  @nil data.Sample = [] ∧ 0 < epochs ∧
  ∃ (p' : gmap string Tensor) (ls : list Qc),
    interp unit_loss unit_gradient
      (run_epochs reference_training_data [] epochs) fresh_world
    = (Raised ZeroDivisionError,
       mkWorld (mkModule p' ∅ false) true true (rng fresh_world)
         (stdout fresh_world ++ EpochHeader 1
            :: progress_lines (length reference_training_data)
                 (data.iter (train_dataloader reference_training_data)) ls)
         (files fresh_world)).
Proof.
  assert (0 < epochs) as Hn by (unfold epochs; lia).
  split; [exact unit_loss_total|]. split; [exact fresh_world_ready|].
  split; [exact reference_training_data_ok|]. split; [reflexivity|].
  split; [exact Hn|].
  destruct (run_epochs_without_test_data unit_loss unit_gradient
              reference_training_data [] epochs fresh_world unit_loss_total
              fresh_world_ready reference_training_data_ok eq_refl Hn)
    as (p' & ls & _ & Hrun).
  exists p', ls. exact Hrun.
Defined.

Lemma load_without_file_witness :
  files fresh_world !! "model.pth" = None ∧
  (interp unit_loss unit_gradient load fresh_world).1 = Raised FileNotFoundError ∧
  NeuralNetwork.topology_ok
    (parameters (model (interp unit_loss unit_gradient load fresh_world).2))
  = true ∧
  optimizer_bound (interp unit_loss unit_gradient load fresh_world).2 = false.
Proof.
  assert (files fresh_world !! "model.pth" = None) as Hfile by reflexivity.
  split; [exact Hfile|].
  destruct (load_without_file unit_loss unit_gradient fresh_world Hfile)
    as (Hrun & _ & Hok & _ & Hob & _).
  split; [exact Hrun|]. split; [exact Hok|exact Hob].
Defined.

Lemma reference_test_data_first : reference_test_data !! 0 = Some blank_image.
Proof. apply lookup_replicate_2. lia. Qed.

Lemma prediction_cell_returns_iff_witness :
  NeuralNetwork.topology_ok (parameters (model fresh_world)) = true ∧
  (∀ s, reference_test_data !! 0 = Some s → length (data.image s) = 28 * 28) ∧
  (interp unit_loss unit_gradient (prediction_cell reference_test_data 0)
     fresh_world).1 = Ok ().
Proof.
  assert (NeuralNetwork.topology_ok (parameters (model fresh_world)) = true)
    as Hok by exact zero_parameters_ok.
  assert (∀ s, reference_test_data !! 0 = Some s
               → length (data.image s) = 28 * 28) as Himg.
  { intros s Hs. apply lookup_replicate_1 in Hs as [-> _].
    exact blank_image_length. }
  split; [exact Hok|]. split; [exact Himg|].
  destruct (prediction_cell_returns_iff unit_loss unit_gradient
              reference_test_data 0 fresh_world Hok Himg) as [Hiff _].
  apply Hiff. exists blank_image. split; [exact reference_test_data_first|].
  cbn. lia.
Defined.

Lemma prediction_cell_prints_one_line_witness :
  reference_test_data !! 0 = Some blank_image ∧ sample_ok blank_image = true ∧
  NeuralNetwork.topology_ok (parameters (model fresh_world)) = true ∧
  ∃ (k : nat) (predicted : string),
    classes !! k = Some predicted ∧
    interp unit_loss unit_gradient (prediction_cell reference_test_data 0)
      fresh_world
    = (Ok (), mkWorld (set_training false (model fresh_world))
                (optimizer_bound fresh_world) (grad_enabled fresh_world)
                (rng fresh_world)
                (stdout fresh_world ++ [Prediction predicted "Ankle boot"])
                (files fresh_world)).
Proof.
  assert (NeuralNetwork.topology_ok (parameters (model fresh_world)) = true)
    as Hok by exact zero_parameters_ok.
  split; [exact reference_test_data_first|]. split; [exact blank_image_ok|].
  split; [exact Hok|].
  destruct (prediction_cell_prints_one_line unit_loss unit_gradient
              reference_test_data 0 blank_image fresh_world
              reference_test_data_first blank_image_ok Hok)
    as (k & predicted & actual & _ & Hp & Ha & Hrun & _).
  exists k, predicted. split; [exact Hp|].
  assert (actual = "Ankle boot") as <- by (cbn in Ha; congruence).
  exact Hrun.
Defined.

Lemma prediction_has_top_score_witness :
  NeuralNetwork.topology_ok (parameters (model fresh_world)) = true ∧
  length (data.image blank_image) = 28 * 28 ∧
  ∃ (k : nat) (t : Tensor) (top : Qc),
    (interp unit_loss unit_gradient (predict (data.image_tensor blank_image))
       fresh_world).1 = Ok k ∧
    NeuralNetwork.forward (parameters (model fresh_world))
      (data.image_tensor blank_image) = Ok t ∧
    data t !! k = Some top ∧
    ∀ j q, data t !! j = Some q → (q ≤ top)%Qc.
Proof.
  assert (NeuralNetwork.topology_ok (parameters (model fresh_world)) = true)
    as Hok by exact zero_parameters_ok.
  split; [exact Hok|]. split; [exact blank_image_length|].
  destruct (prediction_has_top_score unit_loss unit_gradient blank_image
              fresh_world Hok blank_image_length)
    as (k & t & top & Hk & Hf & _ & _ & Htop & Hmax).
  exists k, t, top. split; [exact Hk|]. split; [exact Hf|]. split; [exact Htop|].
  intros j q Hj. exact (proj1 (Hmax j q Hj)).
Defined.

Lemma checkpoint_survives_training_witness :
  NeuralNetwork.topology_ok (parameters (model fresh_world)) = true ∧
  (interp unit_loss unit_gradient load
     (interp unit_loss unit_gradient
        (run_epochs reference_training_data reference_test_data epochs)
        (interp unit_loss unit_gradient save fresh_world).2).2).1 = Ok () ∧
  parameters
    (model (interp unit_loss unit_gradient load
              (interp unit_loss unit_gradient
                 (run_epochs reference_training_data reference_test_data epochs)
                 (interp unit_loss unit_gradient save fresh_world).2).2).2)
  = zero_parameters.
Proof.
  assert (NeuralNetwork.topology_ok (parameters (model fresh_world)) = true)
    as Hok by exact zero_parameters_ok.
  split; [exact Hok|].
  destruct (checkpoint_survives_training unit_loss unit_gradient
              reference_training_data reference_test_data epochs fresh_world Hok)
    as (_ & Hload & Hp).
  split; [exact Hload|exact Hp].
Defined.

Lemma run_epochs_again_continues_witness :
  loss_fn_total unit_loss ∧ ready fresh_world = true ∧
  forallb sample_ok reference_training_data = true ∧
  forallb sample_ok reference_test_data = true ∧
  reference_test_data ≠ [] ∧
  parameters
    (model (interp unit_loss unit_gradient
              (bind (run_epochs reference_training_data reference_test_data epochs)
                 (λ _, run_epochs reference_training_data reference_test_data
                         epochs))
              fresh_world).2)
  = parameters
      (model (interp unit_loss unit_gradient
                (run_epochs reference_training_data reference_test_data
                   (epochs + epochs))
                fresh_world).2).
Proof.
  split; [exact unit_loss_total|]. split; [exact fresh_world_ready|].
  split; [exact reference_training_data_ok|].
  split; [exact reference_test_data_ok|].
  split; [exact reference_test_data_nonempty|].
  exact (proj2 (proj2 (run_epochs_again_continues unit_loss unit_gradient
                         reference_training_data reference_test_data
                         epochs epochs fresh_world unit_loss_total
                         fresh_world_ready reference_training_data_ok
                         reference_test_data_ok reference_test_data_nonempty))).
Defined.

Lemma train_stops_between_batches_witness :
  optimizer_bound fresh_world = true ∧ grad_enabled fresh_world = true ∧
  ∃ (k : nat) (pg' : gmap string Tensor * gmap string Tensor) (ls : list Qc),
    k ≤ length (data.iter (train_dataloader reference_training_data)) ∧
    spec_train_batches unit_loss unit_gradient
      (parameters (model fresh_world), grads (model fresh_world))
      (take k (data.iter (train_dataloader reference_training_data)))
    = Ok (pg', ls) ∧
    parameters (model (interp unit_loss unit_gradient
                         (train (train_dataloader reference_training_data))
                         fresh_world).2) = pg'.1.
Proof.
  assert (optimizer_bound fresh_world = true) as Hob by reflexivity.
  assert (grad_enabled fresh_world = true) as Hg by reflexivity.
  split; [exact Hob|]. split; [exact Hg|].
  destruct (train_stops_between_batches unit_loss unit_gradient
              (train_dataloader reference_training_data) fresh_world Hob Hg)
    as (k & pg' & ls & Hk & Hspec & Hp & _).
  exists k, pg', ls. split; [exact Hk|]. split; [exact Hspec|exact Hp].
Defined.
